(** * json_to_word: the document generator of [src/jtw/json/json_to_word.py]

    A shallow embedding of [DocumentGenerator] and of the part of the
    python-docx document model it writes to, followed by the properties
    of the generated document.

    Conventions of the embedding:
    - a Python [str] is a [string], its characters being the characters
      of the [string]; the values produced by [json.load] are the type
      [json], a dict being an association list in insertion order and a
      float being carried by its [repr];
    - [str] is written out on [None], booleans, integers, floats and
      strings; on lists and dicts it is the parameter [py_repr]. The
      method [str.title] is the parameter [str_title];
    - the entries of [text_templates.yaml] are records typed as the
      generator uses them (a section title, header rows of strings,
      optional table titles), a field being [None] when the key is
      missing;
    - an exception is a value of [exn]; a method of the generator is a
      computation in the state-and-exception monad [St state]: the state
      keeps whatever was built before an exception was raised;
    - the in-progress document [self.doc] is the list of the blocks
      appended so far; the files written by [Document.save] are a finite
      map from path to saved document, and whether a path can be written
      is the parameter [writable]. *)

From Stdlib Require Import String Ascii ZArith DecimalString List Lia.
From stdpp Require Import base option list gmap strings.

Set Warnings "-register-all".

Local Open Scope string_scope.
Local Open Scope list_scope.

(** ** Python values and exceptions *)

(** The values [json.load] builds. A float is carried by its [repr], the
    string [str] returns for it. *)
Inductive json : Type :=
| JNull
| JBool (b : bool)
| JInt (z : Z)
| JFloat (repr : string)
| JStr (s : string)
| JList (xs : list json)
| JDict (kv : list (string * json)).

Inductive exn : Type :=
| KeyError (k : string)
| IndexError
| TypeError
| AttributeError
| OSError.

(** [KeyError] and [IndexError] are the two subclasses of Python's
    [LookupError]. *)
Definition is_lookup_error (e : exn) : bool :=
  match e with
  | KeyError _ | IndexError => true
  | _ => false
  end.

Inductive result (A : Type) : Type :=
| Ok (a : A)
| Raise (e : exn).
Arguments Ok {A} a.
Arguments Raise {A} e.

Definition rbind {A B} (r : result A) (k : A -> result B) : result B :=
  match r with
  | Ok a => k a
  | Raise e => Raise e
  end.

Notation "'let?' x ':=' e 'in' k" := (rbind e (fun x => k))
  (at level 10, x pattern, e at level 100, k at level 200).

(** A list comprehension whose element expression may raise. *)
Fixpoint comprehension {A B} (f : A -> result B) (xs : list A) : result (list B) :=
  match xs with
  | [] => Ok []
  | x :: xs' =>
      let? y := f x in
      let? ys := comprehension f xs' in
      Ok (y :: ys)
  end.

(** [enumerate(xs)], counting from [n]. *)
Fixpoint enumerate_from {A} (n : nat) (xs : list A) : list (nat * A) :=
  match xs with
  | [] => []
  | x :: xs' => (n, x) :: enumerate_from (S n) xs'
  end.

Definition enumerate {A} (xs : list A) : list (nat * A) := enumerate_from 0 xs.

(** The first binding of a key. *)
Fixpoint assoc (k : string) (kv : list (string * json)) : option json :=
  match kv with
  | [] => None
  | (k', v) :: kv' => if String.eqb k k' then Some v else assoc k kv'
  end.

(** [d.get(k, default)]: only a dict has the method. *)
Definition py_get (d : json) (k : string) (default : json) : result json :=
  match d with
  | JDict kv => Ok (match assoc k kv with Some v => v | None => default end)
  | _ => Raise AttributeError
  end.

Definition is_substring (k s : string) : bool :=
  match String.index 0 k s with
  | Some _ => true
  | None => false
  end.

Definition is_str (k : string) (v : json) : bool :=
  match v with
  | JStr s => String.eqb k s
  | _ => false
  end.

(** [k in v] for a string [k]: key membership in a dict, element
    membership in a list, substring test in a string. *)
Definition py_contains (k : string) (v : json) : result bool :=
  match v with
  | JDict kv => Ok (match assoc k kv with Some _ => true | None => false end)
  | JList xs => Ok (existsb (is_str k) xs)
  | JStr s => Ok (is_substring k s)
  | _ => Raise TypeError
  end.

(** [v[k]] for a string [k]. *)
Definition py_getitem (v : json) (k : string) : result json :=
  match v with
  | JDict kv =>
      match assoc k kv with
      | Some x => Ok x
      | None => Raise (KeyError k)
      end
  | _ => Raise TypeError
  end.

Definition chars (s : string) : list json :=
  map (fun a => JStr (String a EmptyString)) (list_ascii_of_string s).

(** The elements a [for] loop or a comprehension visits. *)
Definition py_iter (v : json) : result (list json) :=
  match v with
  | JList xs => Ok xs
  | JDict kv => Ok (map (fun p => JStr (fst p)) kv)
  | JStr s => Ok (chars s)
  | _ => Raise TypeError
  end.

Definition py_len (v : json) : result nat :=
  match v with
  | JList xs => Ok (length xs)
  | JDict kv => Ok (length kv)
  | JStr s => Ok (String.length s)
  | _ => Raise TypeError
  end.

(** [v.items()]. *)
Definition py_items (v : json) : result (list (string * json)) :=
  match v with
  | JDict kv => Ok kv
  | _ => Raise AttributeError
  end.

Definition py_truthy (v : json) : bool :=
  match v with
  | JNull => false
  | JBool b => b
  | JInt z => negb (Z.eqb z 0)
  | JFloat r => negb (String.eqb r "0.0" || String.eqb r "-0.0")
  | JStr s => negb (String.eqb s "")
  | JList xs => match xs with [] => false | _ => true end
  | JDict kv => match kv with [] => false | _ => true end
  end.

Definition str_of_Z (z : Z) : string := NilZero.string_of_int (Z.to_int z).

Definition replace_char (a b : ascii) (s : string) : string :=
  string_of_list_ascii
    (map (fun c => if Ascii.eqb c a then b else c) (list_ascii_of_string s)).

(** ** The document model (python-docx) *)

Inductive alignment : Type := CENTER.

Record run : Type := Run { run_text : string; run_bold : bool }.

Record paragraph : Type := Paragraph {
  par_style : string;
  par_alignment : option alignment;
  par_runs : list run
}.

(** A cell is the list of the runs of its first paragraph: a fresh cell
    has none. *)
Definition cell : Type := list run.

Definition cell_text (c : cell) : string :=
  String.concat "" (map run_text c).

Record table : Type := Table {
  tbl_style : string;
  tbl_cols : nat;
  tbl_rows : list (list cell)
}.

Inductive block : Type :=
| BParagraph (p : paragraph)
| BTable (t : table).

Definition document : Type := list block.

Record state : Type := State {
  doc : document;
  files : gmap string document
}.

(** ** Computations that mutate a state and may raise *)

Definition St (S A : Type) : Type := S -> result A * S.

Definition ret {S A} (a : A) : St S A := fun s => (Ok a, s).

Definition bind {S A B} (m : St S A) (k : A -> St S B) : St S B :=
  fun s =>
    match m s with
    | (Ok a, s') => k a s'
    | (Raise e, s') => (Raise e, s')
    end.

Definition lift {S A} (r : result A) : St S A := fun s => (r, s).

Notation "'let*' x ':=' e 'in' k" := (bind e (fun x => k))
  (at level 10, x pattern, e at level 100, k at level 200).
Notation "'let+' x ':=' e 'in' k" := (bind (lift e) (fun x => k))
  (at level 10, x pattern, e at level 100, k at level 200).
Notation "e ';;;' k" := (bind e (fun _ => k))
  (at level 100, k at level 200, right associativity).

(** A [for] loop over an already evaluated sequence. *)
Fixpoint for_each {S A} (xs : list A) (body : A -> St S unit) : St S unit :=
  match xs with
  | [] => ret tt
  | x :: xs' => body x ;;; for_each xs' body
  end.

(** [d[k]] on a mapping whose key [k] is bound to [o] when present. *)
Definition key {A} (k : string) (o : option A) : result A :=
  match o with
  | Some a => Ok a
  | None => Raise (KeyError k)
  end.

(** *** Tables *)

Definition new_table (rows cols : nat) : table :=
  {| tbl_style := "Normal Table"; tbl_cols := cols;
     tbl_rows := replicate rows (replicate cols []) |}.

Definition set_style (style : string) : St table unit :=
  fun t => (Ok tt, {| tbl_style := style; tbl_cols := tbl_cols t; tbl_rows := tbl_rows t |}).

(** [table.add_row()]: a row of fresh cells, one per column; the result
    is the index of the new row. *)
Definition add_row : St table nat :=
  fun t => (Ok (length (tbl_rows t)),
            {| tbl_style := tbl_style t; tbl_cols := tbl_cols t;
               tbl_rows := tbl_rows t ++ [replicate (tbl_cols t) []] |}).

(** An in-place update of the cell [i] of the row [r]; indexing past the
    end of [cells] raises. *)
Definition update_cell (r i : nat) (f : cell -> result cell) : St table unit :=
  fun t =>
    match tbl_rows t !! r with
    | None => (Raise IndexError, t)
    | Some cells =>
        match cells !! i with
        | None => (Raise IndexError, t)
        | Some c =>
            match f c with
            | Ok c' =>
                (Ok tt, {| tbl_style := tbl_style t; tbl_cols := tbl_cols t;
                           tbl_rows := <[r := <[i := c']> cells]> (tbl_rows t) |})
            | Raise e => (Raise e, t)
            end
        end
    end.

(** [cells[i].text = text]: the content becomes one run. *)
Definition set_text (r i : nat) (text : string) : St table unit :=
  update_cell r i (fun _ => Ok [Run text false]).

(** [cells[i].paragraphs[0].runs[0].bold = True]. *)
Definition set_bold (r i : nat) : St table unit :=
  update_cell r i (fun c =>
    match c with
    | [] => Raise IndexError
    | Run text _ :: runs => Ok (Run text true :: runs)
    end).

(** *** The document *)

Definition append (b : block) : St state unit :=
  fun s => (Ok tt, {| doc := doc s ++ [b]; files := files s |}).

(** [doc.add_table(rows, cols)] followed by the statements [body] that
    fill the new table in place: the table is in the document from the
    start, so it stays there, as far as it got, when [body] raises. *)
Definition with_new_table {A} (rows cols : nat) (body : St table A) : St state A :=
  fun s =>
    let (r, t) := body (new_table rows cols) in
    (r, {| doc := doc s ++ [BTable t]; files := files s |}).

Definition blank : paragraph :=
  {| par_style := "Normal"; par_alignment := None; par_runs := [] |}.

(** [doc.add_heading(text, level=1)] with the alignment set afterwards:
    python-docx adds the run only for a non-empty text. *)
Definition heading (text : string) : paragraph :=
  {| par_style := "Heading 1"; par_alignment := Some CENTER;
     par_runs := if String.eqb text "" then [] else [Run text false] |}.

Definition bold_paragraph (text : string) : paragraph :=
  {| par_style := "Normal"; par_alignment := None; par_runs := [Run text true] |}.

(** [if title:] on an optional string. *)
Definition title_given (title : option string) : bool :=
  match title with
  | Some s => negb (String.eqb s "")
  | None => false
  end.

(** ** Templates *)

(** One entry of [text_templates.yaml]. A field is [None] when the entry
    has no such key; the title of a table may be the YAML null. *)
Record template : Type := Template {
  title : option string;
  table1_headers : option (list string);
  table1_title : option (option string);
  table2_headers : option (list string);
  table2_title : option (option string);
  table3_headers : option (list string);
  table3_title : option (option string)
}.

(** ** The generator *)

Section DocumentGenerator.

(** [str] of a list or of a dict (their [repr]). *)
Variable py_repr : json -> string.

(** [str.title]. *)
Variable str_title : string -> string.

(** Whether [Document.save] can write to a path. *)
Variable writable : string -> bool.

(** [self.json_data] and [self.templates], set once by [__init__]. *)
Variable json_data : json.
Variable templates : gmap string template.

Definition py_str (v : json) : string :=
  match v with
  | JNull => "None"
  | JBool true => "True"
  | JBool false => "False"
  | JInt z => str_of_Z z
  | JFloat r => r
  | JStr s => s
  | JList _ | JDict _ => py_repr v
  end.

(** [v.title()]: only a string has the method. *)
Definition py_title (v : json) : result json :=
  match v with
  | JStr s => Ok (JStr (str_title s))
  | _ => Raise AttributeError
  end.

Definition add_title (text : string) : St state unit :=
  append (BParagraph (heading text)) ;;;
  append (BParagraph blank).

Definition add_table (headers : list string) (rows : list (list json))
    (title : option string) : St state unit :=
  (if title_given title
   then append (BParagraph (bold_paragraph (default "" title)))
   else ret tt) ;;;
  with_new_table 1 (length headers) (
    set_style "Table Grid" ;;;
    (* Add headers *)
    for_each (enumerate headers) (fun '(i, header) =>
      set_text 0 i header ;;;
      set_bold 0 i) ;;;
    (* Add data rows *)
    for_each rows (fun row_data =>
      let* r := add_row in
      for_each (enumerate row_data) (fun '(i, cell_data) =>
        set_text r i (py_str cell_data)))) ;;;
  append (BParagraph blank).

Definition process_type_a (data : json) : St state unit :=
  let+ template := key "type_a" (templates !! "type_a") in
  let+ t := key "title" (title template) in
  add_title t ;;;
  (* Table 1: Device Information *)
  let+ items := py_iter data in
  let+ rows := comprehension (fun item =>
    let? id := py_getitem item "id" in
    let? name := py_getitem item "name" in
    let? description := py_getitem item "description" in
    Ok [id; name; description]) items in
  let+ h := key "table1_headers" (table1_headers template) in
  let+ t := key "table1_title" (table1_title template) in
  add_table h rows t ;;;
  (* Table 2: Parameters *)
  for_each items (fun item =>
    let+ params := py_getitem item "parameters" in
    let+ status := py_getitem params "status" in
    let+ priority := py_getitem params "priority" in
    let+ last_updated := py_getitem params "last_updated" in
    let+ h := key "table2_headers" (table2_headers template) in
    let+ t := key "table2_title" (table2_title template) in
    add_table h [[status; priority; last_updated]] t) ;;;
  (* Table 3: Additional Info *)
  let+ n := py_len data in
  let+ h := key "table3_headers" (table3_headers template) in
  let+ t := key "table3_title" (table3_title template) in
  add_table h [[JStr "Total Devices"; JInt (Z.of_nat n)]] t.

Definition process_type_b (data : json) : St state unit :=
  let+ template := key "type_b" (templates !! "type_b") in
  let+ t := key "title" (title template) in
  add_title t ;;;
  let+ items := py_iter data in
  for_each items (fun item =>
    (* Table 1: Component Details *)
    let+ component_id := py_getitem item "component_id" in
    let+ installation_date := py_getitem item "installation_date" in
    let+ h := key "table1_headers" (table1_headers template) in
    let+ t := key "table1_title" (table1_title template) in
    add_table h [[component_id; installation_date]] t ;;;
    (* Table 2: Technical Specs *)
    let+ specs := py_getitem item "specs" in
    let+ kvs := py_items specs in
    let+ h := key "table2_headers" (table2_headers template) in
    let+ t := key "table2_title" (table2_title template) in
    add_table h (map (fun '(k, v) => [JStr k; v]) kvs) t ;;;
    (* Table 3: Manufacturer Info *)
    let+ manufacturer := py_getitem specs "manufacturer" in
    let+ h := key "table3_headers" (table3_headers template) in
    let+ t := key "table3_title" (table3_title template) in
    add_table h [[JStr "Manufacturer"; manufacturer]] t).

Definition process_type_c (data : json) : St state unit :=
  let+ template := key "type_c" (templates !! "type_c") in
  let+ t := key "title" (title template) in
  add_title t ;;;
  let+ items := py_iter data in
  for_each items (fun item =>
    (* Table 1: Transaction Overview *)
    let+ transaction_id := py_getitem item "transaction_id" in
    let+ amount := py_getitem item "amount" in
    let+ currency := py_getitem item "currency" in
    let+ h := key "table1_headers" (table1_headers template) in
    let+ t := key "table1_title" (table1_title template) in
    add_table h [[transaction_id; amount; currency]] t ;;;
    (* Table 2: Party Information *)
    let+ parties := py_getitem item "parties" in
    let+ ps := py_iter parties in
    let+ h := key "table2_headers" (table2_headers template) in
    let+ t := key "table2_title" (table2_title template) in
    add_table h (map (fun '(i, party) => [JInt (Z.of_nat i + 1)%Z; party]) (enumerate ps)) t ;;;
    (* Table 3: Status *)
    let+ approved := py_getitem item "approved" in
    let+ h := key "table3_headers" (table3_headers template) in
    let+ t := key "table3_title" (table3_title template) in
    add_table h [[JStr "Approved"; JStr (if py_truthy approved then "Yes" else "No")]] t).

Definition process_type_d (data : json) : St state unit :=
  let+ template := key "type_d" (templates !! "type_d") in
  let+ t := key "title" (title template) in
  add_title t ;;;
  let+ items := py_iter data in
  for_each items (fun item =>
    (* Table 1: Test Information *)
    let+ test_id := py_getitem item "test_id" in
    let+ environment := py_getitem item "environment" in
    let+ h := key "table1_headers" (table1_headers template) in
    let+ t := key "table1_title" (table1_title template) in
    add_table h [[test_id; environment]] t ;;;
    (* Table 2: Metrics *)
    let+ metrics := py_getitem item "metrics" in
    let+ kvs := py_items metrics in
    let+ h := key "table2_headers" (table2_headers template) in
    let+ t := key "table2_title" (table2_title template) in
    add_table h
      (map (fun '(k, v) => [JStr (str_title (replace_char "_" " " k)); v]) kvs) t ;;;
    (* Table 3: Additional Details *)
    let+ environment := py_getitem item "environment" in
    let+ titled := py_title environment in
    let+ h := key "table3_headers" (table3_headers template) in
    let+ t := key "table3_title" (table3_title template) in
    add_table h [[JStr "Environment Type"; titled]] t).

Definition process_type_e (data : json) : St state unit :=
  let+ template := key "type_e" (templates !! "type_e") in
  let+ t := key "title" (title template) in
  add_title t ;;;
  let+ items := py_iter data in
  for_each items (fun item =>
    (* Table 1: Employee Details *)
    let+ employee_id := py_getitem item "employee_id" in
    let+ department := py_getitem item "department" in
    let+ role := py_getitem item "role" in
    let+ h := key "table1_headers" (table1_headers template) in
    let+ t := key "table1_title" (table1_title template) in
    add_table h [[employee_id; department; role]] t ;;;
    (* Table 2: Project Information *)
    let+ projects := py_getitem item "projects" in
    let+ ps := py_iter projects in
    let+ h := key "table2_headers" (table2_headers template) in
    let+ t := key "table2_title" (table2_title template) in
    add_table h (map (fun '(i, project) => [JInt (Z.of_nat i + 1)%Z; project]) (enumerate ps)) t ;;;
    (* Table 3: Additional Information *)
    let+ projects := py_getitem item "projects" in
    let+ n := py_len projects in
    let+ h := key "table3_headers" (table3_headers template) in
    let+ t := key "table3_title" (table3_title template) in
    add_table h [[JStr "Total Projects"; JInt (Z.of_nat n)]] t).

(** [if name in objects: process(objects[name])]. *)
Definition if_present (objects : json) (name : string)
    (process : json -> St state unit) : St state unit :=
  let+ present := py_contains name objects in
  if (present : bool)
  then let+ data := py_getitem objects name in process data
  else ret tt.

(** [self.doc.save(output_file)]. *)
Definition save (output_file : string) : St state unit :=
  fun s =>
    if writable output_file
    then (Ok tt, {| doc := doc s; files := <[output_file := doc s]> (files s) |})
    else (Raise OSError, s).

Definition generate_document (output_file : string) : St state unit :=
  let+ objects := py_get json_data "objects" (JDict []) in
  (* Process each type of object *)
  if_present objects "TypeA" process_type_a ;;;
  if_present objects "TypeB" process_type_b ;;;
  if_present objects "TypeC" process_type_c ;;;
  if_present objects "TypeD" process_type_d ;;;
  if_present objects "TypeE" process_type_e ;;;
  (* Save the document *)
  save output_file.

End DocumentGenerator.

(** ** What a call that returns has appended

    The blocks below are written from the description of the output, not
    from the code; the theorems relate the two. *)

Section Rendering.

Variable py_repr : json -> string.

Definition header_cell (header : string) : cell := [Run header true].

Definition data_cell (v : json) : cell := [Run (py_str py_repr v) false].

(** A data row of a table of [cols] columns: the values as strings, the
    remaining cells untouched. *)
Definition data_row (cols : nat) (values : list json) : list cell :=
  map data_cell values ++ replicate (cols - length values) [].

Definition rendered_table (headers : list string) (rows : list (list json)) : table :=
  {| tbl_style := "Table Grid"; tbl_cols := length headers;
     tbl_rows := map header_cell headers :: map (data_row (length headers)) rows |}.

Definition title_paragraph (title : option string) : list block :=
  if title_given title then [BParagraph (bold_paragraph (default "" title))] else [].

Definition table_blocks (headers : list string) (rows : list (list json))
    (title : option string) : list block :=
  title_paragraph title ++ [BTable (rendered_table headers rows); BParagraph blank].

Definition title_blocks (text : string) : list block :=
  [BParagraph (heading text); BParagraph blank].

(** Every row has a cell for each of its values. *)
Definition rows_fit (headers : list string) (rows : list (list json)) : Prop :=
  Forall (fun row => length row <= length headers) rows.

(** The body of the loop over the data rows in [add_table], and the
    statements of [add_table] between [doc.add_table] and the final
    paragraph, under names of their own. *)
Definition fill_row (row_data : list json) : St table unit :=
  let* r := add_row in
  for_each (enumerate row_data) (fun '(i, cell_data) =>
    set_text r i (py_str py_repr cell_data)).

Definition fill_table (headers : list string) (rows : list (list json)) : St table unit :=
  set_style "Table Grid" ;;;
  for_each (enumerate headers) (fun '(i, header) =>
    set_text 0 i header ;;;
    set_bold 0 i) ;;;
  for_each rows fill_row.

(** *** The field contracts of the five categories

    The rows of Table 1, Table 2 and Table 3 read from one record. *)

Variable str_title : string -> string.

Definition rows3 : Type := list (list json) * list (list json) * list (list json).

Definition device_row (item : json) : result (list json) :=
  let? id := py_getitem item "id" in
  let? name := py_getitem item "name" in
  let? description := py_getitem item "description" in
  Ok [id; name; description].

Definition parameters_row (item : json) : result (list json) :=
  let? params := py_getitem item "parameters" in
  let? status := py_getitem params "status" in
  let? priority := py_getitem params "priority" in
  let? last_updated := py_getitem params "last_updated" in
  Ok [status; priority; last_updated].

Definition rows_b (item : json) : result rows3 :=
  let? component_id := py_getitem item "component_id" in
  let? installation_date := py_getitem item "installation_date" in
  let? specs := py_getitem item "specs" in
  let? kvs := py_items specs in
  let? manufacturer := py_getitem specs "manufacturer" in
  Ok ([[component_id; installation_date]],
      map (fun '(k, v) => [JStr k; v]) kvs,
      [[JStr "Manufacturer"; manufacturer]]).

Definition numbered (xs : list json) : list (list json) :=
  map (fun '(i, x) => [JInt (Z.of_nat i + 1)%Z; x]) (enumerate xs).

Definition rows_c (item : json) : result rows3 :=
  let? transaction_id := py_getitem item "transaction_id" in
  let? amount := py_getitem item "amount" in
  let? currency := py_getitem item "currency" in
  let? parties := py_getitem item "parties" in
  let? ps := py_iter parties in
  let? approved := py_getitem item "approved" in
  Ok ([[transaction_id; amount; currency]],
      numbered ps,
      [[JStr "Approved"; JStr (if py_truthy approved then "Yes" else "No")]]).

Definition rows_d (item : json) : result rows3 :=
  let? test_id := py_getitem item "test_id" in
  let? environment := py_getitem item "environment" in
  let? metrics := py_getitem item "metrics" in
  let? kvs := py_items metrics in
  let? titled := py_title str_title environment in
  Ok ([[test_id; environment]],
      map (fun '(k, v) => [JStr (str_title (replace_char "_" " " k)); v]) kvs,
      [[JStr "Environment Type"; titled]]).

Definition rows_e (item : json) : result rows3 :=
  let? employee_id := py_getitem item "employee_id" in
  let? department := py_getitem item "department" in
  let? role := py_getitem item "role" in
  let? projects := py_getitem item "projects" in
  let? ps := py_iter projects in
  let? n := py_len projects in
  Ok ([[employee_id; department; role]],
      numbered ps,
      [[JStr "Total Projects"; JInt (Z.of_nat n)]]).

(** *** The layout of a section *)

(** Table 1, Table 2 and Table 3 of one record, in this order. *)
Definition three_tables (tpl : template) (r : rows3) (bs : list block) : Prop :=
  exists h1 t1 h2 t2 h3 t3,
    table1_headers tpl = Some h1 /\ table1_title tpl = Some t1 /\
    table2_headers tpl = Some h2 /\ table2_title tpl = Some t2 /\
    table3_headers tpl = Some h3 /\ table3_title tpl = Some t3 /\
    rows_fit h1 r.1.1 /\ rows_fit h2 r.1.2 /\ rows_fit h3 r.2 /\
    bs = table_blocks h1 r.1.1 t1 ++ table_blocks h2 r.1.2 t2 ++ table_blocks h3 r.2 t3.

(** The section of a category rendered record by record: the title,
    then the three tables of each record, the records in their order. *)
Definition per_record_section (templates : gmap string template) (name : string)
    (rows_of : json -> result rows3) (data : json) (bs : list block) : Prop :=
  exists tpl t items bss,
    templates !! name = Some tpl /\ title tpl = Some t /\
    py_iter data = Ok items /\
    Forall2 (fun item b => exists r, rows_of item = Ok r /\ three_tables tpl r b) items bss /\
    bs = title_blocks t ++ concat bss.

(** One Table 2 of category A. *)
Definition parameters_table (tpl : template) (item : json) (bs : list block) : Prop :=
  exists row h2 t2,
    parameters_row item = Ok row /\
    table2_headers tpl = Some h2 /\ table2_title tpl = Some t2 /\
    rows_fit h2 [row] /\
    bs = table_blocks h2 [row] t2.

(** The section of category A: the title, one Table 1 over all the
    records, one Table 2 per record, one Table 3 with the count. *)
Definition type_a_section (templates : gmap string template)
    (data : json) (bs : list block) : Prop :=
  exists tpl t items rows1 h1 t1 bss n h3 t3,
    templates !! "type_a" = Some tpl /\ title tpl = Some t /\
    py_iter data = Ok items /\
    comprehension device_row items = Ok rows1 /\
    table1_headers tpl = Some h1 /\ table1_title tpl = Some t1 /\
    rows_fit h1 rows1 /\
    Forall2 (parameters_table tpl) items bss /\
    py_len data = Ok n /\
    table3_headers tpl = Some h3 /\ table3_title tpl = Some t3 /\
    rows_fit h3 [[JStr "Total Devices"; JInt (Z.of_nat n)]] /\
    bs = title_blocks t ++ table_blocks h1 rows1 t1 ++ concat bss
         ++ table_blocks h3 [[JStr "Total Devices"; JInt (Z.of_nat n)]] t3.

(** What [if name in objects: ...] leaves in the document: nothing when
    the name is absent, the section of [objects[name]] otherwise. *)
Definition section_of (objects : json) (name : string)
    (section : json -> list block -> Prop) (bs : list block) : Prop :=
  (py_contains name objects = Ok false /\ bs = [])
  \/ (exists data,
        py_contains name objects = Ok true /\
        py_getitem objects name = Ok data /\ section data bs).

End Rendering.

(** The tables of a document, the rows below the header row, and the
    strings a row shows. *)
Definition tables (d : document) : list table :=
  omap (fun b => match b with BTable t => Some t | BParagraph _ => None end) d.

Definition data_rows (t : table) : list (list cell) := tail (tbl_rows t).

Definition row_texts (cells : list cell) : list string := map cell_text cells.

(** The paragraph of a title that is given at all, empty or not. *)
Definition given_title (title : option string) : list block :=
  match title with
  | Some text => [BParagraph (bold_paragraph text)]
  | None => []
  end.

(** [add_table] read as: for every header sequence, row sequence and
    optional title, the call returns, having appended the paragraph of the
    title if and only if one is given, then the table with the bold header
    row and one row per data row starting with the strings of its values,
    then one blank paragraph. *)
Definition add_table_for_every_input (py_repr : json -> string)
    (headers : list string) (rows : list (list json)) (title : option string) : Prop :=
  forall s, exists t,
    add_table py_repr headers rows title s
      = (Ok tt, State (doc s ++ given_title title ++ [BTable t; BParagraph blank]) (files s))
    /\ hd [] (tbl_rows t) = map header_cell headers
    /\ Forall2 (fun row cells => firstn (length row) cells = map (data_cell py_repr) row)
         rows (data_rows t).

(** A template entry with all its keys. *)
Definition full_template (t : string)
    (h1 : list string) (t1 : option string)
    (h2 : list string) (t2 : option string)
    (h3 : list string) (t3 : option string) : template :=
  {| title := Some t;
     table1_headers := Some h1; table1_title := Some t1;
     table2_headers := Some h2; table2_title := Some t2;
     table3_headers := Some h3; table3_title := Some t3 |}.

(** The scenario of the empty category list read as: Table 1 and
    Table 2 are both there with the header row only, then Table 3. *)
Definition empty_type_a_with_table2 (py_repr : json -> string) (t : string)
    (h1 : list string) (t1 : option string)
    (h2 : list string) (t2 : option string)
    (h3 : list string) (t3 : option string) : Prop :=
  forall (templates : gmap string template) (s : state),
    templates !! "type_a" = Some (full_template t h1 t1 h2 t2 h3 t3) ->
    process_type_a py_repr templates (JList []) s
    = (Ok tt,
       State (doc s ++ title_blocks t
              ++ table_blocks py_repr h1 [] t1
              ++ table_blocks py_repr h2 [] t2
              ++ table_blocks py_repr h3 [[JStr "Total Devices"; JInt 0]] t3)
             (files s)).

(** The input of the TypeC scenario. *)
Definition type_c_scenario (approved : bool) : json :=
  JDict [("objects", JDict [("TypeC", JList [
    JDict [("transaction_id", JStr "T1"); ("amount", JInt 100); ("currency", JStr "USD");
           ("parties", JList [JStr "Alice"; JStr "Bob"]); ("approved", JBool approved)]])])].

(** A value shows in a document when its string is the text of a cell
    of a data row of one of the tables. *)
Definition shows (py_repr : json -> string) (d : document) (v : json) : Prop :=
  exists t row c,
    In t (tables d) /\ In row (data_rows t) /\ In c row
    /\ cell_text c = py_str py_repr v.

(** The identifying field of the records of each category. *)
Definition identifying_fields : list (string * string) :=
  [("TypeA", "id"); ("TypeB", "component_id"); ("TypeC", "transaction_id");
   ("TypeD", "test_id"); ("TypeE", "employee_id")].

(** *** Record sets and missing fields

    The shapes the data model gives to the input: the objects mapping is
    a dict, a category is a list of dicts, and a field that is there has
    the shape its category gives it. *)

Definition is_dict (v : json) : bool :=
  match v with JDict _ => true | _ => false end.

Definition is_list (v : json) : bool :=
  match v with JList _ => true | _ => false end.

Definition is_string (v : json) : bool :=
  match v with JStr _ => true | _ => false end.

Definition field_is (shape : json -> bool) (item : json) (k : string) : bool :=
  match py_getitem item k with
  | Ok v => shape v
  | Raise _ => true
  end.

Definition record_a (item : json) : bool :=
  is_dict item && field_is is_dict item "parameters".

Definition record_b (item : json) : bool :=
  is_dict item && field_is is_dict item "specs".

Definition record_c (item : json) : bool :=
  is_dict item && field_is is_list item "parties".

Definition record_d (item : json) : bool :=
  is_dict item && field_is is_dict item "metrics" && field_is is_string item "environment".

Definition record_e (item : json) : bool :=
  is_dict item && field_is is_list item "projects".

(** The category [name], when present, is a list of records. *)
Definition records (record : json -> bool) (objects : json) (name : string) : bool :=
  match py_getitem objects name with
  | Ok (JList items) => forallb record items
  | Ok _ => false
  | Raise _ => true
  end.

Definition record_set (objects : json) : bool :=
  is_dict objects
  && records record_a objects "TypeA" && records record_b objects "TypeB"
  && records record_c objects "TypeC" && records record_d objects "TypeD"
  && records record_e objects "TypeE".

(** A dict without the key [k]. *)
Definition lacks (v : json) (k : string) : bool :=
  match v with
  | JDict kv => match assoc k kv with None => true | Some _ => false end
  | _ => false
  end.

(** A record whose field [k] is a dict without the key [k']. *)
Definition lacks_in (item : json) (k k' : string) : bool :=
  match py_getitem item k with
  | Ok v => lacks v k'
  | Raise _ => false
  end.

Definition incomplete_a (item : json) : bool :=
  lacks item "id" || lacks item "name" || lacks item "description"
  || lacks item "parameters" || lacks_in item "parameters" "status"
  || lacks_in item "parameters" "priority" || lacks_in item "parameters" "last_updated".

Definition incomplete_b (item : json) : bool :=
  lacks item "component_id" || lacks item "installation_date" || lacks item "specs"
  || lacks_in item "specs" "manufacturer".

Definition incomplete_c (item : json) : bool :=
  lacks item "transaction_id" || lacks item "amount" || lacks item "currency"
  || lacks item "parties" || lacks item "approved".

Definition incomplete_d (item : json) : bool :=
  lacks item "test_id" || lacks item "environment" || lacks item "metrics".

Definition incomplete_e (item : json) : bool :=
  lacks item "employee_id" || lacks item "department" || lacks item "role"
  || lacks item "projects".

(** Some record of the category [name] lacks a required field. *)
Definition has_incomplete (incomplete : json -> bool) (objects : json) (name : string) : bool :=
  match py_getitem objects name with
  | Ok (JList items) => existsb incomplete items
  | _ => false
  end.

(** The category [name] is present and the templates have no entry [k]. *)
Definition lacks_template (templates : gmap string template)
    (objects : json) (name k : string) : bool :=
  match py_getitem objects name, templates !! k with
  | Ok _, None => true
  | _, _ => false
  end.

(** The category [name], whose template entry is [k], has a record with
    a missing field or no template entry. *)
Definition category_fault (templates : gmap string template) (objects : json)
    (name k : string) (incomplete : json -> bool) : bool :=
  has_incomplete incomplete objects name || lacks_template templates objects name k.

Definition lookup_fault (templates : gmap string template) (objects : json) : bool :=
  category_fault templates objects "TypeA" "type_a" incomplete_a
  || category_fault templates objects "TypeB" "type_b" incomplete_b
  || category_fault templates objects "TypeC" "type_c" incomplete_c
  || category_fault templates objects "TypeD" "type_d" incomplete_d
  || category_fault templates objects "TypeE" "type_e" incomplete_e.

(** A computation that writes no file and raises only exceptions in
    [P]; in particular lookup errors only. *)
Definition raises_only (P : exn -> Prop) {A} (m : St state A) : Prop :=
  forall s r s', m s = (r, s') ->
    files s' = files s /\ forall e, r = Raise e -> P e.

Definition lookup_error (e : exn) : Prop := is_lookup_error e = true.

Definition any_error (e : exn) : Prop := True.

Abbreviation benign := (raises_only lookup_error).

(** One that always raises a lookup error, writing no file; one that
    never returns; one that writes no file when it raises. *)
Definition fails {A} (m : St state A) : Prop :=
  forall s, exists e s',
    m s = (Raise e, s') /\ is_lookup_error e = true /\ files s' = files s.

Definition never_returns {A} (m : St state A) : Prop :=
  forall s a s', m s <> (Ok a, s').

Definition no_write_on_raise {A} (m : St state A) : Prop :=
  forall s e s', m s = (Raise e, s') -> files s' = files s.

(** The five category names the driver looks for. *)
Definition category_names : list string := ["TypeA"; "TypeB"; "TypeC"; "TypeD"; "TypeE"].

(** Placeholders for [repr] and [str.title] where neither is called, and
    a destination that can be written. *)
Definition no_repr : json -> string := fun _ => "".
Definition no_title : string -> string := fun s => s.
Definition any_path : string -> bool := fun _ => true.
Definition fresh : state := {| doc := []; files := ∅ |}.

(** *** Sample templates and inputs *)

Definition type_a_sample : template :=
  full_template "Devices" ["ID"; "Name"; "Description"] (Some "Device Information")
    ["Status"; "Priority"; "Last Updated"] (Some "Parameters")
    ["Metric"; "Value"] None.

Definition type_b_sample : template :=
  full_template "Components" ["Component ID"; "Installation Date"] (Some "Component Details")
    ["Specification"; "Value"] (Some "Technical Specs")
    ["Field"; "Value"] (Some "Manufacturer Info").

Definition type_c_sample : template :=
  full_template "Transactions" ["Transaction ID"; "Amount"; "Currency"]
    (Some "Transaction Overview")
    ["#"; "Party"] (Some "Party Information")
    ["Field"; "Value"] (Some "Status").

Definition sample_templates : gmap string template :=
  {[ "type_a" := type_a_sample; "type_b" := type_b_sample; "type_c" := type_c_sample ]}.

Definition device (id name : string) : json :=
  JDict [("id", JStr id); ("name", JStr name); ("description", JStr "");
         ("parameters", JDict [("status", JStr "on"); ("priority", JInt 1);
                               ("last_updated", JStr "2024-01-01")])].

Definition component : json :=
  JDict [("component_id", JStr "C1"); ("installation_date", JStr "2024-02-01");
         ("specs", JDict [("manufacturer", JStr "Acme"); ("voltage", JInt 12)])].

Definition transaction : json :=
  JDict [("transaction_id", JStr "T1"); ("amount", JInt 100); ("currency", JStr "USD");
         ("parties", JList [JStr "Alice"; JStr "Bob"]); ("approved", JBool true)].

Definition sample_objects : list (string * json) :=
  [("TypeB", JList [component]); ("TypeC", JList [transaction])].

Definition sample_input : json := JDict [("objects", JDict sample_objects)].

(** The same input with one more key in the objects mapping. *)
Definition sample_input_extra : json :=
  JDict [("objects", JDict (("TypeZ", JList [JInt 1]) :: sample_objects))].

(** A component without its specs. *)
Definition faulty_objects : json :=
  JDict [("TypeB", JList [
    JDict [("component_id", JStr "C1"); ("installation_date", JStr "2024-02-01")]])].

Definition faulty_input : json := JDict [("objects", faulty_objects)].

Definition sample_run : result unit * state :=
  generate_document no_repr no_title any_path sample_input sample_templates "out.docx" fresh.

(** ** Invariants of the document and of the files *)

(** A computation that only appends to the document, whether it returns
    or raises. *)
Definition append_only {A} (m : St state A) : Prop :=
  forall s r s', m s = (r, s') -> exists bs, doc s' = doc s ++ bs.

(** A table as [add_table] leaves it when it returns: the grid style, a
    header row of bold cells, one cell per column in every row, and in the
    data rows cells that are untouched or hold one run that is not bold. *)
Definition grid_table (t : table) : Prop :=
  tbl_style t = "Table Grid"
  /\ exists header rows,
       tbl_rows t = header :: rows
       /\ length header = tbl_cols t
       /\ Forall (fun c => exists text, c = [Run text true]) header
       /\ Forall (fun row =>
                   length row = tbl_cols t
                   /\ Forall (fun c => c = [] \/ exists text, c = [Run text false]) row)
            rows.

(** ** The test module [src/jtw/json/test_json_to_word.py]

    A test method passes, fails on an assertion, or stops on another
    exception. The methods read [cls.json_data] and [cls.tables], the
    tables of the document loaded back from the file the generator
    saved. *)

Inductive verdict : Type :=
| Passed
| Failed
| Errored (e : exn).

(** [get_table_data]: the texts of the cells, row by row, the header row
    included. *)
Definition get_table_data (t : table) : list (list string) :=
  map (fun row => map cell_text row) (tbl_rows t).

(** [v in row] for a row of strings: only a string equals a string. *)
Definition py_in (v : json) (row : list string) : bool :=
  match v with
  | JStr s => existsb (String.eqb s) row
  | _ => false
  end.

(** [any(v in row for row in table_data)]. *)
Definition any_row (v : json) (table_data : list (list string)) : bool :=
  existsb (py_in v) table_data.

(** The loop over the tables that sets [found] and breaks. *)
Definition found_in_tables (tables : list table) (v : json) : bool :=
  existsb (fun t => any_row v (get_table_data t)) tables.

(** The loop [for item in data: self.assertTrue(found(item[field]))]. *)
Fixpoint assert_each (items : list json) (field : string) (found : json -> bool) : verdict :=
  match items with
  | [] => Passed
  | item :: rest =>
      match py_getitem item field with
      | Raise e => Errored e
      | Ok v => if found v then assert_each rest field found else Failed
      end
  end.

(** [self.json_data['objects'][name]]. *)
Definition category_data (json_data : json) (name : string) : result json :=
  let? objects := py_getitem json_data "objects" in
  py_getitem objects name.

Definition test_type_a_content (json_data : json) (tables : list table) : verdict :=
  match category_data json_data "TypeA" with
  | Raise e => Errored e
  | Ok type_a_data =>
      (* First table should be Type A *)
      match tables with
      | [] => Errored IndexError
      | t0 :: _ =>
          match py_iter type_a_data with
          | Raise e => Errored e
          | Ok items => assert_each items "id" (fun v => any_row v (get_table_data t0))
          end
      end
  end.

(** The shape the tests of the categories B to E share. *)
Definition test_content (name field : string) (json_data : json) (tables : list table)
    : verdict :=
  match category_data json_data name with
  | Raise e => Errored e
  | Ok data =>
      match py_iter data with
      | Raise e => Errored e
      | Ok items => assert_each items field (found_in_tables tables)
      end
  end.

Definition test_type_b_content : json -> list table -> verdict :=
  test_content "TypeB" "component_id".

Definition test_type_c_content : json -> list table -> verdict :=
  test_content "TypeC" "transaction_id".

Definition test_type_d_content : json -> list table -> verdict :=
  test_content "TypeD" "test_id".

Definition test_type_e_content : json -> list table -> verdict :=
  test_content "TypeE" "employee_id".

(** [tearDownClass]: the test output is removed if it is there. *)
Definition tearDownClass (fs : gmap string document) : gmap string document :=
  match fs !! "test_output.docx" with
  | Some _ => delete "test_output.docx" fs
  | None => fs
  end.

(** The identifying fields of all the records are strings. *)
Definition string_ids (items : list json) (field : string) : bool :=
  forallb (fun item => match py_getitem item field with
                       | Ok (JStr _) => true
                       | _ => false
                       end) items.

(** *** More sample templates and inputs *)

Definition type_d_sample : template :=
  full_template "Test Results" ["Test ID"; "Environment"] (Some "Test Information")
    ["Metric"; "Value"] (Some "Metrics")
    ["Field"; "Value"] (Some "Additional Details").

Definition type_e_sample : template :=
  full_template "Personnel" ["Employee ID"; "Department"; "Role"] (Some "Employee Details")
    ["#"; "Project"] (Some "Project Information")
    ["Field"; "Value"] (Some "Additional Information").

Definition more_templates : gmap string template :=
  {[ "type_d" := type_d_sample; "type_e" := type_e_sample ]}.

(** An entry with its title and nothing else. *)
Definition title_only : template :=
  {| title := Some "Components";
     table1_headers := None; table1_title := None;
     table2_headers := None; table2_title := None;
     table3_headers := None; table3_title := None |}.

Definition test_record (environment : json) : json :=
  JDict [("test_id", JStr "R1"); ("environment", environment);
         ("metrics", JDict [("Latency", JInt 5); ("Errors", JInt 0)])].

Definition employee : json :=
  JDict [("employee_id", JStr "E1"); ("department", JStr "R&D"); ("role", JStr "Lead");
         ("projects", JList [JStr "Apollo"; JStr "Gemini"])].

Definition devices_input : json :=
  JDict [("objects", JDict [("TypeA", JList [device "D1" "a"; device "D2" "b"])])].

(** ** Inputs whose identifiers are rendered *)

(** The identifying fields read as the specification words them: for
    every input, whatever the run does, the identifying field of every
    record of every present category shows in the document. *)
Definition ids_shown_for_every_input (py_repr : json -> string)
    (str_title : string -> string) (writable : string -> bool)
    (templates : gmap string template) (json_data : json) (output_file : string)
    (s : state) : Prop :=
  forall objects name field data items item,
    py_get json_data "objects" (JDict []) = Ok objects ->
    In (name, field) identifying_fields ->
    py_getitem objects name = Ok data ->
    py_iter data = Ok items ->
    In item items ->
    exists v,
      py_getitem item field = Ok v
      /\ shows py_repr
           (doc (snd (generate_document py_repr str_title writable json_data templates
                        output_file s))) v.

(** An input with the five categories and templates for them. *)
Definition all_templates : gmap string template :=
  {[ "type_a" := type_a_sample; "type_b" := type_b_sample; "type_c" := type_c_sample;
     "type_d" := type_d_sample; "type_e" := type_e_sample ]}.

Definition all_objects : list (string * json) :=
  [("TypeA", JList [device "D1" "a"; device "D2" "b"]);
   ("TypeB", JList [component]);
   ("TypeC", JList [transaction]);
   ("TypeD", JList [test_record (JStr "prod")]);
   ("TypeE", JList [employee])].

Definition all_input : json := JDict [("objects", JDict all_objects)].

(** A component with its id and nothing else. *)
Definition incomplete_input : json :=
  JDict [("objects", JDict [("TypeB", JList [JDict [("component_id", JStr "C1")]])])].

(** A template entry with all its keys and header rows of at least the
    given widths. *)
Definition wide_template (tpl : template) (w1 w2 w3 : nat) : Prop :=
  exists t h1 t1 h2 t2 h3 t3,
    tpl = full_template t h1 t1 h2 t2 h3 t3
    /\ w1 <= length h1 /\ w2 <= length h2 /\ w3 <= length h3.

(** A record all of whose fields can be read. *)
Definition complete_a (item : json) : Prop :=
  (exists row, device_row item = Ok row) /\ (exists row, parameters_row item = Ok row).

Definition complete (rows_of : json -> result rows3) (item : json) : Prop :=
  exists r, rows_of item = Ok r.

(** The category [name], when present, can be iterated over, its records
    are complete and its template entry [k] is there and wide enough. *)
Definition category_ready (templates : gmap string template) (objects : json)
    (name k : string) (w1 w2 : nat) (complete : json -> Prop) : Prop :=
  forall data, py_getitem objects name = Ok data ->
    exists items tpl,
      py_iter data = Ok items
      /\ templates !! k = Some tpl
      /\ wide_template tpl w1 w2 2
      /\ Forall complete items.

Definition input_ready (str_title : string -> string) (templates : gmap string template)
    (objects : json) : Prop :=
  is_dict objects = true
  /\ category_ready templates objects "TypeA" "type_a" 3 3 complete_a
  /\ category_ready templates objects "TypeB" "type_b" 2 2 (complete rows_b)
  /\ category_ready templates objects "TypeC" "type_c" 3 2 (complete rows_c)
  /\ category_ready templates objects "TypeD" "type_d" 2 2 (complete (rows_d str_title))
  /\ category_ready templates objects "TypeE" "type_e" 3 2 (complete rows_e).

(** What a test of the categories B to E does on given tables: it stops
    on the exception of [json_data['objects'][name]] when there is one,
    and otherwise passes or fails by the types of the identifying
    fields. *)
Definition test_outcome (test : json -> list table -> verdict) (name field : string)
    (json_data : json) (ts : list table) : Prop :=
  (forall e, category_data json_data name = Raise e -> test json_data ts = Errored e)
  /\ (forall data, category_data json_data name = Ok data ->
        exists items,
          py_iter data = Ok items
          /\ test json_data ts = if string_ids items field then Passed else Failed).

(** ** Laws of the monad *)

Section Laws.

Context {S : Type}.

Lemma bind_Ok {A B} (m : St S A) (k : A -> St S B) s a s' :
  m s = (Ok a, s') -> bind m k s = k a s'.
Proof. unfold bind. intros ->. reflexivity. Qed.

Lemma bind_Raise {A B} (m : St S A) (k : A -> St S B) s e s' :
  m s = (Raise e, s') -> bind m k s = (Raise e, s').
Proof. unfold bind. intros ->. reflexivity. Qed.

Lemma bind_Ok_inv {A B} (m : St S A) (k : A -> St S B) s b s'' :
  bind m k s = (Ok b, s'') ->
  exists a s', m s = (Ok a, s') /\ k a s' = (Ok b, s'').
Proof.
  unfold bind. destruct (m s) as [[a|e] s'] eqn:E; intros H.
  - eauto.
  - discriminate.
Qed.

End Laws.

(** ** Filling a table in place *)

Section TableLemmas.

Variable py_repr : json -> string.

Local Abbreviation fill_row := (fill_row py_repr).
Local Abbreviation fill_table := (fill_table py_repr).

Lemma update_cell_at (f : cell -> result cell) c c' style cols rs1 pre post rs2 :
  f c = Ok c' ->
  update_cell (length rs1) (length pre) f
    (Table style cols (rs1 ++ (pre ++ c :: post) :: rs2))
  = (Ok tt, Table style cols (rs1 ++ (pre ++ c' :: post) :: rs2)).
Proof.
  intros Hf. unfold update_cell. simpl.
  rewrite list_lookup_middle by reflexivity.
  rewrite list_lookup_middle by reflexivity.
  rewrite Hf. do 2 f_equal.
  rewrite insert_app_r_alt by lia. rewrite Nat.sub_diag. simpl. f_equal. f_equal.
  rewrite insert_app_r_alt by lia. rewrite Nat.sub_diag. reflexivity.
Qed.

Lemma update_cell_past_end (f : cell -> result cell) style cols rs1 cells rs2 :
  update_cell (length rs1) (length cells) f (Table style cols (rs1 ++ cells :: rs2))
  = (Raise IndexError, Table style cols (rs1 ++ cells :: rs2)).
Proof.
  unfold update_cell. simpl.
  rewrite list_lookup_middle by reflexivity.
  rewrite lookup_ge_None_2 by lia. reflexivity.
Qed.

(** The loop over the headers fills the cells of the first row from
    left to right. *)
Lemma header_loop style cols rs2 hs : forall pre post,
  for_each (enumerate_from (length pre) hs)
    (fun '(i, header) => set_text 0 i header ;;; set_bold 0 i)
    (Table style cols ((pre ++ replicate (length hs) [] ++ post) :: rs2))
  = (Ok tt, Table style cols ((pre ++ map header_cell hs ++ post) :: rs2)).
Proof.
  induction hs as [|h hs IH]; intros pre post; simpl.
  - reflexivity.
  - unfold set_text, set_bold.
    erewrite bind_Ok; cycle 1.
    { erewrite bind_Ok; cycle 1.
      { apply update_cell_at with (rs1 := []). reflexivity. }
      apply update_cell_at with (rs1 := []). reflexivity. }
    simpl.
    specialize (IH (pre ++ [header_cell h]) post).
    rewrite length_app in IH. simpl in IH. rewrite Nat.add_1_r in IH.
    rewrite <- !app_assoc in IH. simpl in IH. exact IH.
Qed.

(** The loop over the values of a data row, while cells remain. *)
Lemma row_loop style cols rs1 rs2 vals : forall pre olds post,
  length olds = length vals ->
  for_each (enumerate_from (length pre) vals)
    (fun '(i, cell_data) => set_text (length rs1) i (py_str py_repr cell_data))
    (Table style cols (rs1 ++ (pre ++ olds ++ post) :: rs2))
  = (Ok tt, Table style cols (rs1 ++ (pre ++ map (data_cell py_repr) vals ++ post) :: rs2)).
Proof.
  induction vals as [|v vals IH]; intros pre olds post Hlen.
  - destruct olds; [reflexivity | discriminate].
  - destruct olds as [|c olds]; [discriminate|].
    simpl in Hlen. injection Hlen as Hlen. simpl.
    unfold set_text at 1.
    erewrite bind_Ok; cycle 1.
    { apply update_cell_at. reflexivity. }
    specialize (IH (pre ++ [data_cell py_repr v]) olds post Hlen).
    rewrite length_app in IH. simpl in IH. rewrite Nat.add_1_r in IH.
    rewrite <- !app_assoc in IH. simpl in IH. exact IH.
Qed.

(** The same loop when the values outnumber the cells that remain. *)
Lemma row_loop_overflow style cols rs1 rs2 vals : forall pre olds,
  length olds < length vals ->
  exists t',
    for_each (enumerate_from (length pre) vals)
      (fun '(i, cell_data) => set_text (length rs1) i (py_str py_repr cell_data))
      (Table style cols (rs1 ++ (pre ++ olds) :: rs2))
    = (Raise IndexError, t').
Proof.
  induction vals as [|v vals IH]; intros pre olds Hlen; simpl in Hlen.
  - lia.
  - destruct olds as [|c olds]; simpl.
    + rewrite app_nil_r. unfold set_text.
      erewrite bind_Raise; [eauto|]. apply update_cell_past_end.
    + unfold set_text at 1.
      erewrite bind_Ok; cycle 1.
      { apply update_cell_at. reflexivity. }
      simpl in Hlen.
      destruct (IH (pre ++ [data_cell py_repr v]) olds ltac:(lia)) as [t' Ht'].
      rewrite length_app in Ht'. simpl in Ht'. rewrite Nat.add_1_r in Ht'.
      rewrite <- !app_assoc in Ht'. simpl in Ht'. eauto.
Qed.

Lemma replicate_split (cols n : nat) (c : cell) :
  n <= cols -> replicate cols c = replicate n c ++ replicate (cols - n) c.
Proof.
  intros H. rewrite <- replicate_add. f_equal. lia.
Qed.

Lemma fill_row_fit style cols rs vals :
  length vals <= cols ->
  fill_row vals (Table style cols rs)
  = (Ok tt, Table style cols (rs ++ [data_row py_repr cols vals])).
Proof.
  intros Hfit. unfold fill_row.
  erewrite bind_Ok; cycle 1.
  { unfold add_row. simpl. reflexivity. }
  rewrite (replicate_split cols (length vals)) by exact Hfit.
  apply (row_loop style cols rs [] vals [] (replicate (length vals) [])).
  apply length_replicate.
Qed.

Lemma fill_row_overflow style cols rs vals :
  cols < length vals ->
  exists t', fill_row vals (Table style cols rs) = (Raise IndexError, t').
Proof.
  intros Hlong. unfold fill_row.
  erewrite bind_Ok; cycle 1.
  { unfold add_row. simpl. reflexivity. }
  apply (row_loop_overflow style cols rs [] vals [] (replicate cols [])).
  rewrite length_replicate. exact Hlong.
Qed.

Lemma fill_rows_fit style cols rows : forall rs,
  Forall (fun row => length row <= cols) rows ->
  for_each rows fill_row (Table style cols rs)
  = (Ok tt, Table style cols (rs ++ map (data_row py_repr cols) rows)).
Proof.
  induction rows as [|row rows IH]; intros rs Hfit; simpl.
  - rewrite app_nil_r. reflexivity.
  - inversion Hfit as [|? ? Hrow Hrows]; subst.
    erewrite bind_Ok by (apply fill_row_fit; exact Hrow).
    rewrite IH by exact Hrows.
    rewrite <- app_assoc. reflexivity.
Qed.

Lemma fill_rows_overflow style cols rows : forall rs,
  Exists (fun row => cols < length row) rows ->
  exists t', for_each rows fill_row (Table style cols rs) = (Raise IndexError, t').
Proof.
  induction rows as [|row rows IH]; intros rs Hlong.
  - inversion Hlong.
  - simpl. destruct (le_lt_dec (length row) cols) as [Hfit|Hrow].
    + erewrite bind_Ok by (apply fill_row_fit; exact Hfit).
      apply IH. inversion Hlong as [? ? Hhd|? ? Htl]; subst; [lia | exact Htl].
    + destruct (fill_row_overflow style cols rs row Hrow) as [t' Ht'].
      erewrite bind_Raise by exact Ht'. eauto.
Qed.

Lemma add_table_unfold headers rows title :
  add_table py_repr headers rows title =
  ((if title_given title
    then append (BParagraph (bold_paragraph (default "" title)))
    else ret tt) ;;;
   with_new_table 1 (length headers) (fill_table headers rows) ;;;
   append (BParagraph blank)).
Proof. reflexivity. Qed.

Lemma fill_table_headers headers rows :
  fill_table headers rows (new_table 1 (length headers))
  = for_each rows fill_row
      (Table "Table Grid" (length headers) [map header_cell headers]).
Proof.
  unfold fill_table.
  erewrite bind_Ok by reflexivity.
  erewrite bind_Ok; [reflexivity|].
  unfold new_table. simpl.
  pose proof (header_loop "Table Grid" (length headers) [] headers [] []) as H.
  simpl in H. rewrite !app_nil_r in H. exact H.
Qed.

Lemma title_step title (s : state) :
  (if title_given title
   then append (BParagraph (bold_paragraph (default "" title)))
   else ret tt) s
  = (Ok tt, State (doc s ++ title_paragraph title) (files s)).
Proof.
  unfold title_paragraph. destruct (title_given title); simpl.
  - reflexivity.
  - unfold ret. rewrite app_nil_r. destruct s; reflexivity.
Qed.

Lemma add_table_fit headers rows title (s : state) :
  rows_fit headers rows ->
  add_table py_repr headers rows title s
  = (Ok tt, State (doc s ++ table_blocks py_repr headers rows title) (files s)).
Proof.
  intros Hfit. rewrite add_table_unfold.
  erewrite bind_Ok by apply title_step.
  erewrite bind_Ok; cycle 1.
  { unfold with_new_table. rewrite fill_table_headers.
    rewrite fill_rows_fit by exact Hfit. simpl. reflexivity. }
  unfold append, table_blocks, rendered_table. simpl.
  rewrite <- !app_assoc. reflexivity.
Qed.

Lemma add_table_overflow headers rows title (s : state) :
  Exists (fun row => length headers < length row) rows ->
  exists s',
    add_table py_repr headers rows title s = (Raise IndexError, s')
    /\ files s' = files s.
Proof.
  intros Hlong. rewrite add_table_unfold.
  erewrite bind_Ok by apply title_step.
  destruct (fill_rows_overflow "Table Grid" (length headers) rows
              [map header_cell headers] Hlong) as [t' Ht'].
  erewrite bind_Raise; cycle 1.
  { unfold with_new_table. rewrite fill_table_headers, Ht'. reflexivity. }
  eauto.
Qed.

Lemma rows_fit_dec headers rows :
  rows_fit headers rows \/ Exists (fun row => length headers < length row) rows.
Proof.
  unfold rows_fit. induction rows as [|row rows [IH|IH]].
  - left. constructor.
  - destruct (le_lt_dec (length row) (length headers)).
    + left. constructor; assumption.
    + right. constructor. assumption.
  - right. apply Exists_cons_tl. exact IH.
Qed.

Lemma add_table_Ok_inv headers rows title (s s' : state) u :
  add_table py_repr headers rows title s = (Ok u, s') ->
  rows_fit headers rows
  /\ s' = State (doc s ++ table_blocks py_repr headers rows title) (files s).
Proof.
  intros H. destruct (rows_fit_dec headers rows) as [Hfit|Hlong].
  - split; [exact Hfit|]. rewrite add_table_fit in H by exact Hfit. congruence.
  - destruct (add_table_overflow headers rows title s Hlong) as (s1 & H1 & _).
    congruence.
Qed.

End TableLemmas.


(** ** Stepping through a computation *)

Section Steps.

Lemma bind_lift {S A B} (r : result A) (k : A -> St S B) (s : S) :
  bind (lift r) k s = match r with Ok a => k a s | Raise e => (Raise e, s) end.
Proof. destruct r; reflexivity. Qed.

Lemma add_title_run text (s : state) :
  add_title text s = (Ok tt, State (doc s ++ title_blocks text) (files s)).
Proof.
  unfold add_title, append, bind, title_blocks. simpl.
  rewrite <- app_assoc. reflexivity.
Qed.

Lemma key_Some {A} (k : string) (a : A) : key k (Some a) = Ok a.
Proof. reflexivity. Qed.

Lemma state_eta (s : state) : State (doc s ++ []) (files s) = s.
Proof. rewrite app_nil_r. destruct s; reflexivity. Qed.

(** A loop that returns has appended what its iterations appended, in
    the order of the sequence. *)
Lemma for_each_Ok_inv {A} (body : A -> St state unit) (R : A -> list block -> Prop) xs :
  (forall x s u s', body x s = (Ok u, s') ->
     exists bs, R x bs /\ s' = State (doc s ++ bs) (files s)) ->
  forall s u s', for_each xs body s = (Ok u, s') ->
    exists bss, Forall2 R xs bss /\ s' = State (doc s ++ concat bss) (files s).
Proof.
  intros Hbody. induction xs as [|x xs IH]; intros s u s' H; simpl in H.
  - injection H as _ <-. exists []. split; [constructor|].
    simpl. symmetry. apply state_eta.
  - apply bind_Ok_inv in H as (u1 & s1 & H1 & H2).
    apply Hbody in H1 as (bs & HR & ->).
    apply IH in H2 as (bss & Hall & ->).
    exists (bs :: bss). split; [constructor; assumption|].
    simpl. rewrite <- app_assoc. reflexivity.
Qed.

Lemma for_each_Ok {A} (body : A -> St state unit) (R : A -> list block -> Prop) xs bss :
  (forall x bs s, R x bs -> body x s = (Ok tt, State (doc s ++ bs) (files s))) ->
  Forall2 R xs bss ->
  forall s, for_each xs body s = (Ok tt, State (doc s ++ concat bss) (files s)).
Proof.
  intros Hbody Hall. induction Hall as [|x bs xs bss HR _ IH]; intros s; simpl.
  - unfold ret. rewrite state_eta. reflexivity.
  - erewrite bind_Ok by (apply Hbody; exact HR).
    rewrite IH. simpl. rewrite <- app_assoc. reflexivity.
Qed.

End Steps.

(** One step backwards through a computation that returned. *)
Ltac inv_step H :=
  lazymatch type of H with
  | bind (lift (Ok _)) _ _ = (Ok _, _) =>
      rewrite bind_lift in H; cbv beta iota in H
  | bind (lift ?r) _ _ = (Ok _, _) =>
      rewrite bind_lift in H;
      let E := fresh "E" in
      destruct r eqn:E; [cbv beta in H | discriminate H]
  | bind (add_title _) _ _ = (Ok _, _) =>
      erewrite bind_Ok in H by apply add_title_run
  | bind (add_table _ _ _ _) _ _ = (Ok _, _) =>
      let u := fresh "u" in
      let s1 := fresh "s" in
      let H1 := fresh "F" in
      apply bind_Ok_inv in H as (u & s1 & H1 & H);
      apply add_table_Ok_inv in H1 as [H1 ->]
  | add_table _ _ _ _ _ = (Ok _, _) =>
      let H1 := fresh "F" in
      apply add_table_Ok_inv in H as [H1 ->]
  end.

(** The key lookups that succeeded, as equations on the mapping. *)
Ltac inv_keys :=
  unfold key in *;
  repeat match goal with
         | E : match ?o with Some _ => _ | None => _ end = Ok _ |- _ =>
             let K := fresh "K" in
             destruct o eqn:K; [injection E as -> | discriminate E]
         end.

Ltac use_eqs :=
  repeat match goal with
         | E : ?r = Ok _ |- context [?r] => rewrite E; simpl
         end.

Ltac tidy := simpl; rewrite <- ?app_assoc; simpl; try reflexivity.

(** Steps forwards, with the lookups that succeed among the hypotheses. *)
Ltac fwd :=
  repeat first
    [ rewrite bind_lift
    | match goal with
      | K : ?o = Some _ |- context [key _ ?o] => rewrite K
      end
    | rewrite key_Some
    | match goal with
      | E : ?r = Ok _ |- context [match ?r with Ok _ => _ | Raise _ => _ end] =>
          rewrite E
      end
    | erewrite bind_Ok by apply add_title_run
    | erewrite bind_Ok by (apply add_table_fit; eassumption)
    | progress cbv beta iota ].

(** The lookups behind a row that was read. *)
Ltac inv_rbind H :=
  repeat match type of H with
         | rbind ?r _ = Ok _ =>
             let E := fresh "E" in
             destruct r eqn:E; [cbn [rbind] in H | discriminate H]
         end.

(** The three tables of one record of the categories B to E. *)
Ltac solve_record rows_of H :=
  repeat inv_step H; inv_keys;
  eexists; split; [|tidy];
  unfold rows_of; use_eqs; eexists; split; [reflexivity|];
  unfold three_tables; simpl; repeat eexists; eauto.

(** The three tables of one record, forwards. *)
Ltac run_record rows_of Er Hthree :=
  destruct Hthree as (h1 & t1 & h2 & t2 & h3 & t3 & Kh1 & Kt1 & Kh2 & Kt2 & Kh3 & Kt3
                      & F1 & F2 & F3 & ->);
  unfold rows_of in Er; inv_rbind Er; injection Er as <-;
  simpl in F1, F2, F3; fwd;
  rewrite add_table_fit by eassumption; tidy.

(** ** The category processors *)

Section ProcessorLemmas.

Variable py_repr : json -> string.
Variable str_title : string -> string.
Variable templates : gmap string template.

Lemma process_type_b_Ok_inv data s u s' :
  process_type_b py_repr templates data s = (Ok u, s') ->
  exists bs, per_record_section py_repr templates "type_b" rows_b data bs
             /\ s' = State (doc s ++ bs) (files s).
Proof.
  intros H. unfold process_type_b in H.
  do 4 inv_step H.
  eapply (for_each_Ok_inv _
            (fun item b => exists r, rows_b item = Ok r /\ three_tables py_repr _ r b)) in H.
  - destruct H as (bss & Hall & ->). inv_keys.
    eexists. split; [|tidy]. unfold per_record_section. eauto 10.
  - clear. intros item s u s' H. solve_record rows_b H.
Qed.

Lemma process_type_c_Ok_inv data s u s' :
  process_type_c py_repr templates data s = (Ok u, s') ->
  exists bs, per_record_section py_repr templates "type_c" rows_c data bs
             /\ s' = State (doc s ++ bs) (files s).
Proof.
  intros H. unfold process_type_c in H.
  do 4 inv_step H.
  eapply (for_each_Ok_inv _
            (fun item b => exists r, rows_c item = Ok r /\ three_tables py_repr _ r b)) in H.
  - destruct H as (bss & Hall & ->). inv_keys.
    eexists. split; [|tidy]. unfold per_record_section. eauto 10.
  - clear. intros item s u s' H. solve_record rows_c H.
Qed.

Lemma process_type_d_Ok_inv data s u s' :
  process_type_d py_repr str_title templates data s = (Ok u, s') ->
  exists bs, per_record_section py_repr templates "type_d" (rows_d str_title) data bs
             /\ s' = State (doc s ++ bs) (files s).
Proof.
  intros H. unfold process_type_d in H.
  do 4 inv_step H.
  eapply (for_each_Ok_inv _
            (fun item b => exists r, rows_d str_title item = Ok r
                                     /\ three_tables py_repr _ r b)) in H.
  - destruct H as (bss & Hall & ->). inv_keys.
    eexists. split; [|tidy]. unfold per_record_section. eauto 10.
  - clear. intros item s u s' H. solve_record rows_d H.
Qed.

Lemma process_type_e_Ok_inv data s u s' :
  process_type_e py_repr templates data s = (Ok u, s') ->
  exists bs, per_record_section py_repr templates "type_e" rows_e data bs
             /\ s' = State (doc s ++ bs) (files s).
Proof.
  intros H. unfold process_type_e in H.
  do 4 inv_step H.
  eapply (for_each_Ok_inv _
            (fun item b => exists r, rows_e item = Ok r /\ three_tables py_repr _ r b)) in H.
  - destruct H as (bss & Hall & ->). inv_keys.
    eexists. split; [|tidy]. unfold per_record_section. eauto 10.
  - clear. intros item s u s' H. solve_record rows_e H.
Qed.

Lemma process_type_a_Ok_inv data s u s' :
  process_type_a py_repr templates data s = (Ok u, s') ->
  exists bs, type_a_section py_repr templates data bs
             /\ s' = State (doc s ++ bs) (files s).
Proof.
  intros H. unfold process_type_a in H.
  do 8 inv_step H.
  apply bind_Ok_inv in H as (u1 & s2 & H1 & H).
  eapply (for_each_Ok_inv _ (parameters_table py_repr _)) in H1.
  - destruct H1 as (bss & Hall & ->).
    repeat inv_step H. inv_keys.
    eexists. split; [|tidy].
    unfold type_a_section. repeat eexists; eauto.
  - clear. intros item s u s' H.
    repeat inv_step H. inv_keys.
    eexists. split; [|tidy].
    unfold parameters_table, parameters_row. use_eqs.
    repeat eexists; eauto.
Qed.

Lemma process_type_a_run data bs (s : state) :
  type_a_section py_repr templates data bs ->
  process_type_a py_repr templates data s = (Ok tt, State (doc s ++ bs) (files s)).
Proof.
  intros (tpl & t & items & rows1 & h1 & t1 & bss & n & h3 & t3 & Ktpl & Kt & Eiter
          & Ecomp & Kh1 & Kt1 & F1 & Hall & Elen & Kh3 & Kt3 & F3 & ->).
  unfold process_type_a. fold device_row. fwd.
  erewrite bind_Ok; cycle 1.
  { apply (for_each_Ok _ (parameters_table py_repr tpl)); [|exact Hall].
    clear. intros item bs s (row & h2 & t2 & Erow & Kh2 & Kt2 & F2 & ->).
    unfold parameters_row in Erow. inv_rbind Erow. injection Erow as <-.
    fwd. apply add_table_fit. exact F2. }
  fwd. rewrite add_table_fit by exact F3. tidy.
Qed.

Lemma row_texts_data_row cols values :
  row_texts (data_row py_repr cols values)
  = map (py_str py_repr) values ++ replicate (cols - length values) "".
Proof.
  unfold row_texts, data_row. rewrite map_app, map_map. f_equal.
  induction (cols - length values) as [|k IH]; simpl; [reflexivity | f_equal; exact IH].
Qed.

Lemma comprehension_Forall2 {A B} (f : A -> result B) xs ys :
  Forall2 (fun x y => f x = Ok y) xs ys -> comprehension f xs = Ok ys.
Proof.
  induction 1 as [|x y xs ys Hx _ IH]; simpl; [reflexivity|].
  rewrite Hx. simpl. rewrite IH. reflexivity.
Qed.

Lemma process_type_b_run data bs (s : state) :
  per_record_section py_repr templates "type_b" rows_b data bs ->
  process_type_b py_repr templates data s = (Ok tt, State (doc s ++ bs) (files s)).
Proof.
  intros (tpl & t & items & bss & Ktpl & Kt & Eiter & Hall & ->).
  unfold process_type_b. fwd.
  erewrite for_each_Ok; [tidy | | exact Hall].
  clear. intros item bs s (r & Er & Hthree). run_record rows_b Er Hthree.
Qed.

Lemma process_type_c_run data bs (s : state) :
  per_record_section py_repr templates "type_c" rows_c data bs ->
  process_type_c py_repr templates data s = (Ok tt, State (doc s ++ bs) (files s)).
Proof.
  intros (tpl & t & items & bss & Ktpl & Kt & Eiter & Hall & ->).
  unfold process_type_c. fwd.
  erewrite for_each_Ok; [tidy | | exact Hall].
  clear. intros item bs s (r & Er & Hthree). run_record rows_c Er Hthree.
Qed.

Lemma process_type_d_run data bs (s : state) :
  per_record_section py_repr templates "type_d" (rows_d str_title) data bs ->
  process_type_d py_repr str_title templates data s
  = (Ok tt, State (doc s ++ bs) (files s)).
Proof.
  intros (tpl & t & items & bss & Ktpl & Kt & Eiter & Hall & ->).
  unfold process_type_d. fwd.
  erewrite for_each_Ok; [tidy | | exact Hall].
  clear. intros item bs s (r & Er & Hthree). run_record rows_d Er Hthree.
Qed.

Lemma process_type_e_run data bs (s : state) :
  per_record_section py_repr templates "type_e" rows_e data bs ->
  process_type_e py_repr templates data s = (Ok tt, State (doc s ++ bs) (files s)).
Proof.
  intros (tpl & t & items & bss & Ktpl & Kt & Eiter & Hall & ->).
  unfold process_type_e. fwd.
  erewrite for_each_Ok; [tidy | | exact Hall].
  clear. intros item bs s (r & Er & Hthree). run_record rows_e Er Hthree.
Qed.

(** *** The driver *)

Lemma if_present_absent kv name process (s : state) :
  assoc name kv = None ->
  if_present (JDict kv) name process s = (Ok tt, s).
Proof.
  intros H. unfold if_present. rewrite bind_lift. simpl. rewrite H. reflexivity.
Qed.

Lemma if_present_present kv name data process (s : state) :
  assoc name kv = Some data ->
  if_present (JDict kv) name process s = process data s.
Proof.
  intros H. unfold if_present. rewrite bind_lift. simpl. rewrite H.
  rewrite bind_lift. simpl. rewrite ?H. reflexivity.
Qed.

Lemma tables_app (d1 d2 : document) : tables (d1 ++ d2) = tables d1 ++ tables d2.
Proof. apply omap_app. Qed.

Lemma tables_table_blocks headers rows title :
  tables (table_blocks py_repr headers rows title) = [rendered_table py_repr headers rows].
Proof.
  unfold table_blocks, title_paragraph. destruct (title_given title); reflexivity.
Qed.

Lemma tables_title_blocks text : tables (title_blocks text) = [].
Proof. reflexivity. Qed.

Lemma if_present_Ok_inv objects name process (section : json -> list block -> Prop) s u s' :
  (forall data s u s', process data s = (Ok u, s') ->
     exists bs, section data bs /\ s' = State (doc s ++ bs) (files s)) ->
  if_present objects name process s = (Ok u, s') ->
  exists bs, section_of objects name section bs /\ s' = State (doc s ++ bs) (files s).
Proof.
  intros Hp H. unfold if_present in H.
  inv_step H. destruct a.
  - inv_step H. apply Hp in H as (bs & Hsec & ->).
    exists bs. split; [|reflexivity]. right. eauto.
  - injection H as _ <-. exists []. split; [left; auto|].
    symmetry. apply state_eta.
Qed.

Lemma save_Ok_inv writable output_file s u s' :
  save writable output_file s = (Ok u, s') ->
  writable output_file = true
  /\ s' = State (doc s) (<[output_file := doc s]> (files s)).
Proof.
  unfold save. destruct (writable output_file); [|discriminate].
  intros [= <-]. auto.
Qed.

(** The document a run that returns has saved: the sections of the five
    categories, in the order A, B, C, D, E. *)
Lemma generate_document_Ok_inv writable json_data output_file s u s' :
  generate_document py_repr str_title writable json_data templates output_file s
    = (Ok u, s') ->
  exists objects sA sB sC sD sE,
    py_get json_data "objects" (JDict []) = Ok objects /\
    section_of objects "TypeA" (type_a_section py_repr templates) sA /\
    section_of objects "TypeB" (per_record_section py_repr templates "type_b" rows_b) sB /\
    section_of objects "TypeC" (per_record_section py_repr templates "type_c" rows_c) sC /\
    section_of objects "TypeD"
      (per_record_section py_repr templates "type_d" (rows_d str_title)) sD /\
    section_of objects "TypeE" (per_record_section py_repr templates "type_e" rows_e) sE /\
    writable output_file = true /\
    doc s' = doc s ++ sA ++ sB ++ sC ++ sD ++ sE /\
    files s' = <[output_file := doc s']> (files s).
Proof.
  intros H. unfold generate_document in H.
  inv_step H.
  apply bind_Ok_inv in H as (uA & s1 & HA & H).
  apply (if_present_Ok_inv _ _ _ _ _ _ _ process_type_a_Ok_inv) in HA as (sA & HsA & ->).
  apply bind_Ok_inv in H as (uB & s2 & HB & H).
  apply (if_present_Ok_inv _ _ _ _ _ _ _ process_type_b_Ok_inv) in HB as (sB & HsB & ->).
  apply bind_Ok_inv in H as (uC & s3 & HC & H).
  apply (if_present_Ok_inv _ _ _ _ _ _ _ process_type_c_Ok_inv) in HC as (sC & HsC & ->).
  apply bind_Ok_inv in H as (uD & s4 & HD & H).
  apply (if_present_Ok_inv _ _ _ _ _ _ _ process_type_d_Ok_inv) in HD as (sD & HsD & ->).
  apply bind_Ok_inv in H as (uE & s5 & HE & H).
  apply (if_present_Ok_inv _ _ _ _ _ _ _ process_type_e_Ok_inv) in HE as (sE & HsE & ->).
  apply save_Ok_inv in H as [Hw ->]. simpl.
  exists a, sA, sB, sC, sD, sE.
  rewrite <- !app_assoc. auto 10.
Qed.

Lemma if_present_run objects name process (section : json -> list block -> Prop) bs
    (s : state) :
  (forall data bs s, section data bs ->
     process data s = (Ok tt, State (doc s ++ bs) (files s))) ->
  section_of objects name section bs ->
  if_present objects name process s = (Ok tt, State (doc s ++ bs) (files s)).
Proof.
  intros Hp [[Hc ->]|(data & Hc & Hg & Hsec)]; unfold if_present; rewrite bind_lift, Hc.
  - unfold ret. rewrite state_eta. reflexivity.
  - rewrite bind_lift, Hg. apply Hp. exact Hsec.
Qed.

(** Conversely, sections that can be laid out are what the run appends
    and saves. *)
Lemma generate_document_run writable json_data output_file objects sA sB sC sD sE
    (s : state) :
  py_get json_data "objects" (JDict []) = Ok objects ->
  section_of objects "TypeA" (type_a_section py_repr templates) sA ->
  section_of objects "TypeB" (per_record_section py_repr templates "type_b" rows_b) sB ->
  section_of objects "TypeC" (per_record_section py_repr templates "type_c" rows_c) sC ->
  section_of objects "TypeD"
    (per_record_section py_repr templates "type_d" (rows_d str_title)) sD ->
  section_of objects "TypeE" (per_record_section py_repr templates "type_e" rows_e) sE ->
  writable output_file = true ->
  generate_document py_repr str_title writable json_data templates output_file s
  = (Ok tt,
     State (doc s ++ sA ++ sB ++ sC ++ sD ++ sE)
           (<[output_file := doc s ++ sA ++ sB ++ sC ++ sD ++ sE]> (files s))).
Proof.
  intros Hobj HA HB HC HD HE Hw. unfold generate_document.
  rewrite bind_lift, Hobj.
  erewrite bind_Ok by (eapply if_present_run; [|exact HA]; apply process_type_a_run).
  erewrite bind_Ok by (eapply if_present_run; [|exact HB]; apply process_type_b_run).
  erewrite bind_Ok by (eapply if_present_run; [|exact HC]; apply process_type_c_run).
  erewrite bind_Ok by (eapply if_present_run; [|exact HD]; apply process_type_d_run).
  erewrite bind_Ok by (eapply if_present_run; [|exact HE]; apply process_type_e_run).
  unfold save. rewrite Hw. simpl. rewrite <- !app_assoc. reflexivity.
Qed.

End ProcessorLemmas.

(** ** The table renderer *)

Section AddTable.

Variable py_repr : json -> string.

(** C9. The table has [len(headers)] columns. When no data row is longer
    than the header sequence the call returns and every row of the table
    has that many cells: the strings of the values of its data row, then
    untouched cells. When some data row is longer, the call raises
    [IndexError]. *)
Theorem add_table_length_mismatch headers rows title (s : state) :
  (rows_fit headers rows ->
   exists t,
     add_table py_repr headers rows title s
       = (Ok tt, State (doc s ++ title_paragraph title ++ [BTable t; BParagraph blank])
                       (files s))
     /\ tbl_cols t = length headers
     /\ Forall (fun cells => length cells = length headers) (tbl_rows t)
     /\ Forall2 (fun row cells =>
                   cells = map (data_cell py_repr) row
                           ++ replicate (length headers - length row) [])
          rows (data_rows t))
  /\ (Exists (fun row => length headers < length row) rows ->
      exists s',
        add_table py_repr headers rows title s = (Raise IndexError, s')
        /\ files s' = files s).
Proof.
  split.
  - intros Hfit. exists (rendered_table py_repr headers rows).
    split; [|split; [|split]].
    + rewrite add_table_fit by exact Hfit. reflexivity.
    + reflexivity.
    + simpl. constructor.
      * apply length_map.
      * apply Forall_map. unfold rows_fit in Hfit.
        eapply Forall_impl; [exact Hfit|].
        intros row Hrow. simpl in Hrow. unfold data_row.
        rewrite length_app, length_map, length_replicate. lia.
    + unfold data_rows. simpl. clear Hfit.
      induction rows as [|row rows' IH]; simpl; constructor; auto.
  - apply add_table_overflow.
Qed.

(** C6, amended. When no data row is longer than the header sequence,
    [add_table] returns, having appended: the paragraph of the title in
    bold if and only if a non-empty title is given; then one table whose
    first row holds the headers in bold, followed by one row per data
    row, in order, holding the [str] of the values and then untouched
    cells; then one blank paragraph. *)
Theorem add_table_appends headers rows title (s : state) :
  rows_fit headers rows ->
  add_table py_repr headers rows title s
    = (Ok tt,
       State (doc s
              ++ (if title_given title
                  then [BParagraph (bold_paragraph (default "" title))]
                  else [])
              ++ [BTable (Table "Table Grid" (length headers)
                            (map (fun header => [Run header true]) headers
                             :: map (fun row =>
                                       map (fun v => [Run (py_str py_repr v) false]) row
                                       ++ replicate (length headers - length row) [])
                                  rows));
                  BParagraph blank])
             (files s)).
Proof.
  intros Hfit. rewrite add_table_fit by exact Hfit. reflexivity.
Qed.

End AddTable.

Lemma add_table_length_mismatch_witness :
  rows_fit ["a"; "b"] [[JInt 1]; [JStr "x"; JNull]]
  /\ Exists (fun row => length ["a"] < length row) [[JInt 1; JInt 2]]
  /\ (exists t,
        add_table no_repr ["a"; "b"] [[JInt 1]; [JStr "x"; JNull]] None fresh
          = (Ok tt, State [BTable t; BParagraph blank] ∅)
        /\ map row_texts (data_rows t) = [["1"; ""]; ["x"; "None"]])
  /\ (exists s', add_table no_repr ["a"] [[JInt 1; JInt 2]] None fresh = (Raise IndexError, s')).
Proof.
  assert (Hfit : rows_fit ["a"; "b"] [[JInt 1]; [JStr "x"; JNull]]).
  { repeat constructor. }
  assert (Hlong : Exists (fun row => length ["a"] < length row) [[JInt 1; JInt 2]]).
  { constructor. simpl. lia. }
  split; [exact Hfit|]. split; [exact Hlong|].
  destruct (add_table_length_mismatch no_repr ["a"; "b"] [[JInt 1]; [JStr "x"; JNull]]
              None fresh) as [Hok _].
  destruct (add_table_length_mismatch no_repr ["a"] [[JInt 1; JInt 2]] None fresh)
    as [_ Hraise].
  split.
  - destruct (Hok Hfit) as (t & Hrun & _ & _ & Hrows).
    exists t. split; [exact Hrun|].
    inversion Hrows as [|? c1 ? l1 H1 Hrest E1 E2]; subst.
    inversion Hrest as [|? c2 ? l2 H2 Hnil E3 E4]; subst.
    inversion Hnil; subst. reflexivity.
  - destruct (Hraise Hlong) as (s' & Hrun & _). exists s'. exact Hrun.
Defined.

Lemma add_table_appends_witness :
  rows_fit ["Key"; "Value"] [[JStr "k"; JInt 7]]
  /\ add_table no_repr ["Key"; "Value"] [[JStr "k"; JInt 7]] (Some "Specs") fresh
     = (Ok tt,
        State [BParagraph (bold_paragraph "Specs");
               BTable (Table "Table Grid" 2
                         [[[Run "Key" true]; [Run "Value" true]];
                          [[Run "k" false]; [Run "7" false]]]);
               BParagraph blank] ∅).
Proof.
  assert (Hfit : rows_fit ["Key"; "Value"] [[JStr "k"; JInt 7]]).
  { repeat constructor. }
  split; [exact Hfit|].
  exact (add_table_appends no_repr ["Key"; "Value"] [[JStr "k"; JInt 7]] (Some "Specs")
           fresh Hfit).
Defined.

(** C6 as the specification words it fails twice: an empty title is
    given and no paragraph is appended for it, and a data row longer than
    the header sequence makes the call raise. *)
Lemma add_table_for_every_input_fails :
  ~ add_table_for_every_input no_repr ["h"] [] (Some "")
  /\ ~ add_table_for_every_input no_repr ["h"] [[JInt 1; JInt 2]] None.
Proof.
  split; intros H; destruct (H fresh) as (t & Hrun & _); vm_compute in Hrun;
    discriminate Hrun.
Qed.

(** ** Category A *)

Section TypeA.

Variable py_repr : json -> string.

Lemma device_row_length item row : device_row item = Ok row -> length row = 3.
Proof.
  unfold device_row. intros H. inv_rbind H. injection H as <-. reflexivity.
Qed.

Lemma parameters_row_length item row : parameters_row item = Ok row -> length row = 3.
Proof.
  unfold parameters_row. intros H. inv_rbind H. injection H as <-. reflexivity.
Qed.

(** C2. With every field of every record present and tables wide
    enough, [process_type_a] on [n] records returns, having appended the
    section title, one Table 1 with one data row per record (id, name,
    description), then [n] Table 2 blocks, one per record with its single
    row (status, priority, last_updated), then one Table 3 whose only row
    is ["Total Devices", n]. *)
Theorem process_type_a_tables (templates : gmap string template)
    t h1 t1 h2 t2 h3 t3 items rows1 rows2 (s : state) :
  templates !! "type_a" = Some (full_template t h1 t1 h2 t2 h3 t3) ->
  Forall2 (fun item row => device_row item = Ok row) items rows1 ->
  Forall2 (fun item row => parameters_row item = Ok row) items rows2 ->
  3 <= length h1 -> 3 <= length h2 -> 2 <= length h3 ->
  process_type_a py_repr templates (JList items) s
  = (Ok tt,
     State (doc s ++ title_blocks t
            ++ table_blocks py_repr h1 rows1 t1
            ++ concat (map (fun row => table_blocks py_repr h2 [row] t2) rows2)
            ++ table_blocks py_repr h3
                 [[JStr "Total Devices"; JInt (Z.of_nat (length items))]] t3)
           (files s))
  /\ length (data_rows (rendered_table py_repr h1 rows1)) = length items
  /\ length rows2 = length items
  /\ map row_texts (data_rows (rendered_table py_repr h3
                      [[JStr "Total Devices"; JInt (Z.of_nat (length items))]]))
     = [["Total Devices"; str_of_Z (Z.of_nat (length items))]
        ++ replicate (length h3 - 2) ""].
Proof.
  intros Ktpl Hrows1 Hrows2 L1 L2 L3.
  split; [|split; [|split]].
  - apply process_type_a_run.
    exists (full_template t h1 t1 h2 t2 h3 t3), t, items, rows1, h1, t1,
      (map (fun row => table_blocks py_repr h2 [row] t2) rows2),
      (length items), h3, t3.
    repeat split; try reflexivity; try assumption.
    + apply comprehension_Forall2. exact Hrows1.
    + unfold rows_fit. clear - Hrows1 L1.
      induction Hrows1 as [|item row items rows1 Hrow _ IH]; constructor; auto.
      apply device_row_length in Hrow. lia.
    + clear - Hrows2 L2.
      induction Hrows2 as [|item row items rows2 Hrow _ IH]; simpl; constructor; auto.
      exists row, h2, t2. repeat split; auto.
      constructor; [|constructor]. apply parameters_row_length in Hrow. lia.
    + constructor; [simpl; lia | constructor].
  - unfold data_rows. simpl. rewrite length_map.
    symmetry. eapply Forall2_length. exact Hrows1.
  - symmetry. eapply Forall2_length. exact Hrows2.
  - unfold data_rows, rendered_table. cbn [tbl_rows tail map].
    rewrite row_texts_data_row. reflexivity.
Qed.

(** C4, amended. On an empty TypeA list [process_type_a] returns, having
    appended the section title and exactly two tables: Table 1 with the
    header row only, and Table 3 whose single row shows "Total Devices"
    and "0". The loop that emits Table 2 has no record to run for, and no
    Table 2 is appended. *)
Theorem process_type_a_empty (templates : gmap string template) tpl t h1 t1 h3 t3
    (s : state) :
  templates !! "type_a" = Some tpl ->
  title tpl = Some t ->
  table1_headers tpl = Some h1 -> table1_title tpl = Some t1 ->
  table3_headers tpl = Some h3 -> table3_title tpl = Some t3 ->
  2 <= length h3 ->
  exists T1 T3 row,
    process_type_a py_repr templates (JList []) s
    = (Ok tt,
       State (doc s ++ title_blocks t
              ++ title_paragraph t1 ++ [BTable T1; BParagraph blank]
              ++ title_paragraph t3 ++ [BTable T3; BParagraph blank])
             (files s))
    /\ tbl_rows T1 = [map header_cell h1]
    /\ tbl_rows T3 = [map header_cell h3; row]
    /\ row_texts row = ["Total Devices"; "0"] ++ replicate (length h3 - 2) "".
Proof.
  intros Ktpl Kt Kh1 Kt1 Kh3 Kt3 L3.
  exists (rendered_table py_repr h1 []),
    (rendered_table py_repr h3 [[JStr "Total Devices"; JInt 0]]),
    (data_row py_repr (length h3) [JStr "Total Devices"; JInt 0]).
  split; [|split; [|split]]; try reflexivity.
  - rewrite (process_type_a_run py_repr templates (JList [])
               (title_blocks t ++ table_blocks py_repr h1 [] t1 ++ concat []
                ++ table_blocks py_repr h3 [[JStr "Total Devices"; JInt 0]] t3)).
    + unfold table_blocks. simpl. rewrite <- !app_assoc. reflexivity.
    + exists tpl, t, [], [], h1, t1, [], 0, h3, t3.
      repeat split; try reflexivity; try assumption; try constructor.
      * simpl. lia.
      * constructor.
  - apply row_texts_data_row.
Qed.

End TypeA.

Lemma process_type_a_tables_witness :
  exists d,
    process_type_a no_repr {[ "type_a" := type_a_sample ]}
      (JList [device "D1" "a"; device "D2" "b"]) fresh = (Ok tt, State d ∅)
    /\ map (fun t => map row_texts (data_rows t)) (tables d)
       = [[["D1"; "a"; ""]; ["D2"; "b"; ""]];
          [["on"; "1"; "2024-01-01"]];
          [["on"; "1"; "2024-01-01"]];
          [["Total Devices"; "2"]]].
Proof.
  eexists. split.
  - refine (proj1 (process_type_a_tables no_repr {[ "type_a" := type_a_sample ]}
              "Devices" ["ID"; "Name"; "Description"] (Some "Device Information")
              ["Status"; "Priority"; "Last Updated"] (Some "Parameters")
              ["Metric"; "Value"] None
              [device "D1" "a"; device "D2" "b"]
              [[JStr "D1"; JStr "a"; JStr ""]; [JStr "D2"; JStr "b"; JStr ""]]
              [[JStr "on"; JInt 1; JStr "2024-01-01"]; [JStr "on"; JInt 1; JStr "2024-01-01"]]
              fresh _ _ _ _ _ _)).
    + reflexivity.
    + repeat constructor.
    + repeat constructor.
    + simpl. lia.
    + simpl. lia.
    + simpl. lia.
  - reflexivity.
Defined.

Lemma process_type_a_empty_witness :
  exists T1 T3 row,
    process_type_a no_repr {[ "type_a" := type_a_sample ]} (JList []) fresh
    = (Ok tt,
       State (title_blocks "Devices"
              ++ [BParagraph (bold_paragraph "Device Information");
                  BTable T1; BParagraph blank; BTable T3; BParagraph blank]) ∅)
    /\ tbl_rows T1 = [map header_cell ["ID"; "Name"; "Description"]]
    /\ tbl_rows T3 = [map header_cell ["Metric"; "Value"]; row]
    /\ row_texts row = ["Total Devices"; "0"].
Proof.
  refine (process_type_a_empty no_repr {[ "type_a" := type_a_sample ]} type_a_sample
            "Devices" ["ID"; "Name"; "Description"] (Some "Device Information")
            ["Metric"; "Value"] None fresh _ _ _ _ _ _ _);
    reflexivity.
Defined.

(** C4 as the specification words it: with an empty TypeA list the
    document holds two tables, not three; there is no Table 2. *)
Lemma empty_type_a_has_no_table2 :
  ~ empty_type_a_with_table2 no_repr "Devices"
      ["ID"; "Name"; "Description"] (Some "Device Information")
      ["Status"; "Priority"; "Last Updated"] (Some "Parameters")
      ["Metric"; "Value"] None
  /\ length (tables (doc (snd (process_type_a no_repr {[ "type_a" := type_a_sample ]}
                                (JList []) fresh)))) = 2.
Proof.
  split.
  - intros H. specialize (H {[ "type_a" := type_a_sample ]} fresh eq_refl).
    vm_compute in H. discriminate H.
  - vm_compute. reflexivity.
Qed.

(** ** The driver *)

Section Driver.

Variable py_repr : json -> string.
Variable str_title : string -> string.
Variable writable : string -> bool.

Lemma generate_document_objects json_data templates output_file objects (s : state) :
  py_get json_data "objects" (JDict []) = Ok objects ->
  generate_document py_repr str_title writable json_data templates output_file s
  = (if_present objects "TypeA" (process_type_a py_repr templates) ;;;
     if_present objects "TypeB" (process_type_b py_repr templates) ;;;
     if_present objects "TypeC" (process_type_c py_repr templates) ;;;
     if_present objects "TypeD" (process_type_d py_repr str_title templates) ;;;
     if_present objects "TypeE" (process_type_e py_repr templates) ;;;
     save writable output_file) s.
Proof.
  intros H. unfold generate_document. rewrite bind_lift, H. reflexivity.
Qed.

Lemma save_writable output_file (s : state) :
  writable output_file = true ->
  save writable output_file s
  = (Ok tt, State (doc s) (<[output_file := doc s]> (files s))).
Proof. intros H. unfold save. rewrite H. reflexivity. Qed.

Lemma bind_ext {S A B} (m m' : St S A) (k k' : A -> St S B) (s : S) :
  m s = m' s -> (forall a s1, k a s1 = k' a s1) -> bind m k s = bind m' k' s.
Proof.
  intros Hm Hk. unfold bind. rewrite Hm.
  destruct (m' s) as [[a|e] s1]; [apply Hk | reflexivity].
Qed.

Lemma if_present_assoc kv kv' name process (s : state) :
  assoc name kv = assoc name kv' ->
  if_present (JDict kv) name process s = if_present (JDict kv') name process s.
Proof.
  intros H. unfold if_present. rewrite !bind_lift. simpl. rewrite H.
  destruct (assoc name kv'); [|reflexivity].
  rewrite !bind_lift. simpl. rewrite ?H. reflexivity.
Qed.

(** C3. On the TypeC scenario, with a template for the category whose
    header rows are wide enough, the run returns and saves a document
    with three more tables: one with the data row T1, 100, USD; one with
    the data rows 1, Alice and 2, Bob; one with the data row Approved and
    Yes when [approved] is true, No when it is false. Cells beyond the
    values of a row are empty. *)
Theorem type_c_scenario_tables (templates : gmap string template)
    t h1 t1 h2 t2 h3 t3 output_file (approved : bool) (s : state) :
  templates !! "type_c" = Some (full_template t h1 t1 h2 t2 h3 t3) ->
  3 <= length h1 -> 2 <= length h2 -> 2 <= length h3 ->
  writable output_file = true ->
  exists d T1 T2 T3,
    generate_document py_repr str_title writable (type_c_scenario approved) templates
      output_file s
    = (Ok tt, State d (<[output_file := d]> (files s)))
    /\ tables d = tables (doc s) ++ [T1; T2; T3]
    /\ map row_texts (data_rows T1)
       = [["T1"; "100"; "USD"] ++ replicate (length h1 - 3) ""]
    /\ map row_texts (data_rows T2)
       = [["1"; "Alice"] ++ replicate (length h2 - 2) "";
          ["2"; "Bob"] ++ replicate (length h2 - 2) ""]
    /\ map row_texts (data_rows T3)
       = [["Approved"; if approved then "Yes" else "No"]
          ++ replicate (length h3 - 2) ""].
Proof.
  intros Ktpl L1 L2 L3 Hw.
  set (item := JDict [("transaction_id", JStr "T1"); ("amount", JInt 100);
                      ("currency", JStr "USD");
                      ("parties", JList [JStr "Alice"; JStr "Bob"]);
                      ("approved", JBool approved)]).
  set (r1 := [[JStr "T1"; JInt 100; JStr "USD"]]).
  set (r2 := [[JInt 1; JStr "Alice"]; [JInt 2; JStr "Bob"]]).
  set (r3 := [[JStr "Approved"; JStr (if approved then "Yes" else "No")]]).
  set (bs := title_blocks t ++ concat [table_blocks py_repr h1 r1 t1
                                       ++ table_blocks py_repr h2 r2 t2
                                       ++ table_blocks py_repr h3 r3 t3]).
  assert (Hsec : per_record_section py_repr templates "type_c" rows_c (JList [item]) bs).
  { exists (full_template t h1 t1 h2 t2 h3 t3), t, [item],
      [table_blocks py_repr h1 r1 t1 ++ table_blocks py_repr h2 r2 t2
       ++ table_blocks py_repr h3 r3 t3].
    repeat split; try reflexivity; try assumption.
    constructor; [|constructor].
    exists (r1, r2, r3). split; [reflexivity|].
    exists h1, t1, h2, t2, h3, t3.
    repeat split; try reflexivity;
      unfold rows_fit; simpl; repeat constructor; simpl; lia. }
  exists (doc s ++ bs), (rendered_table py_repr h1 r1), (rendered_table py_repr h2 r2),
    (rendered_table py_repr h3 r3).
  split; [|split; [|split; [|split]]].
  - rewrite (generate_document_objects _ _ _ (JDict [("TypeC", JList [item])]))
      by reflexivity.
    erewrite bind_Ok by (apply if_present_absent; reflexivity).
    erewrite bind_Ok by (apply if_present_absent; reflexivity).
    erewrite bind_Ok; cycle 1.
    { rewrite (if_present_present _ _ (JList [item])) by reflexivity.
      apply process_type_c_run. exact Hsec. }
    erewrite bind_Ok by (apply if_present_absent; reflexivity).
    erewrite bind_Ok by (apply if_present_absent; reflexivity).
    rewrite save_writable by exact Hw. reflexivity.
  - unfold bs. simpl concat. rewrite app_nil_r.
    rewrite !tables_app, !tables_table_blocks, tables_title_blocks. reflexivity.
  - unfold data_rows, rendered_table, r1. cbn [tbl_rows tail map].
    rewrite row_texts_data_row. reflexivity.
  - unfold data_rows, rendered_table, r2. cbn [tbl_rows tail map].
    rewrite !row_texts_data_row. reflexivity.
  - unfold data_rows, rendered_table, r3. cbn [tbl_rows tail map].
    rewrite row_texts_data_row. reflexivity.
Qed.

(** C5. When the objects mapping has no entry for a category name, the
    test [name in objects] skips the processor whatever it is, appending
    nothing and raising nothing, and the run is the run of the remaining
    categories followed by the save. *)
Theorem absent_category_skipped json_data (templates : gmap string template)
    kv output_file (s : state) :
  py_get json_data "objects" (JDict []) = Ok (JDict kv) ->
  (forall name process (s1 : state),
     assoc name kv = None -> if_present (JDict kv) name process s1 = (Ok tt, s1))
  /\ (assoc "TypeA" kv = None ->
      generate_document py_repr str_title writable json_data templates output_file s
      = (if_present (JDict kv) "TypeB" (process_type_b py_repr templates) ;;;
         if_present (JDict kv) "TypeC" (process_type_c py_repr templates) ;;;
         if_present (JDict kv) "TypeD" (process_type_d py_repr str_title templates) ;;;
         if_present (JDict kv) "TypeE" (process_type_e py_repr templates) ;;;
         save writable output_file) s)
  /\ (assoc "TypeB" kv = None ->
      generate_document py_repr str_title writable json_data templates output_file s
      = (if_present (JDict kv) "TypeA" (process_type_a py_repr templates) ;;;
         if_present (JDict kv) "TypeC" (process_type_c py_repr templates) ;;;
         if_present (JDict kv) "TypeD" (process_type_d py_repr str_title templates) ;;;
         if_present (JDict kv) "TypeE" (process_type_e py_repr templates) ;;;
         save writable output_file) s)
  /\ (assoc "TypeC" kv = None ->
      generate_document py_repr str_title writable json_data templates output_file s
      = (if_present (JDict kv) "TypeA" (process_type_a py_repr templates) ;;;
         if_present (JDict kv) "TypeB" (process_type_b py_repr templates) ;;;
         if_present (JDict kv) "TypeD" (process_type_d py_repr str_title templates) ;;;
         if_present (JDict kv) "TypeE" (process_type_e py_repr templates) ;;;
         save writable output_file) s)
  /\ (assoc "TypeD" kv = None ->
      generate_document py_repr str_title writable json_data templates output_file s
      = (if_present (JDict kv) "TypeA" (process_type_a py_repr templates) ;;;
         if_present (JDict kv) "TypeB" (process_type_b py_repr templates) ;;;
         if_present (JDict kv) "TypeC" (process_type_c py_repr templates) ;;;
         if_present (JDict kv) "TypeE" (process_type_e py_repr templates) ;;;
         save writable output_file) s)
  /\ (assoc "TypeE" kv = None ->
      generate_document py_repr str_title writable json_data templates output_file s
      = (if_present (JDict kv) "TypeA" (process_type_a py_repr templates) ;;;
         if_present (JDict kv) "TypeB" (process_type_b py_repr templates) ;;;
         if_present (JDict kv) "TypeC" (process_type_c py_repr templates) ;;;
         if_present (JDict kv) "TypeD" (process_type_d py_repr str_title templates) ;;;
         save writable output_file) s).
Proof.
  intros Hobj.
  split; [intros; apply if_present_absent; assumption|].
  repeat split; intros Habs; rewrite (generate_document_objects _ _ _ _ _ Hobj).
  - erewrite bind_Ok by (apply if_present_absent; exact Habs). reflexivity.
  - apply bind_ext; [reflexivity | intros [] s1].
    erewrite bind_Ok by (apply if_present_absent; exact Habs). reflexivity.
  - apply bind_ext; [reflexivity | intros [] s1].
    apply bind_ext; [reflexivity | intros [] s2].
    erewrite bind_Ok by (apply if_present_absent; exact Habs). reflexivity.
  - apply bind_ext; [reflexivity | intros [] s1].
    apply bind_ext; [reflexivity | intros [] s2].
    apply bind_ext; [reflexivity | intros [] s3].
    erewrite bind_Ok by (apply if_present_absent; exact Habs). reflexivity.
  - apply bind_ext; [reflexivity | intros [] s1].
    apply bind_ext; [reflexivity | intros [] s2].
    apply bind_ext; [reflexivity | intros [] s3].
    apply bind_ext; [reflexivity | intros [] s4].
    erewrite bind_Ok by (apply if_present_absent; exact Habs). reflexivity.
Qed.

(** C10. Without a top-level "objects" key the run appends nothing and,
    the destination being writable, saves the document as it is and
    returns. Two inputs whose objects mappings agree on the five category
    names run alike: the other keys of the mapping are never read. *)
Theorem missing_objects_and_unknown_keys (templates : gmap string template)
    output_file (s : state) :
  (forall top,
     assoc "objects" top = None ->
     writable output_file = true ->
     generate_document py_repr str_title writable (JDict top) templates output_file s
     = (Ok tt, State (doc s) (<[output_file := doc s]> (files s))))
  /\ (forall json_data json_data' kv kv',
        py_get json_data "objects" (JDict []) = Ok (JDict kv) ->
        py_get json_data' "objects" (JDict []) = Ok (JDict kv') ->
        (forall name, In name category_names -> assoc name kv = assoc name kv') ->
        generate_document py_repr str_title writable json_data templates output_file s
        = generate_document py_repr str_title writable json_data' templates output_file s).
Proof.
  split.
  - intros top Hnone Hw.
    rewrite (generate_document_objects _ _ _ (JDict [])); cycle 1.
    { simpl. rewrite Hnone. reflexivity. }
    repeat (erewrite bind_Ok by (apply if_present_absent; reflexivity)).
    apply save_writable. exact Hw.
  - intros json_data json_data' kv kv' Hobj Hobj' Hagree.
    rewrite (generate_document_objects _ _ _ _ _ Hobj).
    rewrite (generate_document_objects _ _ _ _ _ Hobj').
    repeat (apply bind_ext;
            [apply if_present_assoc; apply Hagree; unfold category_names; simpl; tauto
            | intros [] ?]).
    reflexivity.
Qed.

End Driver.

(** ** The layout of the saved document *)

Section Layout.

Variable py_repr : json -> string.
Variable str_title : string -> string.
Variable writable : string -> bool.
Variable templates : gmap string template.

(** C1. The run returns exactly when the sections of the categories can
    be laid out and the destination is writable, and the document it then
    saves is its document followed by the sections in the order A, B, C,
    D, E, a category absent from the objects mapping contributing nothing.
    The section of A is its title, Table 1 over all the records, one
    Table 2 per record in the order of the records, and Table 3. The
    section of each of B, C, D, E is its title followed, for each record
    in the order of the records, by Table 1, Table 2 and Table 3 of that
    record, in this order. *)
Theorem generate_document_block_order json_data output_file (s s' : state) :
  generate_document py_repr str_title writable json_data templates output_file s
    = (Ok tt, s')
  <->
  exists objects sA sB sC sD sE,
    py_get json_data "objects" (JDict []) = Ok objects /\
    section_of objects "TypeA" (type_a_section py_repr templates) sA /\
    section_of objects "TypeB" (per_record_section py_repr templates "type_b" rows_b) sB /\
    section_of objects "TypeC" (per_record_section py_repr templates "type_c" rows_c) sC /\
    section_of objects "TypeD"
      (per_record_section py_repr templates "type_d" (rows_d str_title)) sD /\
    section_of objects "TypeE" (per_record_section py_repr templates "type_e" rows_e) sE /\
    writable output_file = true /\
    s' = State (doc s ++ sA ++ sB ++ sC ++ sD ++ sE)
               (<[output_file := doc s ++ sA ++ sB ++ sC ++ sD ++ sE]> (files s)).
Proof.
  split.
  - intros H.
    apply generate_document_Ok_inv in H
      as (objects & sA & sB & sC & sD & sE & Hobj & HA & HB & HC & HD & HE & Hw
          & Hdoc & Hfiles).
    exists objects, sA, sB, sC, sD, sE.
    repeat split; try assumption.
    destruct s' as [d f]. simpl in Hdoc, Hfiles. subst d f. reflexivity.
  - intros (objects & sA & sB & sC & sD & sE & Hobj & HA & HB & HC & HD & HE & Hw & ->).
    apply generate_document_run with (objects := objects); assumption.
Qed.

Lemma shows_table_blocks headers rows title v rest :
  In (v :: rest) rows -> shows py_repr (table_blocks py_repr headers rows title) v.
Proof.
  intros Hin.
  exists (rendered_table py_repr headers rows),
    (data_row py_repr (length headers) (v :: rest)), (data_cell py_repr v).
  split; [|split; [|split]].
  - rewrite tables_table_blocks. left. reflexivity.
  - unfold data_rows, rendered_table. cbn [tbl_rows tail].
    apply in_map. exact Hin.
  - unfold data_row. apply in_or_app. left. left. reflexivity.
  - reflexivity.
Qed.

Lemma shows_app_l d1 d2 v : shows py_repr d1 v -> shows py_repr (d1 ++ d2) v.
Proof.
  intros (t & row & c & Ht & H). exists t, row, c. split; [|exact H].
  rewrite tables_app. apply in_or_app. left. exact Ht.
Qed.

Lemma shows_app_r d1 d2 v : shows py_repr d2 v -> shows py_repr (d1 ++ d2) v.
Proof.
  intros (t & row & c & Ht & H). exists t, row, c. split; [|exact H].
  rewrite tables_app. apply in_or_app. right. exact Ht.
Qed.

Lemma shows_concat bss b v : In b bss -> shows py_repr b v -> shows py_repr (concat bss) v.
Proof.
  induction bss as [|b' bss IH]; intros Hin Hb; [destruct Hin|].
  simpl. destruct Hin as [->|Hin].
  - apply shows_app_l. exact Hb.
  - apply shows_app_r. apply IH; assumption.
Qed.

Lemma Forall2_In_left {A B} (R : A -> B -> Prop) xs ys x :
  Forall2 R xs ys -> In x xs -> exists y, In y ys /\ R x y.
Proof.
  induction 1 as [|x' y' xs ys HR _ IH]; intros Hin; [destruct Hin|].
  destruct Hin as [->|Hin].
  - exists y'. split; [left; reflexivity | exact HR].
  - destruct (IH Hin) as (y & Hy & HRy). exists y. split; [right; exact Hy | exact HRy].
Qed.

Lemma comprehension_In {A B} (f : A -> result B) xs ys x :
  comprehension f xs = Ok ys -> In x xs -> exists y, In y ys /\ f x = Ok y.
Proof.
  revert ys. induction xs as [|x' xs IH]; intros ys H Hin; [destruct Hin|].
  simpl in H. inv_rbind H. injection H as <-.
  destruct Hin as [->|Hin].
  - eexists. split; [left; reflexivity | eassumption].
  - destruct (IH _ eq_refl Hin) as (y & Hy & Hfy).
    exists y. split; [right; exact Hy | exact Hfy].
Qed.

(** In the section of a category rendered record by record, the first
    cell of Table 1 of a record shows its identifying field. *)
Lemma per_record_section_shows name rows_of field data bs items item :
  (forall item r, rows_of item = Ok r ->
     exists v rest, py_getitem item field = Ok v /\ r.1.1 = [v :: rest]) ->
  per_record_section py_repr templates name rows_of data bs ->
  py_iter data = Ok items -> In item items ->
  exists v, py_getitem item field = Ok v /\ shows py_repr bs v.
Proof.
  intros Hid (tpl & t & items' & bss & _ & _ & Eiter & Hall & ->) Eiter' Hin.
  rewrite Eiter in Eiter'. injection Eiter' as ->.
  destruct (Forall2_In_left _ _ _ _ Hall Hin) as (b & Hb & r & Er & Hthree).
  destruct (Hid _ _ Er) as (v & rest & Ev & Hr1).
  exists v. split; [exact Ev|].
  apply shows_app_r. apply (shows_concat _ b); [exact Hb|].
  destruct Hthree as (h1 & t1 & h2 & t2 & h3 & t3 & _ & _ & _ & _ & _ & _ & _ & _ & _ & ->).
  apply shows_app_l. rewrite Hr1. apply (shows_table_blocks _ _ _ v rest).
  left. reflexivity.
Qed.

Lemma type_a_section_shows data bs items item :
  type_a_section py_repr templates data bs ->
  py_iter data = Ok items -> In item items ->
  exists v, py_getitem item "id" = Ok v /\ shows py_repr bs v.
Proof.
  intros (tpl & t & items' & rows1 & h1 & t1 & bss & n & h3 & t3 & _ & _ & Eiter & Ecomp
          & _ & _ & _ & _ & _ & _ & _ & _ & ->) Eiter' Hin.
  rewrite Eiter in Eiter'. injection Eiter' as ->.
  destruct (comprehension_In _ _ _ _ Ecomp Hin) as (row & Hrow & Erow).
  unfold device_row in Erow. inv_rbind Erow. injection Erow as <-.
  eexists. split; [reflexivity|].
  apply shows_app_r. apply shows_app_l.
  eapply shows_table_blocks. exact Hrow.
Qed.

Lemma rows_b_id item r :
  rows_b item = Ok r ->
  exists v rest, py_getitem item "component_id" = Ok v /\ r.1.1 = [v :: rest].
Proof.
  unfold rows_b. intros H. inv_rbind H. injection H as <-. simpl. eauto.
Qed.

Lemma rows_c_id item r :
  rows_c item = Ok r ->
  exists v rest, py_getitem item "transaction_id" = Ok v /\ r.1.1 = [v :: rest].
Proof.
  unfold rows_c. intros H. inv_rbind H. injection H as <-. simpl. eauto.
Qed.

Lemma rows_d_id item r :
  rows_d str_title item = Ok r ->
  exists v rest, py_getitem item "test_id" = Ok v /\ r.1.1 = [v :: rest].
Proof.
  unfold rows_d. intros H. inv_rbind H. injection H as <-. simpl. eauto.
Qed.

Lemma rows_e_id item r :
  rows_e item = Ok r ->
  exists v rest, py_getitem item "employee_id" = Ok v /\ r.1.1 = [v :: rest].
Proof.
  unfold rows_e. intros H. inv_rbind H. injection H as <-. simpl. eauto.
Qed.

(** The section of a category whose data could be read. *)
Lemma section_of_present objects name section bs data :
  section_of objects name section bs ->
  py_getitem objects name = Ok data ->
  section data bs.
Proof.
  intros [[Hc _]|(data' & _ & Hg & Hsec)] Hget.
  - destruct objects; try discriminate Hget. simpl in Hc, Hget.
    destruct (assoc name kv); discriminate.
  - rewrite Hg in Hget. injection Hget as ->. exact Hsec.
Qed.

End Layout.

(** ** Failures *)

Section Failures.

Variable P : exn -> Prop.

Lemma raises_only_ret {A} (a : A) : raises_only P (ret a).
Proof. intros s r s' [= <- <-]. split; [reflexivity | discriminate]. Qed.

Lemma raises_only_bind {A B} (m : St state A) (k : A -> St state B) :
  raises_only P m -> (forall a, raises_only P (k a)) -> raises_only P (bind m k).
Proof.
  intros Hm Hk s r s'' H. unfold bind in H.
  destruct (m s) as [[a|e] s'] eqn:E.
  - destruct (Hm _ _ _ E) as [Hf _]. destruct (Hk a _ _ _ H) as [Hf' He].
    split; [congruence | exact He].
  - injection H as <- <-. destruct (Hm _ _ _ E) as [Hf He].
    split; [exact Hf | intros e' [= <-]; apply He; reflexivity].
Qed.

Lemma raises_only_lift_bind {A B} (r : result A) (k : A -> St state B) :
  (forall e, r = Raise e -> P e) ->
  (forall a, r = Ok a -> raises_only P (k a)) ->
  raises_only P (bind (lift r) k).
Proof.
  intros Hr Hk s r' s' H. rewrite bind_lift in H. destruct r as [a|e].
  - exact (Hk a eq_refl _ _ _ H).
  - injection H as <- <-. split; [reflexivity|].
    intros e' [= <-]. apply Hr. reflexivity.
Qed.

Lemma raises_only_key_bind {A B} (k0 : string) (o : option A) (k : A -> St state B) :
  P (KeyError k0) ->
  (forall a, o = Some a -> raises_only P (k a)) ->
  raises_only P (bind (lift (key k0 o)) k).
Proof.
  intros HP Hk. apply raises_only_lift_bind.
  - destruct o as [x|]; intros e [= <-]. exact HP.
  - destruct o as [x|]; intros a' [= <-]. apply Hk. reflexivity.
Qed.

Lemma raises_only_for_each {A} (xs : list A) (body : A -> St state unit) :
  (forall x, In x xs -> raises_only P (body x)) -> raises_only P (for_each xs body).
Proof.
  induction xs as [|x xs IH]; intros Hbody; simpl.
  - apply raises_only_ret.
  - apply raises_only_bind.
    + apply Hbody. left. reflexivity.
    + intros _. apply IH. intros y Hy. apply Hbody. right. exact Hy.
Qed.

Lemma raises_only_add_title text : raises_only P (add_title text).
Proof.
  intros s r s' H. rewrite add_title_run in H. injection H as <- <-.
  split; [reflexivity | discriminate].
Qed.

Lemma raises_only_add_table py_repr headers rows title :
  P IndexError -> raises_only P (add_table py_repr headers rows title).
Proof.
  intros HP s r s' H. destruct (rows_fit_dec headers rows) as [Hfit|Hlong].
  - rewrite add_table_fit in H by exact Hfit. injection H as <- <-.
    split; [reflexivity | discriminate].
  - destruct (add_table_overflow py_repr headers rows title s Hlong) as (s1 & H1 & Hf).
    rewrite H1 in H. injection H as <- <-.
    split; [exact Hf | intros e [= <-]; exact HP].
Qed.

Lemma raises_only_if_present objects name (process : json -> St state unit) :
  P TypeError -> P (KeyError name) ->
  (forall data, py_getitem objects name = Ok data -> raises_only P (process data)) ->
  raises_only P (if_present objects name process).
Proof.
  intros HT HK Hp. unfold if_present. apply raises_only_lift_bind.
  - destruct objects; intros e [= <-]; exact HT.
  - intros [|] _; [|apply raises_only_ret].
    apply raises_only_lift_bind; [|exact Hp].
    destruct objects; try (intros e [= <-]; exact HT).
    simpl. destruct (assoc name kv); intros e [= <-]. exact HK.
Qed.

Lemma no_write_bind {A B} (m : St state A) (k : A -> St state B) :
  raises_only P m -> (forall a, no_write_on_raise (k a)) -> no_write_on_raise (bind m k).
Proof.
  intros Hm Hk s e s'' H. unfold bind in H.
  destruct (m s) as [[a|e'] s'] eqn:E.
  - destruct (Hm _ _ _ E) as [Hf _]. rewrite (Hk a _ _ _ H). exact Hf.
  - injection H as <- <-. exact (proj1 (Hm _ _ _ E)).
Qed.

Lemma no_write_save writable output_file : no_write_on_raise (save writable output_file).
Proof.
  intros s e s' H. unfold save in H.
  destruct (writable output_file); [discriminate|]. injection H as _ <-. reflexivity.
Qed.

Lemma fails_bind_l {A B} (m : St state A) (k : A -> St state B) :
  fails m -> fails (bind m k).
Proof.
  intros Hm s. destruct (Hm s) as (e & s' & H & He & Hf).
  exists e, s'. rewrite (bind_Raise _ _ _ _ _ H). auto.
Qed.

Lemma fails_bind_r {A B} (m : St state A) (k : A -> St state B) :
  benign m -> (forall a, fails (k a)) -> fails (bind m k).
Proof.
  intros Hm Hk s. destruct (m s) as [[a|e] s'] eqn:E.
  - destruct (Hm _ _ _ E) as [Hf _].
    destruct (Hk a s') as (e & s'' & H & He & Hf').
    exists e, s''. rewrite (bind_Ok _ _ _ _ _ E). split; [exact H|].
    split; [exact He | congruence].
  - destruct (Hm _ _ _ E) as [Hf He].
    exists e, s'. rewrite (bind_Raise _ _ _ _ _ E). split; [reflexivity|].
    split; [apply He; reflexivity | exact Hf].
Qed.

Lemma benign_never_returns_fails {A} (m : St state A) :
  benign m -> never_returns m -> fails m.
Proof.
  intros Hm Hn s. destruct (m s) as [[a|e] s'] eqn:E.
  - exfalso. exact (Hn _ _ _ E).
  - destruct (Hm _ _ _ E) as [Hf He]. exists e, s'.
    split; [reflexivity|]. split; [apply He; reflexivity | exact Hf].
Qed.

Lemma comprehension_raise {A B} (f : A -> result B) xs :
  (forall x, In x xs -> forall e, f x = Raise e -> P e) ->
  forall e, comprehension f xs = Raise e -> P e.
Proof.
  induction xs as [|x xs IH]; intros Hf e H; simpl in H; [discriminate|].
  destruct (f x) as [y|e'] eqn:E; simpl in H.
  - destruct (comprehension f xs) as [ys|e''] eqn:E'; simpl in H; [discriminate|].
    injection H as <-. apply IH; [|reflexivity].
    intros x' Hx'. apply Hf. right. exact Hx'.
  - injection H as <-. apply (Hf x); [left; reflexivity | exact E].
Qed.

End Failures.

(** A lookup that raises, on a value whose shape is known. *)
Ltac lookup_raise :=
  let e := fresh "e" in
  let He := fresh "He" in
  intros e He; simpl in He;
  repeat match type of He with
         | context [match ?x with _ => _ end] => destruct x
         end;
  first [discriminate He | injection He as <-; reflexivity].

(** The shape of a field that was read, from the shapes of the record. *)
Ltac field_shape Hc :=
  repeat match goal with
         | E : py_getitem ?item ?k = Ok ?v |- _ =>
             is_var v;
             match type of Hc with
             | context [field_is ?shape item k] =>
                 let Hs := fresh "Hs" in
                 assert (Hs : shape v = true)
                   by (revert Hc; unfold field_is; rewrite E;
                       rewrite ?andb_true_iff; tauto);
                 destruct v; try discriminate Hs; clear Hs
             end
         end.

(** An exception that is in the class at hand. *)
Ltac in_class := first [exact I | reflexivity].

Ltac benign_step Hc :=
  lazymatch goal with
  | |- raises_only _ (bind (lift (key _ _)) _) =>
      apply raises_only_key_bind; [in_class | intros ? ?]
  | |- raises_only _ (bind (lift _) _) =>
      apply raises_only_lift_bind;
      [first [intros; exact I | lookup_raise] | intros ? ?; try field_shape Hc]
  | |- raises_only _ (bind (add_title _) _) =>
      apply raises_only_bind; [apply raises_only_add_title | intros ?]
  | |- raises_only _ (bind (add_table _ _ _ _) _) =>
      apply raises_only_bind; [apply raises_only_add_table; in_class | intros ?]
  | |- raises_only _ (add_table _ _ _ _) => apply raises_only_add_table; in_class
  end.

Ltac iter_list :=
  match goal with
  | H : py_iter (JList _) = Ok _ |- _ => injection H as <-
  end.

(** From [record item = true] for the records of a list. *)
Ltac record_dict Hall item Hin Hc :=
  pose proof (proj1 (forallb_forall _ _) Hall item Hin) as Hc;
  destruct item; try discriminate Hc.

Section FailureLemmas.

Variable py_repr : json -> string.
Variable str_title : string -> string.
Variable writable : string -> bool.
Variable templates : gmap string template.

Lemma benign_process_type_a items :
  forallb record_a items = true ->
  benign (process_type_a py_repr templates (JList items)).
Proof.
  intros Hall. unfold process_type_a.
  do 4 benign_step I. iter_list.
  apply raises_only_lift_bind.
  { apply comprehension_raise. intros item Hin. record_dict Hall item Hin Hc.
    lookup_raise. }
  intros rows _. do 3 benign_step I.
  apply raises_only_bind.
  { apply raises_only_for_each. intros item Hin.
    record_dict Hall item Hin Hc. unfold record_a in Hc.
    repeat benign_step Hc. }
  intros _. repeat benign_step I.
Qed.

Lemma benign_process_type_b items :
  forallb record_b items = true ->
  benign (process_type_b py_repr templates (JList items)).
Proof.
  intros Hall. unfold process_type_b.
  do 4 benign_step I. iter_list.
  apply raises_only_for_each. intros item Hin.
  record_dict Hall item Hin Hc. unfold record_b in Hc.
  repeat benign_step Hc.
Qed.

Lemma benign_process_type_c items :
  forallb record_c items = true ->
  benign (process_type_c py_repr templates (JList items)).
Proof.
  intros Hall. unfold process_type_c.
  do 4 benign_step I. iter_list.
  apply raises_only_for_each. intros item Hin.
  record_dict Hall item Hin Hc. unfold record_c in Hc.
  repeat benign_step Hc.
Qed.

Lemma benign_process_type_d items :
  forallb record_d items = true ->
  benign (process_type_d py_repr str_title templates (JList items)).
Proof.
  intros Hall. unfold process_type_d.
  do 4 benign_step I. iter_list.
  apply raises_only_for_each. intros item Hin.
  record_dict Hall item Hin Hc. unfold record_d in Hc.
  repeat benign_step Hc.
Qed.

Lemma benign_process_type_e items :
  forallb record_e items = true ->
  benign (process_type_e py_repr templates (JList items)).
Proof.
  intros Hall. unfold process_type_e.
  do 4 benign_step I. iter_list.
  apply raises_only_for_each. intros item Hin.
  record_dict Hall item Hin Hc. unfold record_e in Hc.
  repeat benign_step Hc.
Qed.

Lemma lacks_getitem v k a : lacks v k = true -> py_getitem v k = Ok a -> False.
Proof.
  unfold lacks, py_getitem. destruct v; try discriminate.
  destruct (assoc k kv); discriminate.
Qed.

Lemma lacks_in_getitem item k k' v a :
  lacks_in item k k' = true -> py_getitem item k = Ok v -> py_getitem v k' = Ok a -> False.
Proof.
  unfold lacks_in. intros H E. rewrite E in H. apply lacks_getitem. exact H.
Qed.

(** A record with a missing field has no rows. *)
Ltac no_rows Hinc H :=
  inv_rbind H;
  repeat (apply orb_true_iff in Hinc; destruct Hinc as [Hinc|Hinc]);
  eauto using lacks_getitem, lacks_in_getitem.

Lemma incomplete_a_rows item row row' :
  incomplete_a item = true -> device_row item = Ok row -> parameters_row item = Ok row' ->
  False.
Proof.
  unfold incomplete_a, device_row, parameters_row. intros Hinc H H'.
  inv_rbind H. no_rows Hinc H'.
Qed.

Lemma incomplete_b_rows item r : incomplete_b item = true -> rows_b item = Ok r -> False.
Proof. unfold incomplete_b, rows_b. intros Hinc H. no_rows Hinc H. Qed.

Lemma incomplete_c_rows item r : incomplete_c item = true -> rows_c item = Ok r -> False.
Proof. unfold incomplete_c, rows_c. intros Hinc H. no_rows Hinc H. Qed.

Lemma incomplete_d_rows item r :
  incomplete_d item = true -> rows_d str_title item = Ok r -> False.
Proof. unfold incomplete_d, rows_d. intros Hinc H. no_rows Hinc H. Qed.

Lemma incomplete_e_rows item r : incomplete_e item = true -> rows_e item = Ok r -> False.
Proof. unfold incomplete_e, rows_e. intros Hinc H. no_rows Hinc H. Qed.

Lemma per_record_never_returns (process : json -> St state unit) name rows_of
    (incomplete : json -> bool) items :
  (forall data s u s', process data s = (Ok u, s') ->
     exists bs, per_record_section py_repr templates name rows_of data bs
                /\ s' = State (doc s ++ bs) (files s)) ->
  (forall item r, incomplete item = true -> rows_of item = Ok r -> False) ->
  existsb incomplete items = true \/ templates !! name = None ->
  never_returns (process (JList items)).
Proof.
  intros Hinv Hrows Hfault s u s' H.
  apply Hinv in H as (bs & (tpl & t & items' & bss & Ktpl & _ & Eiter & Hall & _) & _).
  destruct Hfault as [Hex|Hnone]; [|congruence].
  injection Eiter as <-.
  apply existsb_exists in Hex as (item & Hin & Hinc).
  destruct (Forall2_In_left _ _ _ _ Hall Hin) as (b & _ & r & Er & _).
  exact (Hrows _ _ Hinc Er).
Qed.

Lemma type_a_never_returns items :
  existsb incomplete_a items = true \/ templates !! "type_a" = None ->
  never_returns (process_type_a py_repr templates (JList items)).
Proof.
  intros Hfault s u s' H.
  apply process_type_a_Ok_inv in H
    as (bs & (tpl & t & items' & rows1 & h1 & t1 & bss & n & h3 & t3 & Ktpl & _ & Eiter
              & Ecomp & _ & _ & _ & Hall & _) & _).
  destruct Hfault as [Hex|Hnone]; [|congruence].
  injection Eiter as <-.
  apply existsb_exists in Hex as (item & Hin & Hinc).
  destruct (comprehension_In _ _ _ _ Ecomp Hin) as (row & _ & Erow).
  destruct (Forall2_In_left _ _ _ _ Hall Hin) as (b & _ & row' & h2 & t2 & Erow' & _).
  exact (incomplete_a_rows _ _ _ Hinc Erow Erow').
Qed.

Lemma benign_if_present kv name (process : json -> St state unit) :
  (forall data, assoc name kv = Some data -> benign (process data)) ->
  benign (if_present (JDict kv) name process).
Proof.
  intros Hp s r s' H. destruct (assoc name kv) as [data|] eqn:E.
  - rewrite (if_present_present _ _ data) in H by exact E.
    exact (Hp data eq_refl _ _ _ H).
  - rewrite if_present_absent in H by exact E. injection H as <- <-.
    split; [reflexivity | discriminate].
Qed.

Lemma never_returns_if_present kv name data (process : json -> St state unit) :
  assoc name kv = Some data -> never_returns (process data) ->
  never_returns (if_present (JDict kv) name process).
Proof.
  intros E Hn s u s' H. rewrite (if_present_present _ _ data) in H by exact E.
  exact (Hn _ _ _ H).
Qed.

(** The step of a category in a record set, and in one with a fault. *)
Lemma benign_category kv name record (process : json -> St state unit) :
  records record (JDict kv) name = true ->
  (forall items, forallb record items = true -> benign (process (JList items))) ->
  benign (if_present (JDict kv) name process).
Proof.
  intros Hrec Hp. apply benign_if_present. intros data E.
  unfold records in Hrec. simpl in Hrec. rewrite E in Hrec.
  destruct data; try discriminate Hrec. apply Hp. exact Hrec.
Qed.

Lemma faulty_category kv name k incomplete record (process : json -> St state unit) :
  (forall items, existsb incomplete items = true \/ templates !! k = None ->
                 never_returns (process (JList items))) ->
  records record (JDict kv) name = true ->
  category_fault templates (JDict kv) name k incomplete = true ->
  never_returns (if_present (JDict kv) name process).
Proof.
  intros Hp Hrec Hfault.
  unfold records in Hrec. unfold category_fault, has_incomplete, lacks_template in Hfault.
  simpl in Hrec, Hfault.
  destruct (assoc name kv) as [data|] eqn:E; [|discriminate Hfault].
  destruct data; try discriminate Hrec.
  apply (never_returns_if_present _ _ (JList xs)); [exact E|].
  apply Hp. apply orb_true_iff in Hfault as [Hex|Hnone]; [left; exact Hex|].
  right. destruct (templates !! k); [discriminate | reflexivity].
Qed.

Lemma sequence_fails {A} (mA mB mC mD mE : St state unit) (k : St state A) :
  benign mA -> benign mB -> benign mC -> benign mD -> benign mE ->
  never_returns mA \/ never_returns mB \/ never_returns mC
  \/ never_returns mD \/ never_returns mE ->
  fails (mA ;;; mB ;;; mC ;;; mD ;;; mE ;;; k).
Proof.
  intros bA bB bC bD bE [n|[n|[n|[n|n]]]].
  - apply fails_bind_l, benign_never_returns_fails; assumption.
  - apply fails_bind_r; [assumption | intros _].
    apply fails_bind_l, benign_never_returns_fails; assumption.
  - apply fails_bind_r; [assumption | intros _].
    apply fails_bind_r; [assumption | intros _].
    apply fails_bind_l, benign_never_returns_fails; assumption.
  - apply fails_bind_r; [assumption | intros _].
    apply fails_bind_r; [assumption | intros _].
    apply fails_bind_r; [assumption | intros _].
    apply fails_bind_l, benign_never_returns_fails; assumption.
  - apply fails_bind_r; [assumption | intros _].
    apply fails_bind_r; [assumption | intros _].
    apply fails_bind_r; [assumption | intros _].
    apply fails_bind_r; [assumption | intros _].
    apply fails_bind_l, benign_never_returns_fails; assumption.
Qed.

(** Whatever the data, a processor writes no file. *)
Lemma quiet_process_type_a data :
  raises_only any_error (process_type_a py_repr templates data).
Proof.
  unfold process_type_a. do 8 benign_step I.
  apply raises_only_bind; [|intros _; repeat benign_step I].
  apply raises_only_for_each. intros item _. repeat benign_step I.
Qed.

Lemma quiet_process_type_b data :
  raises_only any_error (process_type_b py_repr templates data).
Proof.
  unfold process_type_b. do 4 benign_step I.
  apply raises_only_for_each. intros item _. repeat benign_step I.
Qed.

Lemma quiet_process_type_c data :
  raises_only any_error (process_type_c py_repr templates data).
Proof.
  unfold process_type_c. do 4 benign_step I.
  apply raises_only_for_each. intros item _. repeat benign_step I.
Qed.

Lemma quiet_process_type_d data :
  raises_only any_error (process_type_d py_repr str_title templates data).
Proof.
  unfold process_type_d. do 4 benign_step I.
  apply raises_only_for_each. intros item _. repeat benign_step I.
Qed.

Lemma quiet_process_type_e data :
  raises_only any_error (process_type_e py_repr templates data).
Proof.
  unfold process_type_e. do 4 benign_step I.
  apply raises_only_for_each. intros item _. repeat benign_step I.
Qed.

(** A run that raises has saved nothing. *)
Lemma generate_document_no_write json_data output_file :
  no_write_on_raise
    (generate_document py_repr str_title writable json_data templates output_file).
Proof.
  unfold generate_document.
  intros s e s' H. rewrite bind_lift in H.
  destruct (py_get json_data "objects" (JDict [])) as [objects|e0];
    [|injection H as _ <-; reflexivity].
  revert s e s' H.
  apply (no_write_bind any_error).
  { apply raises_only_if_present; try exact I. intros; apply quiet_process_type_a. }
  intros _. apply (no_write_bind any_error).
  { apply raises_only_if_present; try exact I. intros; apply quiet_process_type_b. }
  intros _. apply (no_write_bind any_error).
  { apply raises_only_if_present; try exact I. intros; apply quiet_process_type_c. }
  intros _. apply (no_write_bind any_error).
  { apply raises_only_if_present; try exact I. intros; apply quiet_process_type_d. }
  intros _. apply (no_write_bind any_error).
  { apply raises_only_if_present; try exact I. intros; apply quiet_process_type_e. }
  intros _. apply no_write_save.
Qed.

(** C7. On a record set in which some record of a present category
    lacks a required field, or a present category has no entry in the
    templates, the run raises a lookup error ([KeyError] or [IndexError])
    and the files are what they were. On any input at all, a run that
    raises leaves the files as they were: the save is the last step. *)
Theorem missing_field_fails json_data output_file (s : state) :
  (forall objects,
     py_get json_data "objects" (JDict []) = Ok objects ->
     record_set objects = true ->
     lookup_fault templates objects = true ->
     exists e s',
       generate_document py_repr str_title writable json_data templates output_file s
         = (Raise e, s')
       /\ is_lookup_error e = true
       /\ files s' = files s)
  /\ (forall e s',
        generate_document py_repr str_title writable json_data templates output_file s
          = (Raise e, s') ->
        files s' = files s).
Proof.
  split; [|intros e s'; apply generate_document_no_write].
  intros objects Hobj Hset Hfault.
  rewrite (generate_document_objects _ _ _ _ _ _ _ _ Hobj).
  unfold record_set in Hset. rewrite !andb_true_iff in Hset.
  destruct Hset as [[[[[Hd HA] HB] HC] HD] HE].
  destruct objects; try discriminate Hd. clear Hd.
  apply sequence_fails.
  - eapply benign_category; [exact HA | apply benign_process_type_a].
  - eapply benign_category; [exact HB | apply benign_process_type_b].
  - eapply benign_category; [exact HC | apply benign_process_type_c].
  - eapply benign_category; [exact HD | apply benign_process_type_d].
  - eapply benign_category; [exact HE | apply benign_process_type_e].
  - unfold lookup_fault in Hfault.
    apply orb_true_iff in Hfault as [Hfault|FE].
    apply orb_true_iff in Hfault as [Hfault|FD].
    apply orb_true_iff in Hfault as [Hfault|FC].
    apply orb_true_iff in Hfault as [FA|FB].
    + left. eapply faulty_category; [apply type_a_never_returns | exact HA | exact FA].
    + right; left. eapply faulty_category; [|exact HB | exact FB].
      intros items. apply per_record_never_returns with (rows_of := rows_b).
      * apply process_type_b_Ok_inv.
      * apply incomplete_b_rows.
    + right; right; left. eapply faulty_category; [|exact HC | exact FC].
      intros items. apply per_record_never_returns with (rows_of := rows_c).
      * apply process_type_c_Ok_inv.
      * apply incomplete_c_rows.
    + right; right; right; left. eapply faulty_category; [|exact HD | exact FD].
      intros items. apply per_record_never_returns with (rows_of := rows_d str_title).
      * apply process_type_d_Ok_inv.
      * apply incomplete_d_rows.
    + right; right; right; right. eapply faulty_category; [|exact HE | exact FE].
      intros items. apply per_record_never_returns with (rows_of := rows_e).
      * apply process_type_e_Ok_inv.
      * apply incomplete_e_rows.
Qed.

End FailureLemmas.

(** ** The theorems on sample inputs *)

Lemma sample_run_returns : sample_run = (Ok tt, snd sample_run).
Proof. vm_compute. reflexivity. Defined.

Lemma type_c_scenario_tables_witness :
  exists d T1 T2 T3,
    generate_document no_repr no_title any_path (type_c_scenario true) sample_templates
      "out.docx" fresh
    = (Ok tt, State d (<["out.docx" := d]> ∅))
    /\ tables d = [T1; T2; T3]
    /\ map row_texts (data_rows T1) = [["T1"; "100"; "USD"]]
    /\ map row_texts (data_rows T2) = [["1"; "Alice"]; ["2"; "Bob"]]
    /\ map row_texts (data_rows T3) = [["Approved"; "Yes"]].
Proof.
  refine (type_c_scenario_tables no_repr no_title any_path sample_templates
            "Transactions" ["Transaction ID"; "Amount"; "Currency"]
            (Some "Transaction Overview") ["#"; "Party"] (Some "Party Information")
            ["Field"; "Value"] (Some "Status") "out.docx" true fresh _ _ _ _ _).
  - vm_compute. reflexivity.
  - simpl. lia.
  - simpl. lia.
  - simpl. lia.
  - reflexivity.
Defined.

Lemma absent_category_skipped_witness :
  py_get sample_input "objects" (JDict []) = Ok (JDict sample_objects)
  /\ assoc "TypeA" sample_objects = None
  /\ generate_document no_repr no_title any_path sample_input sample_templates
       "out.docx" fresh
     = (if_present (JDict sample_objects) "TypeB" (process_type_b no_repr sample_templates) ;;;
        if_present (JDict sample_objects) "TypeC" (process_type_c no_repr sample_templates) ;;;
        if_present (JDict sample_objects) "TypeD"
          (process_type_d no_repr no_title sample_templates) ;;;
        if_present (JDict sample_objects) "TypeE" (process_type_e no_repr sample_templates) ;;;
        save any_path "out.docx") fresh.
Proof.
  split; [reflexivity|]. split; [reflexivity|].
  exact (proj1 (proj2 (absent_category_skipped no_repr no_title any_path sample_input
                         sample_templates sample_objects "out.docx" fresh eq_refl))
           eq_refl).
Defined.

Lemma missing_objects_and_unknown_keys_witness :
  generate_document no_repr no_title any_path (JDict []) sample_templates "out.docx" fresh
    = (Ok tt, State [] (<["out.docx" := []]> ∅))
  /\ generate_document no_repr no_title any_path sample_input_extra sample_templates
       "out.docx" fresh
     = generate_document no_repr no_title any_path sample_input sample_templates
         "out.docx" fresh.
Proof.
  destruct (missing_objects_and_unknown_keys no_repr no_title any_path sample_templates
              "out.docx" fresh) as [Hmissing Hextra].
  split.
  - exact (Hmissing [] eq_refl eq_refl).
  - apply (Hextra sample_input_extra sample_input
             (("TypeZ", JList [JInt 1]) :: sample_objects) sample_objects eq_refl eq_refl).
    intros name Hin. unfold category_names in Hin. simpl in Hin.
    destruct Hin as [<-|[<-|[<-|[<-|[<-|[]]]]]]; reflexivity.
Defined.

Lemma generate_document_block_order_witness :
  sample_run = (Ok tt, snd sample_run)
  /\ exists objects sA sB sC sD sE,
       py_get sample_input "objects" (JDict []) = Ok objects /\
       section_of objects "TypeA" (type_a_section no_repr sample_templates) sA /\
       section_of objects "TypeB"
         (per_record_section no_repr sample_templates "type_b" rows_b) sB /\
       section_of objects "TypeC"
         (per_record_section no_repr sample_templates "type_c" rows_c) sC /\
       section_of objects "TypeD"
         (per_record_section no_repr sample_templates "type_d" (rows_d no_title)) sD /\
       section_of objects "TypeE"
         (per_record_section no_repr sample_templates "type_e" rows_e) sE /\
       any_path "out.docx" = true /\
       snd sample_run
       = State (doc fresh ++ sA ++ sB ++ sC ++ sD ++ sE)
               (<["out.docx" := doc fresh ++ sA ++ sB ++ sC ++ sD ++ sE]> (files fresh)).
Proof.
  split; [exact sample_run_returns|].
  exact (proj1 (generate_document_block_order no_repr no_title any_path sample_templates
                  sample_input "out.docx" fresh (snd sample_run))
           sample_run_returns).
Defined.

Lemma missing_field_fails_witness :
  py_get faulty_input "objects" (JDict []) = Ok faulty_objects
  /\ record_set faulty_objects = true
  /\ lookup_fault sample_templates faulty_objects = true
  /\ exists e s',
       generate_document no_repr no_title any_path faulty_input sample_templates
         "out.docx" fresh = (Raise e, s')
       /\ is_lookup_error e = true
       /\ files s' = files fresh.
Proof.
  assert (Hfault : lookup_fault sample_templates faulty_objects = true).
  { vm_compute. reflexivity. }
  split; [reflexivity|]. split; [reflexivity|]. split; [exact Hfault|].
  exact (proj1 (missing_field_fails no_repr no_title any_path sample_templates
                  faulty_input "out.docx" fresh)
           faulty_objects eq_refl eq_refl Hfault).
Defined.

(** ** Runs on small inputs *)

Example str_of_values :
  map (py_str no_repr) [JNull; JBool true; JBool false; JInt 100; JInt (-12); JFloat "1.5";
                        JStr "USD"]
  = ["None"; "True"; "False"; "100"; "-12"; "1.5"; "USD"].
Proof. reflexivity. Qed.

Example faulty_input_raises :
  fst (generate_document no_repr no_title any_path faulty_input sample_templates
         "out.docx" fresh) = Raise (KeyError "specs").
Proof. vm_compute. reflexivity. Qed.

Example long_row_raises :
  fst (add_table no_repr ["h"] [[JInt 1; JInt 2]] None fresh) = Raise IndexError.
Proof. vm_compute. reflexivity. Qed.

Example objects_not_a_dict :
  fst (generate_document no_repr no_title any_path
         (JDict [("objects", JList [JStr "TypeA"])]) sample_templates "out.docx" fresh)
  = Raise TypeError.
Proof. vm_compute. reflexivity. Qed.

Example empty_categories_b_to_e :
  map (fun name =>
         tables (doc (snd (generate_document no_repr no_title any_path
                             (JDict [("objects", JDict [(name, JList [])])])
                             sample_templates "out.docx" fresh))))
      ["TypeB"; "TypeC"]
  = [[]; []].
Proof. vm_compute. reflexivity. Qed.

Example unwritable_destination :
  generate_document no_repr no_title (fun _ => false) (JDict []) sample_templates
    "out.docx" fresh = (Raise OSError, fresh).
Proof. vm_compute. reflexivity. Qed.

(** ** The document only grows *)

Section AppendOnly.

Lemma append_only_ret {A} (a : A) : append_only (ret a).
Proof. intros s r s' [= <- <-]. exists []. symmetry. apply app_nil_r. Qed.

Lemma append_only_bind {A B} (m : St state A) (k : A -> St state B) :
  append_only m -> (forall a, append_only (k a)) -> append_only (bind m k).
Proof.
  intros Hm Hk s r s'' H. unfold bind in H.
  destruct (m s) as [[a|e] s'] eqn:E.
  - destruct (Hm _ _ _ E) as [bs Hbs]. destruct (Hk a _ _ _ H) as [bs' Hbs'].
    exists (bs ++ bs'). rewrite Hbs', Hbs, app_assoc. reflexivity.
  - injection H as <- <-. exact (Hm _ _ _ E).
Qed.

Lemma append_only_lift_bind {A B} (r : result A) (k : A -> St state B) :
  (forall a, r = Ok a -> append_only (k a)) -> append_only (bind (lift r) k).
Proof.
  intros Hk s r' s' H. rewrite bind_lift in H. destruct r as [a|e].
  - exact (Hk a eq_refl _ _ _ H).
  - injection H as <- <-. exists []. symmetry. apply app_nil_r.
Qed.

Lemma append_only_for_each {A} (xs : list A) (body : A -> St state unit) :
  (forall x, append_only (body x)) -> append_only (for_each xs body).
Proof.
  intros Hbody. induction xs as [|x xs IH]; simpl.
  - apply append_only_ret.
  - apply append_only_bind; [apply Hbody | intros _; exact IH].
Qed.

Lemma append_only_append b : append_only (append b).
Proof. intros s r s' [= <- <-]. exists [b]. reflexivity. Qed.

(** The new table is one more block, however far its filling got. *)
Lemma append_only_with_new_table {A} rows cols (body : St table A) :
  append_only (with_new_table rows cols body).
Proof.
  intros s r s' H. unfold with_new_table in H.
  destruct (body (new_table rows cols)) as [r' t]. injection H as <- <-.
  exists [BTable t]. reflexivity.
Qed.

Lemma append_only_add_title text : append_only (add_title text).
Proof.
  unfold add_title. apply append_only_bind; [|intros _]; apply append_only_append.
Qed.

Lemma append_only_add_table py_repr headers rows title :
  append_only (add_table py_repr headers rows title).
Proof.
  unfold add_table. apply append_only_bind.
  - destruct (title_given title); [apply append_only_append | apply append_only_ret].
  - intros _. apply append_only_bind; [apply append_only_with_new_table|].
    intros _. apply append_only_append.
Qed.

Lemma append_only_if_present objects name (process : json -> St state unit) :
  (forall data, append_only (process data)) ->
  append_only (if_present objects name process).
Proof.
  intros Hp. unfold if_present. apply append_only_lift_bind. intros [|] _.
  - apply append_only_lift_bind. intros data _. apply Hp.
  - apply append_only_ret.
Qed.

Lemma append_only_save writable output_file : append_only (save writable output_file).
Proof.
  intros s r s' H. unfold save in H. exists [].
  destruct (writable output_file); injection H as <- <-; simpl; symmetry; apply app_nil_r.
Qed.

End AppendOnly.

Ltac grow_step :=
  lazymatch goal with
  | |- append_only (bind (lift _) _) => apply append_only_lift_bind; intros ? ?
  | |- append_only (bind (add_title _) _) =>
      apply append_only_bind; [apply append_only_add_title | intros ?]
  | |- append_only (bind (add_table _ _ _ _) _) =>
      apply append_only_bind; [apply append_only_add_table | intros ?]
  | |- append_only (add_table _ _ _ _) => apply append_only_add_table
  | |- append_only (bind (for_each _ _) _) =>
      apply append_only_bind; [apply append_only_for_each; intros ? | intros ?]
  | |- append_only (for_each _ _) => apply append_only_for_each; intros ?
  end.

Section Growth.

Variable py_repr : json -> string.
Variable str_title : string -> string.
Variable writable : string -> bool.
Variable templates : gmap string template.

Lemma append_only_process_type_a data :
  append_only (process_type_a py_repr templates data).
Proof. unfold process_type_a. repeat grow_step. Qed.

Lemma append_only_process_type_b data :
  append_only (process_type_b py_repr templates data).
Proof. unfold process_type_b. repeat grow_step. Qed.

Lemma append_only_process_type_c data :
  append_only (process_type_c py_repr templates data).
Proof. unfold process_type_c. repeat grow_step. Qed.

Lemma append_only_process_type_d data :
  append_only (process_type_d py_repr str_title templates data).
Proof. unfold process_type_d. repeat grow_step. Qed.

Lemma append_only_process_type_e data :
  append_only (process_type_e py_repr templates data).
Proof. unfold process_type_e. repeat grow_step. Qed.

Lemma append_only_generate_document json_data output_file :
  append_only
    (generate_document py_repr str_title writable json_data templates output_file).
Proof.
  unfold generate_document. apply append_only_lift_bind. intros objects _.
  apply append_only_bind;
    [apply append_only_if_present, append_only_process_type_a | intros _].
  apply append_only_bind;
    [apply append_only_if_present, append_only_process_type_b | intros _].
  apply append_only_bind;
    [apply append_only_if_present, append_only_process_type_c | intros _].
  apply append_only_bind;
    [apply append_only_if_present, append_only_process_type_d | intros _].
  apply append_only_bind;
    [apply append_only_if_present, append_only_process_type_e | intros _].
  apply append_only_save.
Qed.

(** X1. Whatever the input and whether the run returns or raises, the
    document the generator holds afterwards is the document it held
    before followed by new blocks: nothing appended earlier is changed or
    removed. *)
Theorem generate_document_append_only json_data output_file (s : state) :
  exists bs,
    doc (snd (generate_document py_repr str_title writable json_data templates
                output_file s))
    = doc s ++ bs.
Proof.
  destruct (generate_document py_repr str_title writable json_data templates
              output_file s) as [r s'] eqn:E.
  exact (append_only_generate_document _ _ _ _ _ E).
Qed.

(** X2. A run writes at most the file it is asked to write: every other
    path holds afterwards what it held before, whether the run returns or
    raises, and after a run that returns the output path holds the
    document of the generator. *)
Theorem generate_document_writes_one_file json_data output_file (s : state) path :
  path <> output_file ->
  files (snd (generate_document py_repr str_title writable json_data templates
                output_file s)) !! path
  = files s !! path
  /\ (fst (generate_document py_repr str_title writable json_data templates
             output_file s) = Ok tt ->
      files (snd (generate_document py_repr str_title writable json_data templates
                    output_file s)) !! output_file
      = Some (doc (snd (generate_document py_repr str_title writable json_data
                          templates output_file s)))).
Proof.
  intros Hne.
  destruct (generate_document py_repr str_title writable json_data templates
              output_file s) as [[[]|e] s'] eqn:E; simpl.
  - apply generate_document_Ok_inv in E
      as (objects & sA & sB & sC & sD & sE & _ & _ & _ & _ & _ & _ & _ & _ & Hfiles).
    rewrite Hfiles. split.
    + apply lookup_insert_ne. congruence.
    + intros _. apply lookup_insert_eq.
  - apply generate_document_no_write in E. rewrite E.
    split; [reflexivity | discriminate].
Qed.

(** X3. The generator keeps its document between calls: when a run
    returns, having appended the blocks [bs], a second run on the same
    generator returns too, appends the same blocks once more and saves
    the document with both copies. *)
Theorem generate_document_twice json_data output_file (s s1 : state) u :
  generate_document py_repr str_title writable json_data templates output_file s
    = (Ok u, s1) ->
  exists bs,
    doc s1 = doc s ++ bs
    /\ generate_document py_repr str_title writable json_data templates output_file s1
       = (Ok tt, State (doc s ++ bs ++ bs)
                       (<[output_file := doc s ++ bs ++ bs]> (files s))).
Proof.
  intros H.
  apply generate_document_Ok_inv in H
    as (objects & sA & sB & sC & sD & sE & Hobj & HA & HB & HC & HD & HE & Hw
        & Hdoc & Hfiles).
  exists (sA ++ sB ++ sC ++ sD ++ sE). split; [exact Hdoc|].
  rewrite (generate_document_run py_repr str_title templates writable json_data
             output_file objects sA sB sC sD sE s1 Hobj HA HB HC HD HE Hw).
  rewrite Hdoc, Hfiles, insert_insert_eq.
  rewrite <- !app_assoc. reflexivity.
Qed.

End Growth.

(** ** Edges of the per-record processors *)

Section Edges.

Variable py_repr : json -> string.
Variable str_title : string -> string.
Variable templates : gmap string template.

(** X4. With nothing to iterate over (an empty list, dict or string), the
    processors of B, C, D and E append the section heading and its blank
    paragraph and return: no table is made and the table keys of the
    template entry are not read, so an entry with a title alone is
    enough. *)
Theorem empty_category_heading_only data (s : state) :
  py_iter data = Ok [] ->
  (forall tpl t, templates !! "type_b" = Some tpl -> title tpl = Some t ->
     process_type_b py_repr templates data s
     = (Ok tt, State (doc s ++ [BParagraph (heading t); BParagraph blank]) (files s)))
  /\ (forall tpl t, templates !! "type_c" = Some tpl -> title tpl = Some t ->
     process_type_c py_repr templates data s
     = (Ok tt, State (doc s ++ [BParagraph (heading t); BParagraph blank]) (files s)))
  /\ (forall tpl t, templates !! "type_d" = Some tpl -> title tpl = Some t ->
     process_type_d py_repr str_title templates data s
     = (Ok tt, State (doc s ++ [BParagraph (heading t); BParagraph blank]) (files s)))
  /\ (forall tpl t, templates !! "type_e" = Some tpl -> title tpl = Some t ->
     process_type_e py_repr templates data s
     = (Ok tt, State (doc s ++ [BParagraph (heading t); BParagraph blank]) (files s))).
Proof.
  intros Eiter. repeat split; intros tpl t Ktpl Kt.
  - unfold process_type_b. fwd. reflexivity.
  - unfold process_type_c. fwd. reflexivity.
  - unfold process_type_d. fwd. reflexivity.
  - unfold process_type_e. fwd. reflexivity.
Qed.

(** X5. The table keys of a template entry are read when the first
    record is rendered: with a first record whose Table 1 fields are
    there and an entry without "table1_headers", each of the processors
    of B, C, D and E raises [KeyError] for that key, the heading being
    already in the document. *)
Theorem missing_table_key_is_found_late data item rest tpl t (s : state) :
  py_iter data = Ok (item :: rest) ->
  title tpl = Some t ->
  table1_headers tpl = None ->
  (templates !! "type_b" = Some tpl ->
   forall a b, py_getitem item "component_id" = Ok a ->
     py_getitem item "installation_date" = Ok b ->
     process_type_b py_repr templates data s
     = (Raise (KeyError "table1_headers"),
        State (doc s ++ title_blocks t) (files s)))
  /\ (templates !! "type_c" = Some tpl ->
      forall a b c, py_getitem item "transaction_id" = Ok a ->
        py_getitem item "amount" = Ok b -> py_getitem item "currency" = Ok c ->
        process_type_c py_repr templates data s
        = (Raise (KeyError "table1_headers"),
           State (doc s ++ title_blocks t) (files s)))
  /\ (templates !! "type_d" = Some tpl ->
      forall a b, py_getitem item "test_id" = Ok a ->
        py_getitem item "environment" = Ok b ->
        process_type_d py_repr str_title templates data s
        = (Raise (KeyError "table1_headers"),
           State (doc s ++ title_blocks t) (files s)))
  /\ (templates !! "type_e" = Some tpl ->
      forall a b c, py_getitem item "employee_id" = Ok a ->
        py_getitem item "department" = Ok b -> py_getitem item "role" = Ok c ->
        process_type_e py_repr templates data s
        = (Raise (KeyError "table1_headers"),
           State (doc s ++ title_blocks t) (files s))).
Proof.
  intros Eiter Kt Kh1. repeat split; intros Ktpl; intros.
  - unfold process_type_b. fwd. cbn [for_each].
    erewrite bind_Raise; [reflexivity|]. fwd. rewrite Kh1. reflexivity.
  - unfold process_type_c. fwd. cbn [for_each].
    erewrite bind_Raise; [reflexivity|]. fwd. rewrite Kh1. reflexivity.
  - unfold process_type_d. fwd. cbn [for_each].
    erewrite bind_Raise; [reflexivity|]. fwd. rewrite Kh1. reflexivity.
  - unfold process_type_e. fwd. cbn [for_each].
    erewrite bind_Raise; [reflexivity|]. fwd. rewrite Kh1. reflexivity.
Qed.

(** X10. [process_type_d] calls [title()] on the environment only for
    Table 3: a first record whose environment is there but is not a
    string has its Table 1, which shows the environment, and its Table 2
    appended, and then the call raises [AttributeError]. *)
Theorem environment_must_be_a_string data item rest
    t h1 t1 h2 t2 h3 t3 test_id environment kvs (s : state) :
  templates !! "type_d" = Some (full_template t h1 t1 h2 t2 h3 t3) ->
  py_iter data = Ok (item :: rest) ->
  py_getitem item "test_id" = Ok test_id ->
  py_getitem item "environment" = Ok environment ->
  is_string environment = false ->
  py_getitem item "metrics" = Ok (JDict kvs) ->
  2 <= length h1 -> 2 <= length h2 ->
  process_type_d py_repr str_title templates data s
  = (Raise AttributeError,
     State (doc s ++ title_blocks t
            ++ table_blocks py_repr h1 [[test_id; environment]] t1
            ++ table_blocks py_repr h2
                 (map (fun '(k, v) => [JStr (str_title (replace_char "_" " " k)); v]) kvs)
                 t2)
           (files s)).
Proof.
  intros Ktpl Eiter Eid Eenv Hshape Emetrics L1 L2.
  assert (F1 : rows_fit h1 [[test_id; environment]]).
  { constructor; [simpl; lia | constructor]. }
  assert (F2 : rows_fit h2
                 (map (fun '(k, v) => [JStr (str_title (replace_char "_" " " k)); v]) kvs)).
  { unfold rows_fit. apply Forall_map. apply Forall_forall. intros [k v] _. simpl. lia. }
  assert (Etitle : py_title str_title environment = Raise AttributeError).
  { destruct environment; try reflexivity. discriminate Hshape. }
  remember (full_template t h1 t1 h2 t2 h3 t3) as tpl eqn:Etpl.
  assert (Kt : title tpl = Some t) by (subst tpl; reflexivity).
  assert (Kh1 : table1_headers tpl = Some h1) by (subst tpl; reflexivity).
  assert (Kt1 : table1_title tpl = Some t1) by (subst tpl; reflexivity).
  assert (Kh2 : table2_headers tpl = Some h2) by (subst tpl; reflexivity).
  assert (Kt2 : table2_title tpl = Some t2) by (subst tpl; reflexivity).
  clear Etpl.
  unfold process_type_d. fwd. cbn [for_each].
  erewrite bind_Raise; [reflexivity|]. fwd. cbn [py_items]. fwd.
  rewrite Etitle. tidy.
Qed.

End Edges.

(** ** The tables of a section *)

Section SectionTables.

Variable py_repr : json -> string.
Variable str_title : string -> string.
Variable writable : string -> bool.
Variable templates : gmap string template.

Lemma tables_concat (bss : list (list block)) :
  tables (concat bss) = concat (map tables bss).
Proof.
  induction bss as [|b bss IH]; simpl; [reflexivity|].
  rewrite tables_app, IH. reflexivity.
Qed.

Lemma Forall2_map_right {A B C} (R : A -> C -> Prop) (Q : A -> B -> Prop) (f : B -> C)
    xs ys :
  (forall x y, Q x y -> R x (f y)) -> Forall2 Q xs ys -> Forall2 R xs (map f ys).
Proof.
  intros HQR. induction 1; simpl; constructor; auto.
Qed.

(** The three tables of a record, as tables. *)
Lemma three_tables_tables tpl r b :
  three_tables py_repr tpl r b ->
  exists h1 h2 h3,
    rows_fit h1 r.1.1 /\ rows_fit h2 r.1.2 /\ rows_fit h3 r.2
    /\ tables b = [rendered_table py_repr h1 r.1.1; rendered_table py_repr h2 r.1.2;
                   rendered_table py_repr h3 r.2].
Proof.
  intros (h1 & t1 & h2 & t2 & h3 & t3 & _ & _ & _ & _ & _ & _ & F1 & F2 & F3 & ->).
  exists h1, h2, h3. repeat split; try assumption.
  rewrite !tables_app, !tables_table_blocks. reflexivity.
Qed.

(** The tables of a section rendered record by record: three per record,
    in the order of the records. *)
Lemma per_record_section_tables name rows_of data bs :
  per_record_section py_repr templates name rows_of data bs ->
  exists items tss,
    py_iter data = Ok items
    /\ tables bs = concat tss
    /\ Forall2 (fun item ts =>
                  exists r h1 h2 h3,
                    rows_of item = Ok r
                    /\ rows_fit h1 r.1.1 /\ rows_fit h2 r.1.2 /\ rows_fit h3 r.2
                    /\ ts = [rendered_table py_repr h1 r.1.1;
                             rendered_table py_repr h2 r.1.2;
                             rendered_table py_repr h3 r.2])
         items tss.
Proof.
  intros (tpl & t & items & bss & _ & _ & Eiter & Hall & ->).
  exists items, (map tables bss). split; [exact Eiter|]. split.
  - rewrite tables_app, tables_title_blocks, tables_concat. reflexivity.
  - eapply Forall2_map_right; [|exact Hall].
    intros item b (r & Er & Hthree).
    destruct (three_tables_tables _ _ _ Hthree) as (h1 & h2 & h3 & F1 & F2 & F3 & Ht).
    exists r, h1, h2, h3. auto 10.
Qed.

Lemma data_rows_rendered headers rows :
  data_rows (rendered_table py_repr headers rows)
  = map (data_row py_repr (length headers)) rows.
Proof. reflexivity. Qed.

Lemma row_texts_pair cols a b :
  exists pad, row_texts (data_row py_repr cols [a; b])
              = [py_str py_repr a; py_str py_repr b] ++ pad.
Proof. rewrite row_texts_data_row. eexists. reflexivity. Qed.

Lemma assoc_In k kv v : assoc k kv = Some v -> In (k, v) kv.
Proof.
  induction kv as [|[k' v'] kv IH]; simpl; [discriminate|].
  destruct (String.eqb k k') eqn:E.
  - intros [= ->]. apply String.eqb_eq in E. subst. left. reflexivity.
  - intros H. right. apply IH. exact H.
Qed.

(** X6. In a call of [process_type_b] that returns, every record has
    three tables, the records in their order, and for each record:
    Table 2 has one data row per entry of the record's specs, in the
    order of the mapping, showing the key and the [str] of the value;
    the specs have a manufacturer, which Table 3 shows in its single data
    row and which Table 2 shows too, in the row of its key. *)
Theorem type_b_specs_rows data (s s' : state) u :
  process_type_b py_repr templates data s = (Ok u, s') ->
  exists items tss,
    py_iter data = Ok items
    /\ tables (doc s') = tables (doc s) ++ concat tss
    /\ Forall2 (fun item ts =>
                  exists kvs m T1 T2 T3,
                    ts = [T1; T2; T3]
                    /\ py_getitem item "specs" = Ok (JDict kvs)
                    /\ assoc "manufacturer" kvs = Some m
                    /\ Forall2 (fun kv row =>
                                  exists pad,
                                    row_texts row = [kv.1; py_str py_repr kv.2] ++ pad)
                         kvs (data_rows T2)
                    /\ (exists row pad,
                          data_rows T3 = [row]
                          /\ row_texts row = ["Manufacturer"; py_str py_repr m] ++ pad)
                    /\ (exists row pad,
                          In row (data_rows T2)
                          /\ row_texts row = ["manufacturer"; py_str py_repr m] ++ pad))
         items tss.
Proof.
  intros H. apply process_type_b_Ok_inv in H as (bs & Hsec & ->).
  apply per_record_section_tables in Hsec as (items & tss & Eiter & Htables & Hall).
  exists items, tss. split; [exact Eiter|]. split.
  { simpl. rewrite tables_app, Htables. reflexivity. }
  eapply Forall2_impl; [exact Hall|].
  intros item ts (r & h1 & h2 & h3 & Er & _ & _ & _ & ->).
  unfold rows_b in Er. inv_rbind Er. injection Er as <-. simpl.
  match goal with
  | Es : py_getitem item "specs" = Ok ?specs, Ei : py_items ?specs = Ok ?kvs0,
    Em : py_getitem ?specs "manufacturer" = Ok ?m0 |- _ =>
      destruct specs as [| | | | | |kvs]; try discriminate Ei;
      simpl in Ei; injection Ei as Ei; subst kvs0;
      simpl in Em; destruct (assoc "manufacturer" kvs) as [m|] eqn:Ea;
      [injection Em as Em; subst m0 | discriminate Em]
  end.
  exists kvs, m. do 3 eexists.
  split; [reflexivity|]. split; [reflexivity|]. split; [exact Ea|].
  assert (Hrows : Forall2 (fun kv row =>
                             exists pad, row_texts row = [kv.1; py_str py_repr kv.2] ++ pad)
                    kvs (data_rows (rendered_table py_repr h2
                                      (map (fun '(k, v) => [JStr k; v]) kvs)))).
  { rewrite data_rows_rendered, map_map.
    apply Forall2_fmap_r. apply Forall_Forall2_diag. apply Forall_forall.
    intros [k v] _. simpl. apply (row_texts_pair _ (JStr k) v). }
  split; [exact Hrows|]. split.
  - destruct (row_texts_pair (length h3) (JStr "Manufacturer") m) as [pad Hpad].
    eexists _, pad. split; [reflexivity | exact Hpad].
  - apply assoc_In in Ea.
    destruct (Forall2_In_left _ _ _ _ Hrows Ea) as (row & Hrow & pad & Hpad).
    exists row, pad. split; [exact Hrow | exact Hpad].
Qed.

Lemma enumerate_from_lookup {A} (xs : list A) : forall n i j x,
  enumerate_from n xs !! i = Some (j, x) -> j = n + i /\ xs !! i = Some x.
Proof.
  induction xs as [|y xs IH]; intros n i j x H; [discriminate|].
  destruct i as [|i]; simpl in H.
  - injection H as <- <-. split; [lia | reflexivity].
  - apply IH in H as [-> H]. split; [lia | exact H].
Qed.

Lemma enumerate_from_length {A} (xs : list A) n :
  length (enumerate_from n xs) = length xs.
Proof. revert n. induction xs as [|y xs IH]; intros n; simpl; [|rewrite IH]; reflexivity. Qed.

Lemma numbered_length xs : length (numbered xs) = length xs.
Proof. unfold numbered, enumerate. rewrite length_map. apply enumerate_from_length. Qed.

(** The rows [[i+1, x] for i, x in enumerate(xs)]: the row at position
    [i] pairs [i + 1] with the element at position [i]. *)
Lemma numbered_lookup xs i row :
  numbered xs !! i = Some row ->
  exists x, xs !! i = Some x /\ row = [JInt (Z.of_nat (i + 1)); x].
Proof.
  unfold numbered, enumerate. intros H.
  change (map ?f ?l) with (f <$> l) in H.
  rewrite list_lookup_fmap in H.
  destruct (enumerate_from 0 xs !! i) as [[j x]|] eqn:E; [|discriminate].
  apply enumerate_from_lookup in E as [-> Ex]. simpl in H. injection H as <-.
  exists x. split; [exact Ex|]. do 2 f_equal. lia.
Qed.

Lemma chars_length s : length (chars s) = String.length s.
Proof.
  unfold chars. rewrite length_map.
  induction s as [|a s IH]; simpl; [|rewrite IH]; reflexivity.
Qed.

(** [len] counts what a loop visits. *)
Lemma py_len_iter v xs : py_iter v = Ok xs -> py_len v = Ok (length xs).
Proof.
  destruct v; try discriminate; simpl; intros [= <-].
  - rewrite chars_length. reflexivity.
  - reflexivity.
  - rewrite length_map. reflexivity.
Qed.

(** The data rows of a table of numbered rows. *)
Lemma numbered_rows headers xs i row :
  data_rows (rendered_table py_repr headers (numbered xs)) !! i = Some row ->
  exists x pad,
    xs !! i = Some x
    /\ row_texts row = [str_of_Z (Z.of_nat (i + 1)); py_str py_repr x] ++ pad.
Proof.
  rewrite data_rows_rendered. intros H.
  change (map ?f ?l) with (f <$> l) in H.
  rewrite list_lookup_fmap in H.
  destruct (numbered xs !! i) as [r|] eqn:E; [|discriminate].
  apply numbered_lookup in E as (x & Ex & ->). simpl in H. injection H as <-.
  destruct (row_texts_pair (length headers) (JInt (Z.of_nat (i + 1))) x) as [pad Hpad].
  exists x, pad. split; [exact Ex | exact Hpad].
Qed.

(** X7. In a call of [process_type_e] that returns, every record has
    three tables, the records in their order, and for each record:
    Table 2 has one data row per project, the row at position [i]
    (from 0) showing the number [i + 1] and the [str] of the project at
    that position; the single data row of Table 3 shows "Total Projects"
    and the number of data rows of Table 2. *)
Theorem type_e_projects_rows data (s s' : state) u :
  process_type_e py_repr templates data s = (Ok u, s') ->
  exists items tss,
    py_iter data = Ok items
    /\ tables (doc s') = tables (doc s) ++ concat tss
    /\ Forall2 (fun item ts =>
                  exists projects ps T1 T2 T3,
                    ts = [T1; T2; T3]
                    /\ py_getitem item "projects" = Ok projects
                    /\ py_iter projects = Ok ps
                    /\ length (data_rows T2) = length ps
                    /\ (forall i row,
                          data_rows T2 !! i = Some row ->
                          exists p pad,
                            ps !! i = Some p
                            /\ row_texts row
                               = [str_of_Z (Z.of_nat (i + 1)); py_str py_repr p] ++ pad)
                    /\ (exists row pad,
                          data_rows T3 = [row]
                          /\ row_texts row
                             = ["Total Projects";
                                str_of_Z (Z.of_nat (length (data_rows T2)))] ++ pad))
         items tss.
Proof.
  intros H. apply process_type_e_Ok_inv in H as (bs & Hsec & ->).
  apply per_record_section_tables in Hsec as (items & tss & Eiter & Htables & Hall).
  exists items, tss. split; [exact Eiter|]. split.
  { simpl. rewrite tables_app, Htables. reflexivity. }
  eapply Forall2_impl; [exact Hall|].
  intros item ts (r & h1 & h2 & h3 & Er & _ & _ & _ & ->).
  unfold rows_e in Er. inv_rbind Er. injection Er as <-. simpl.
  match goal with
  | Ep : py_getitem item "projects" = Ok ?projects, Ei : py_iter ?projects = Ok ?ps,
    El : py_len ?projects = Ok ?n |- _ =>
      rewrite (py_len_iter _ _ Ei) in El; injection El as El; subst n;
      exists projects, ps
  end.
  do 3 eexists.
  split; [reflexivity|]. split; [reflexivity|]. split; [eassumption|].
  assert (Hlen : forall h xs,
             length (data_rows (rendered_table py_repr h (numbered xs))) = length xs).
  { intros h xs. rewrite data_rows_rendered, length_map. apply numbered_length. }
  split; [apply Hlen|]. split.
  - intros i row Hrow. apply numbered_rows in Hrow. exact Hrow.
  - rewrite Hlen.
    match goal with
    | |- context [JInt (Z.of_nat ?n)] =>
        destruct (row_texts_pair (length h3) (JStr "Total Projects") (JInt (Z.of_nat n)))
          as [pad Hpad]
    end.
    eexists _, pad. split; [reflexivity | exact Hpad].
Qed.

(** X8. In a call of [process_type_c] that returns, every
    record has three tables, the records in their order, and for each
    record: Table 2 has one data row per party, the row at position [i]
    showing [i + 1] and the [str] of the party; the single data row of
    Table 3 shows "Approved" and then "Yes" when the approved field is
    truthy in Python's sense (a non-zero number, a non-empty string, list
    or dict, or true) and "No" otherwise. *)
Theorem type_c_parties_and_status data (s s' : state) u :
  process_type_c py_repr templates data s = (Ok u, s') ->
  exists items tss,
    py_iter data = Ok items
    /\ tables (doc s') = tables (doc s) ++ concat tss
    /\ Forall2 (fun item ts =>
                  exists parties ps approved T1 T2 T3,
                    ts = [T1; T2; T3]
                    /\ py_getitem item "parties" = Ok parties
                    /\ py_iter parties = Ok ps
                    /\ py_getitem item "approved" = Ok approved
                    /\ length (data_rows T2) = length ps
                    /\ (forall i row,
                          data_rows T2 !! i = Some row ->
                          exists p pad,
                            ps !! i = Some p
                            /\ row_texts row
                               = [str_of_Z (Z.of_nat (i + 1)); py_str py_repr p] ++ pad)
                    /\ (exists row pad,
                          data_rows T3 = [row]
                          /\ row_texts row
                             = ["Approved"; if py_truthy approved then "Yes" else "No"]
                               ++ pad))
         items tss.
Proof.
  intros H. apply process_type_c_Ok_inv in H as (bs & Hsec & ->).
  apply per_record_section_tables in Hsec as (items & tss & Eiter & Htables & Hall).
  exists items, tss. split; [exact Eiter|]. split.
  { simpl. rewrite tables_app, Htables. reflexivity. }
  eapply Forall2_impl; [exact Hall|].
  intros item ts (r & h1 & h2 & h3 & Er & _ & _ & _ & ->).
  unfold rows_c in Er. inv_rbind Er. injection Er as <-. simpl.
  match goal with
  | Ep : py_getitem item "parties" = Ok ?parties, Ei : py_iter ?parties = Ok ?ps,
    Ea : py_getitem item "approved" = Ok ?approved |- _ =>
      exists parties, ps, approved
  end.
  do 3 eexists.
  split; [reflexivity|]. split; [reflexivity|]. split; [eassumption|].
  split; [reflexivity|].
  split; [rewrite data_rows_rendered, length_map; apply numbered_length|]. split.
  - intros i row Hrow. apply numbered_rows in Hrow. exact Hrow.
  - match goal with
    | |- context [JStr (if ?b then "Yes" else "No")] =>
        destruct (row_texts_pair (length h3) (JStr "Approved")
                    (JStr (if b then "Yes" else "No"))) as [pad Hpad]
    end.
    eexists _, pad. split; [reflexivity|]. rewrite Hpad.
    destruct (py_truthy _); reflexivity.
Qed.

End SectionTables.

(** ** Every table is a grid *)

Section Grid.

Variable py_repr : json -> string.
Variable str_title : string -> string.
Variable writable : string -> bool.
Variable templates : gmap string template.

Lemma grid_rendered_table headers rows :
  rows_fit headers rows -> grid_table (rendered_table py_repr headers rows).
Proof.
  intros Hfit. split; [reflexivity|].
  exists (map header_cell headers), (map (data_row py_repr (length headers)) rows).
  split; [reflexivity|]. split; [apply length_map|]. split.
  - apply Forall_map. apply Forall_forall. intros h _. exists h. reflexivity.
  - apply Forall_map. unfold rows_fit in Hfit.
    eapply Forall_impl; [exact Hfit|].
    intros row Hrow. simpl in Hrow. simpl. unfold data_row. split.
    + rewrite length_app, length_map, length_replicate. lia.
    + apply Forall_app. split.
      * apply Forall_map. apply Forall_forall. intros v _. right.
        exists (py_str py_repr v). reflexivity.
      * apply Forall_forall. intros c Hc.
        apply elem_of_replicate in Hc as [-> _]. left. reflexivity.
Qed.

Lemma Forall_concat {A} (P : A -> Prop) (xss : list (list A)) :
  Forall (Forall P) xss -> Forall P (concat xss).
Proof.
  induction 1 as [|xs xss Hxs _ IH]; simpl; [constructor|].
  apply Forall_app. split; assumption.
Qed.

Lemma Forall2_Forall_right {A B} (R : A -> B -> Prop) (P : B -> Prop) xs ys :
  (forall x y, R x y -> P y) -> Forall2 R xs ys -> Forall P ys.
Proof. intros HRP. induction 1; constructor; eauto. Qed.

Lemma grid_per_record_section name rows_of data bs :
  per_record_section py_repr templates name rows_of data bs ->
  Forall grid_table (tables bs).
Proof.
  intros Hsec.
  apply per_record_section_tables in Hsec as (items & tss & _ & -> & Hall).
  apply Forall_concat. eapply Forall2_Forall_right; [|exact Hall].
  intros item ts (r & h1 & h2 & h3 & _ & F1 & F2 & F3 & ->).
  repeat constructor; apply grid_rendered_table; assumption.
Qed.

Lemma grid_type_a_section data bs :
  type_a_section py_repr templates data bs -> Forall grid_table (tables bs).
Proof.
  intros (tpl & t & items & rows1 & h1 & t1 & bss & n & h3 & t3 & _ & _ & _ & _ & _ & _
          & F1 & Hall & _ & _ & _ & F3 & ->).
  rewrite !tables_app, !tables_table_blocks, tables_title_blocks, tables_concat.
  simpl. constructor; [apply grid_rendered_table; exact F1|].
  apply Forall_app. split.
  - apply Forall_concat. apply Forall_map.
    eapply Forall2_Forall_right; [|exact Hall].
    intros item b (row & h2 & t2 & _ & _ & _ & F2 & ->). simpl.
    rewrite tables_table_blocks. repeat constructor.
    apply grid_rendered_table. exact F2.
  - repeat constructor. apply grid_rendered_table. exact F3.
Qed.

Lemma grid_section_of objects name (section : json -> list block -> Prop) bs :
  (forall data bs, section data bs -> Forall grid_table (tables bs)) ->
  section_of objects name section bs -> Forall grid_table (tables bs).
Proof.
  intros Hsec [[_ ->]|(data & _ & _ & H)]; [constructor | eauto].
Qed.

(** X11. Every table a run that returns has added to the document has
    the style "Table Grid" and a first row of bold header cells, every
    row of it has as many cells as the table has columns, and a cell of
    a data row is either untouched or holds one run that is not bold. *)
Theorem generated_tables_are_grids json_data output_file (s s' : state) u :
  generate_document py_repr str_title writable json_data templates output_file s
    = (Ok u, s') ->
  exists ts,
    tables (doc s') = tables (doc s) ++ ts /\ Forall grid_table ts.
Proof.
  intros H.
  apply generate_document_Ok_inv in H
    as (objects & sA & sB & sC & sD & sE & _ & HA & HB & HC & HD & HE & _ & Hdoc & _).
  exists (tables (sA ++ sB ++ sC ++ sD ++ sE)). split.
  - rewrite Hdoc. apply tables_app.
  - rewrite !tables_app. repeat (apply Forall_app; split).
    + eapply grid_section_of; [|exact HA]. apply grid_type_a_section.
    + eapply grid_section_of; [|exact HB]. apply grid_per_record_section.
    + eapply grid_section_of; [|exact HC]. apply grid_per_record_section.
    + eapply grid_section_of; [|exact HD]. apply grid_per_record_section.
    + eapply grid_section_of; [|exact HE]. apply grid_per_record_section.
Qed.

End Grid.

(** ** The tests on a generated document *)

Section Tests.

Variable py_repr : json -> string.
Variable str_title : string -> string.
Variable writable : string -> bool.
Variable templates : gmap string template.

(** The verdict of the loop of assertions when every record has the
    field, the strings among the values are found and nothing else is. *)
Lemma assert_each_verdict items field (found : json -> bool) :
  (forall item, In item items ->
     exists v, py_getitem item field = Ok v /\ (forall s, v = JStr s -> found v = true)) ->
  (forall v, is_string v = false -> found v = false) ->
  assert_each items field found
  = if string_ids items field then Passed else Failed.
Proof.
  intros Hstr Hother. induction items as [|item items IH]; [reflexivity|].
  simpl. destruct (Hstr item (or_introl eq_refl)) as (v & Ev & Hv). rewrite Ev.
  destruct v; try (rewrite Hother by reflexivity; reflexivity).
  rewrite (Hv s eq_refl). simpl. apply IH.
  intros item' Hin. apply Hstr. right. exact Hin.
Qed.

Lemma py_in_not_string v row : is_string v = false -> py_in v row = false.
Proof. destruct v; try reflexivity. discriminate. Qed.

Lemma any_row_not_string v table_data : is_string v = false -> any_row v table_data = false.
Proof.
  intros H. unfold any_row. induction table_data as [|row rows IH]; [reflexivity|].
  simpl. rewrite (py_in_not_string _ _ H). exact IH.
Qed.

Lemma found_in_tables_not_string ts v :
  is_string v = false -> found_in_tables ts v = false.
Proof.
  intros H. unfold found_in_tables. induction ts as [|t ts IH]; [reflexivity|].
  simpl. rewrite (any_row_not_string _ _ H). exact IH.
Qed.

Lemma In_tail {A} (x : A) (l : list A) : In x (tail l) -> In x l.
Proof. destruct l; simpl; auto. Qed.

(** A string found in a cell of a row of a table is found by [any]. *)
Lemma any_row_cell t row c s :
  In row (tbl_rows t) -> In c row -> cell_text c = s ->
  any_row (JStr s) (get_table_data t) = true.
Proof.
  intros Hrow Hc Htext. unfold any_row, get_table_data.
  apply existsb_exists. exists (map cell_text row). split.
  - apply in_map_iff. exists row. split; [reflexivity | exact Hrow].
  - simpl. apply existsb_exists. exists (cell_text c). split.
    + apply in_map. exact Hc.
    + apply String.eqb_eq. symmetry. exact Htext.
Qed.

Lemma shows_found d s :
  shows py_repr d (JStr s) -> found_in_tables (tables d) (JStr s) = true.
Proof.
  intros (t & row & c & Ht & Hrow & Hc & Htext).
  unfold found_in_tables. apply existsb_exists. exists t. split; [exact Ht|].
  apply (any_row_cell t row c); [apply In_tail; exact Hrow | exact Hc | exact Htext].
Qed.

(** What the tests read is what the generator read. *)
Lemma category_data_inv json_data name data :
  category_data json_data name = Ok data ->
  exists objects,
    py_get json_data "objects" (JDict []) = Ok objects
    /\ py_getitem objects name = Ok data.
Proof.
  unfold category_data. intros H. inv_rbind H.
  destruct json_data; try discriminate.
  match goal with
  | E : py_getitem (JDict ?kv) "objects" = Ok ?o |- _ =>
      simpl in E; exists o; simpl; destruct (assoc "objects" kv);
      [injection E as ->; auto | discriminate E]
  end.
Qed.

(** In a run that returns, the identifying field of a record of a
    present category is there and shows. *)
Lemma identifying_field_shows json_data output_file (s s' : state) u
    objects name field data items item :
  generate_document py_repr str_title writable json_data templates output_file s
    = (Ok u, s') ->
  py_get json_data "objects" (JDict []) = Ok objects ->
  In (name, field) identifying_fields ->
  py_getitem objects name = Ok data ->
  py_iter data = Ok items ->
  In item items ->
  exists v, py_getitem item field = Ok v /\ shows py_repr (doc s') v.
Proof.
  intros H Hobj Hfield Hdata Hiter Hin.
  apply generate_document_Ok_inv in H
    as (objects' & sA & sB & sC & sD & sE & Hobj' & HA & HB & HC & HD & HE & _
        & Hdoc & _).
  rewrite Hobj in Hobj'. injection Hobj' as <-.
  rewrite Hdoc. unfold identifying_fields in Hfield. simpl in Hfield.
  destruct Hfield as [E|[E|[E|[E|[E|[]]]]]]; injection E as <- <-.
  - pose proof (section_of_present _ _ _ _ _ HA Hdata) as Hsec.
    destruct (type_a_section_shows _ _ _ _ _ _ Hsec Hiter Hin) as (v & Ev & Hv).
    exists v. split; [exact Ev|].
    apply shows_app_r, shows_app_l. exact Hv.
  - pose proof (section_of_present _ _ _ _ _ HB Hdata) as Hsec.
    destruct (per_record_section_shows _ _ _ _ _ _ _ _ _ rows_b_id Hsec Hiter Hin)
      as (v & Ev & Hv).
    exists v. split; [exact Ev|].
    apply shows_app_r, shows_app_r, shows_app_l. exact Hv.
  - pose proof (section_of_present _ _ _ _ _ HC Hdata) as Hsec.
    destruct (per_record_section_shows _ _ _ _ _ _ _ _ _ rows_c_id Hsec Hiter Hin)
      as (v & Ev & Hv).
    exists v. split; [exact Ev|].
    apply shows_app_r, shows_app_r, shows_app_r, shows_app_l. exact Hv.
  - pose proof (section_of_present _ _ _ _ _ HD Hdata) as Hsec.
    destruct (per_record_section_shows _ _ _ _ _ _ _ _ _ (rows_d_id str_title) Hsec
                Hiter Hin) as (v & Ev & Hv).
    exists v. split; [exact Ev|].
    apply shows_app_r, shows_app_r, shows_app_r, shows_app_r, shows_app_l. exact Hv.
  - pose proof (section_of_present _ _ _ _ _ HE Hdata) as Hsec.
    destruct (per_record_section_shows _ _ _ _ _ _ _ _ _ rows_e_id Hsec Hiter Hin)
      as (v & Ev & Hv).
    exists v. split; [exact Ev|].
    apply shows_app_r, shows_app_r, shows_app_r, shows_app_r, shows_app_r. exact Hv.
Qed.

Lemma test_content_verdict json_data output_file (s s' : state) u name field data items :
  generate_document py_repr str_title writable json_data templates output_file s
    = (Ok u, s') ->
  In (name, field) identifying_fields ->
  category_data json_data name = Ok data ->
  py_iter data = Ok items ->
  test_content name field json_data (tables (doc s'))
  = if string_ids items field then Passed else Failed.
Proof.
  intros H Hfield Hdata Hiter.
  destruct (category_data_inv _ _ _ Hdata) as (objects & Hobj & Hget).
  unfold test_content. rewrite Hdata, Hiter.
  apply assert_each_verdict.
  - intros item Hin.
    destruct (identifying_field_shows _ _ _ _ _ _ _ _ _ _ _ H Hobj Hfield Hget Hiter Hin)
      as (v & Ev & Hv).
    exists v. split; [exact Ev|]. intros str ->. apply shows_found. exact Hv.
  - intros v Hv. apply found_in_tables_not_string. exact Hv.
Qed.

(** In a run that returns, a category that could be read has been
    iterated over. *)
Lemma present_category_iterable json_data output_file (s s' : state) u
    objects name field data :
  generate_document py_repr str_title writable json_data templates output_file s
    = (Ok u, s') ->
  py_get json_data "objects" (JDict []) = Ok objects ->
  In (name, field) identifying_fields ->
  py_getitem objects name = Ok data ->
  exists items, py_iter data = Ok items.
Proof.
  intros H Hobj Hfield Hdata.
  apply generate_document_Ok_inv in H
    as (objects' & sA & sB & sC & sD & sE & Hobj' & HA & HB & HC & HD & HE & _).
  rewrite Hobj in Hobj'. injection Hobj' as <-.
  unfold identifying_fields in Hfield. simpl in Hfield.
  destruct Hfield as [E|[E|[E|[E|[E|[]]]]]]; injection E as <- <-.
  - pose proof (section_of_present _ _ _ _ _ HA Hdata) as Hsec.
    destruct Hsec as (tpl & t & items & rows1 & h1 & t1 & bss & n & h3 & t3 & _ & _
                      & Eiter & _).
    exists items. exact Eiter.
  - pose proof (section_of_present _ _ _ _ _ HB Hdata) as Hsec.
    destruct Hsec as (tpl & t & items & bss & _ & _ & Eiter & _).
    exists items. exact Eiter.
  - pose proof (section_of_present _ _ _ _ _ HC Hdata) as Hsec.
    destruct Hsec as (tpl & t & items & bss & _ & _ & Eiter & _).
    exists items. exact Eiter.
  - pose proof (section_of_present _ _ _ _ _ HD Hdata) as Hsec.
    destruct Hsec as (tpl & t & items & bss & _ & _ & Eiter & _).
    exists items. exact Eiter.
  - pose proof (section_of_present _ _ _ _ _ HE Hdata) as Hsec.
    destruct Hsec as (tpl & t & items & bss & _ & _ & Eiter & _).
    exists items. exact Eiter.
Qed.

Lemma test_content_outcome json_data output_file (s s' : state) u name field :
  generate_document py_repr str_title writable json_data templates output_file s
    = (Ok u, s') ->
  In (name, field) identifying_fields ->
  test_outcome (test_content name field) name field json_data (tables (doc s')).
Proof.
  intros H Hfield. split.
  - intros e He. unfold test_content. rewrite He. reflexivity.
  - intros data Hdata.
    destruct (category_data_inv _ _ _ Hdata) as (objects & Hobj & Hget).
    destruct (present_category_iterable _ _ _ _ _ _ _ _ _ H Hobj Hfield Hget)
      as (items & Hiter).
    exists items. split; [exact Hiter|].
    eapply test_content_verdict; eassumption.
Qed.

(** X12. What the tests of the categories B, C, D and E do on the tables
    of the document a returning run has saved. The generator skips a
    category that is absent from the objects, the tests do not: a test
    whose [json_data['objects'][name]] raises stops on that exception.
    When the category can be read, the test does not error: the category
    is iterable, and the test passes when the identifying field of every
    record is a string and fails otherwise, a number never being found
    among the cell texts. *)
Theorem category_tests_verdict json_data output_file (s s' : state) u :
  generate_document py_repr str_title writable json_data templates output_file s
    = (Ok u, s') ->
  exists d,
    files s' !! output_file = Some d
    /\ test_outcome test_type_b_content "TypeB" "component_id" json_data (tables d)
    /\ test_outcome test_type_c_content "TypeC" "transaction_id" json_data (tables d)
    /\ test_outcome test_type_d_content "TypeD" "test_id" json_data (tables d)
    /\ test_outcome test_type_e_content "TypeE" "employee_id" json_data (tables d).
Proof.
  intros H. exists (doc s'). split.
  { apply generate_document_Ok_inv in H
      as (objects & sA & sB & sC & sD & sE & _ & _ & _ & _ & _ & _ & _ & _ & Hfiles).
    rewrite Hfiles. apply lookup_insert_eq. }
  repeat split;
    (eapply test_content_outcome; [exact H|]);
    unfold identifying_fields; simpl; tauto.
Qed.

(** X13. The test of category A looks in the first table only. On the
    document a returning run has saved from an empty document, with
    TypeA among the objects, that table is Table 1 of category A, and
    the test passes when the id of every record is a string and fails
    otherwise. *)
Theorem type_a_test_verdict json_data output_file fs (s' : state) u data items :
  generate_document py_repr str_title writable json_data templates output_file
    (State [] fs) = (Ok u, s') ->
  category_data json_data "TypeA" = Ok data ->
  py_iter data = Ok items ->
  exists d,
    files s' !! output_file = Some d
    /\ test_type_a_content json_data (tables d)
       = if string_ids items "id" then Passed else Failed.
Proof.
  intros H Hdata Hiter.
  destruct (category_data_inv _ _ _ Hdata) as (objects & Hobj & Hget).
  apply generate_document_Ok_inv in H
    as (objects' & sA & sB & sC & sD & sE & Hobj' & HA & _ & _ & _ & _ & _
        & Hdoc & Hfiles).
  rewrite Hobj in Hobj'. injection Hobj' as <-.
  exists (doc s'). split; [rewrite Hfiles; apply lookup_insert_eq|].
  pose proof (section_of_present _ _ _ _ _ HA Hget) as Hsec.
  destruct Hsec as (tpl & t & items' & rows1 & h1 & t1 & bss & n & h3 & t3 & _ & _
                    & Eiter & Ecomp & _ & _ & _ & _ & _ & _ & _ & _ & ->).
  rewrite Hiter in Eiter. injection Eiter as <-.
  unfold test_type_a_content. rewrite Hdata, Hdoc. simpl doc.
  rewrite !tables_app, tables_title_blocks, tables_table_blocks. simpl app.
  rewrite Hiter. apply assert_each_verdict.
  - intros item Hin.
    destruct (comprehension_In _ _ _ _ Ecomp Hin) as (row & Hrow & Erow).
    unfold device_row in Erow. inv_rbind Erow. injection Erow as <-.
    eexists. split; [reflexivity|]. intros str ->.
    eapply any_row_cell.
    + simpl. right. apply in_map. exact Hrow.
    + unfold data_row. apply in_or_app. left. left. reflexivity.
    + reflexivity.
  - intros v Hv. apply any_row_not_string. exact Hv.
Qed.

(** X14. After a run that returned, [tearDownClass] leaves no file at
    the test output path and leaves every other path as it was before
    the run; when there was no file at that path before the run, the
    files are exactly what they were. A file that was there before the
    run is gone. *)
Theorem tearDownClass_removes_output json_data (s s' : state) u :
  generate_document py_repr str_title writable json_data templates "test_output.docx" s
    = (Ok u, s') ->
  tearDownClass (files s') !! "test_output.docx" = None
  /\ (forall path, path <> "test_output.docx" ->
        tearDownClass (files s') !! path = files s !! path)
  /\ (files s !! "test_output.docx" = None -> tearDownClass (files s') = files s).
Proof.
  intros H.
  apply generate_document_Ok_inv in H
    as (objects & sA & sB & sC & sD & sE & _ & _ & _ & _ & _ & _ & _ & _ & Hfiles).
  unfold tearDownClass. rewrite Hfiles, lookup_insert_eq, delete_insert_eq.
  split; [apply lookup_delete_eq|]. split.
  - intros path Hne. apply lookup_delete_ne. congruence.
  - apply delete_id.
Qed.

End Tests.

(** ** The rows of category D *)

Section TypeD.

Variable py_repr : json -> string.
Variable str_title : string -> string.
Variable templates : gmap string template.

(** X9. In a call of [process_type_d] that returns, every record has
    three tables, the records in their order, and for each record: the
    environment is a string; the single data row of Table 1 shows the
    [str] of the test id and the environment as it is; Table 2 has one
    data row per entry of the metrics, in the order of the mapping,
    showing the key with its underscores replaced by spaces and then
    title-cased, and the [str] of the value; the single data row of
    Table 3 shows "Environment Type" and the title-cased environment. *)
Theorem type_d_metrics_rows data (s s' : state) u :
  process_type_d py_repr str_title templates data s = (Ok u, s') ->
  exists items tss,
    py_iter data = Ok items
    /\ tables (doc s') = tables (doc s) ++ concat tss
    /\ Forall2 (fun item ts =>
                  exists test_id env kvs T1 T2 T3,
                    ts = [T1; T2; T3]
                    /\ py_getitem item "test_id" = Ok test_id
                    /\ py_getitem item "environment" = Ok (JStr env)
                    /\ py_getitem item "metrics" = Ok (JDict kvs)
                    /\ (exists row pad,
                          data_rows T1 = [row]
                          /\ row_texts row = [py_str py_repr test_id; env] ++ pad)
                    /\ Forall2 (fun kv row =>
                                  exists pad,
                                    row_texts row
                                    = [str_title (replace_char "_" " " kv.1);
                                       py_str py_repr kv.2] ++ pad)
                         kvs (data_rows T2)
                    /\ (exists row pad,
                          data_rows T3 = [row]
                          /\ row_texts row = ["Environment Type"; str_title env] ++ pad))
         items tss.
Proof.
  intros H. apply process_type_d_Ok_inv in H as (bs & Hsec & ->).
  apply per_record_section_tables in Hsec as (items & tss & Eiter & Htables & Hall).
  exists items, tss. split; [exact Eiter|]. split.
  { simpl. rewrite tables_app, Htables. reflexivity. }
  eapply Forall2_impl; [exact Hall|].
  intros item ts (r & h1 & h2 & h3 & Er & _ & _ & _ & ->).
  unfold rows_d in Er. inv_rbind Er. injection Er as <-. simpl.
  match goal with
  | Ei : py_getitem item "test_id" = Ok ?test_id,
    Ee : py_getitem item "environment" = Ok ?environment,
    Em : py_getitem item "metrics" = Ok ?metrics,
    Ek : py_items ?metrics = Ok ?kvs0,
    Et : py_title str_title ?environment = Ok ?titled |- _ =>
      destruct metrics as [| | | | | |kvs]; try discriminate Ek;
      simpl in Ek; injection Ek as Ek; subst kvs0;
      destruct environment as [| | | |env| |]; try discriminate Et;
      simpl in Et; injection Et as Et; subst titled;
      exists test_id, env, kvs
  end.
  do 3 eexists.
  split; [reflexivity|]. split; [reflexivity|]. split; [reflexivity|].
  split; [reflexivity|]. split; [|split].
  - match goal with
    | |- context [rendered_table py_repr h1 [[?a; ?b]]] =>
        destruct (row_texts_pair py_repr (length h1) a b) as [pad Hpad]
    end.
    eexists _, pad. split; [reflexivity | exact Hpad].
  - rewrite data_rows_rendered, map_map.
    apply Forall2_fmap_r. apply Forall_Forall2_diag. apply Forall_forall.
    intros [k v] _. simpl.
    apply (row_texts_pair py_repr _ (JStr (str_title (replace_char "_" " " k))) v).
  - destruct (row_texts_pair py_repr (length h3) (JStr "Environment Type")
                (JStr (str_title env))) as [pad Hpad].
    eexists _, pad. split; [reflexivity | exact Hpad].
Qed.

End TypeD.

(** ** The further theorems on sample inputs *)

Lemma generate_document_writes_one_file_witness :
  "other.docx" <> "out.docx"
  /\ files (snd sample_run) !! "other.docx" = files fresh !! "other.docx"
  /\ (fst sample_run = Ok tt ->
      files (snd sample_run) !! "out.docx" = Some (doc (snd sample_run))).
Proof.
  assert (Hne : "other.docx" <> "out.docx") by discriminate.
  split; [exact Hne|].
  exact (generate_document_writes_one_file no_repr no_title any_path sample_templates
           sample_input "out.docx" fresh "other.docx" Hne).
Defined.

Lemma generate_document_twice_witness :
  sample_run = (Ok tt, snd sample_run)
  /\ exists bs,
       doc (snd sample_run) = doc fresh ++ bs
       /\ generate_document no_repr no_title any_path sample_input sample_templates
            "out.docx" (snd sample_run)
          = (Ok tt, State (doc fresh ++ bs ++ bs)
                          (<["out.docx" := doc fresh ++ bs ++ bs]> (files fresh))).
Proof.
  split; [exact sample_run_returns|].
  exact (generate_document_twice no_repr no_title any_path sample_templates
           sample_input "out.docx" fresh (snd sample_run) tt sample_run_returns).
Defined.

Lemma empty_category_heading_only_witness :
  py_iter (JDict []) = Ok []
  /\ process_type_b no_repr {[ "type_b" := title_only ]} (JDict []) fresh
     = (Ok tt, State [BParagraph (heading "Components"); BParagraph blank] ∅).
Proof.
  split; [reflexivity|].
  exact (proj1 (empty_category_heading_only no_repr no_title {[ "type_b" := title_only ]}
                  (JDict []) fresh eq_refl)
           title_only "Components" eq_refl eq_refl).
Defined.

Lemma missing_table_key_is_found_late_witness :
  py_iter (JList [component]) = Ok [component]
  /\ table1_headers title_only = None
  /\ process_type_b no_repr {[ "type_b" := title_only ]} (JList [component]) fresh
     = (Raise (KeyError "table1_headers"), State (title_blocks "Components") ∅).
Proof.
  split; [reflexivity|]. split; [reflexivity|].
  exact (proj1 (missing_table_key_is_found_late no_repr no_title
                  {[ "type_b" := title_only ]} (JList [component]) component []
                  title_only "Components" fresh eq_refl eq_refl eq_refl)
           eq_refl (JStr "C1") (JStr "2024-02-01") eq_refl eq_refl).
Defined.

Lemma type_b_run_returns :
  process_type_b no_repr sample_templates (JList [component]) fresh
  = (Ok tt, snd (process_type_b no_repr sample_templates (JList [component]) fresh)).
Proof. vm_compute. reflexivity. Defined.

Lemma type_b_specs_rows_witness :
  exists items tss,
    py_iter (JList [component]) = Ok items
    /\ tables (doc (snd (process_type_b no_repr sample_templates (JList [component])
                           fresh)))
       = tables (doc fresh) ++ concat tss
    /\ Forall2 (fun item ts =>
                  exists kvs m T1 T2 T3,
                    ts = [T1; T2; T3]
                    /\ py_getitem item "specs" = Ok (JDict kvs)
                    /\ assoc "manufacturer" kvs = Some m
                    /\ Forall2 (fun kv row =>
                                  exists pad,
                                    row_texts row = [kv.1; py_str no_repr kv.2] ++ pad)
                         kvs (data_rows T2)
                    /\ (exists row pad,
                          data_rows T3 = [row]
                          /\ row_texts row = ["Manufacturer"; py_str no_repr m] ++ pad)
                    /\ (exists row pad,
                          In row (data_rows T2)
                          /\ row_texts row = ["manufacturer"; py_str no_repr m] ++ pad))
         items tss.
Proof.
  exact (type_b_specs_rows no_repr sample_templates (JList [component]) fresh _ tt
           type_b_run_returns).
Defined.

Lemma type_e_run_returns :
  process_type_e no_repr more_templates (JList [employee]) fresh
  = (Ok tt, snd (process_type_e no_repr more_templates (JList [employee]) fresh)).
Proof. vm_compute. reflexivity. Defined.

Lemma type_e_projects_rows_witness :
  exists items tss,
    py_iter (JList [employee]) = Ok items
    /\ tables (doc (snd (process_type_e no_repr more_templates (JList [employee]) fresh)))
       = tables (doc fresh) ++ concat tss
    /\ Forall2 (fun item ts =>
                  exists projects ps T1 T2 T3,
                    ts = [T1; T2; T3]
                    /\ py_getitem item "projects" = Ok projects
                    /\ py_iter projects = Ok ps
                    /\ length (data_rows T2) = length ps
                    /\ (forall i row,
                          data_rows T2 !! i = Some row ->
                          exists p pad,
                            ps !! i = Some p
                            /\ row_texts row
                               = [str_of_Z (Z.of_nat (i + 1)); py_str no_repr p] ++ pad)
                    /\ (exists row pad,
                          data_rows T3 = [row]
                          /\ row_texts row
                             = ["Total Projects";
                                str_of_Z (Z.of_nat (length (data_rows T2)))] ++ pad))
         items tss.
Proof.
  exact (type_e_projects_rows no_repr more_templates (JList [employee]) fresh _ tt
           type_e_run_returns).
Defined.

Lemma type_c_run_returns :
  process_type_c no_repr sample_templates (JList [transaction]) fresh
  = (Ok tt, snd (process_type_c no_repr sample_templates (JList [transaction]) fresh)).
Proof. vm_compute. reflexivity. Defined.

Lemma type_c_parties_and_status_witness :
  exists items tss,
    py_iter (JList [transaction]) = Ok items
    /\ tables (doc (snd (process_type_c no_repr sample_templates (JList [transaction])
                           fresh)))
       = tables (doc fresh) ++ concat tss
    /\ Forall2 (fun item ts =>
                  exists parties ps approved T1 T2 T3,
                    ts = [T1; T2; T3]
                    /\ py_getitem item "parties" = Ok parties
                    /\ py_iter parties = Ok ps
                    /\ py_getitem item "approved" = Ok approved
                    /\ length (data_rows T2) = length ps
                    /\ (forall i row,
                          data_rows T2 !! i = Some row ->
                          exists p pad,
                            ps !! i = Some p
                            /\ row_texts row
                               = [str_of_Z (Z.of_nat (i + 1)); py_str no_repr p] ++ pad)
                    /\ (exists row pad,
                          data_rows T3 = [row]
                          /\ row_texts row
                             = ["Approved"; if py_truthy approved then "Yes" else "No"]
                               ++ pad))
         items tss.
Proof.
  exact (type_c_parties_and_status no_repr sample_templates (JList [transaction]) fresh _ tt
           type_c_run_returns).
Defined.

Lemma type_d_run_returns :
  process_type_d no_repr no_title more_templates (JList [test_record (JStr "Prod")]) fresh
  = (Ok tt,
     snd (process_type_d no_repr no_title more_templates
            (JList [test_record (JStr "Prod")]) fresh)).
Proof. vm_compute. reflexivity. Defined.

Lemma type_d_metrics_rows_witness :
  exists items tss,
    py_iter (JList [test_record (JStr "Prod")]) = Ok items
    /\ tables (doc (snd (process_type_d no_repr no_title more_templates
                           (JList [test_record (JStr "Prod")]) fresh)))
       = tables (doc fresh) ++ concat tss
    /\ Forall2 (fun item ts =>
                  exists test_id env kvs T1 T2 T3,
                    ts = [T1; T2; T3]
                    /\ py_getitem item "test_id" = Ok test_id
                    /\ py_getitem item "environment" = Ok (JStr env)
                    /\ py_getitem item "metrics" = Ok (JDict kvs)
                    /\ (exists row pad,
                          data_rows T1 = [row]
                          /\ row_texts row = [py_str no_repr test_id; env] ++ pad)
                    /\ Forall2 (fun kv row =>
                                  exists pad,
                                    row_texts row
                                    = [no_title (replace_char "_" " " kv.1);
                                       py_str no_repr kv.2] ++ pad)
                         kvs (data_rows T2)
                    /\ (exists row pad,
                          data_rows T3 = [row]
                          /\ row_texts row = ["Environment Type"; no_title env] ++ pad))
         items tss.
Proof.
  exact (type_d_metrics_rows no_repr no_title more_templates
           (JList [test_record (JStr "Prod")]) fresh _ tt type_d_run_returns).
Defined.

Lemma environment_must_be_a_string_witness :
  is_string (JInt 3) = false
  /\ process_type_d no_repr no_title more_templates (JList [test_record (JInt 3)]) fresh
     = (Raise AttributeError,
        State (title_blocks "Test Results"
               ++ table_blocks no_repr ["Test ID"; "Environment"] [[JStr "R1"; JInt 3]]
                    (Some "Test Information")
               ++ table_blocks no_repr ["Metric"; "Value"]
                    [[JStr "Latency"; JInt 5]; [JStr "Errors"; JInt 0]] (Some "Metrics"))
              ∅).
Proof.
  split; [reflexivity|].
  refine (environment_must_be_a_string no_repr no_title more_templates
            (JList [test_record (JInt 3)]) (test_record (JInt 3)) []
            "Test Results" ["Test ID"; "Environment"] (Some "Test Information")
            ["Metric"; "Value"] (Some "Metrics")
            ["Field"; "Value"] (Some "Additional Details")
            (JStr "R1") (JInt 3) [("Latency", JInt 5); ("Errors", JInt 0)] fresh
            _ _ _ _ _ _ _ _).
  - vm_compute. reflexivity.
  - reflexivity.
  - reflexivity.
  - reflexivity.
  - reflexivity.
  - reflexivity.
  - simpl. lia.
  - simpl. lia.
Defined.

Lemma generated_tables_are_grids_witness :
  exists ts,
    tables (doc (snd sample_run)) = tables (doc fresh) ++ ts /\ Forall grid_table ts.
Proof.
  exact (generated_tables_are_grids no_repr no_title any_path sample_templates
           sample_input "out.docx" fresh (snd sample_run) tt sample_run_returns).
Defined.

Lemma category_tests_verdict_witness :
  exists d,
    files (snd sample_run) !! "out.docx" = Some d
    /\ test_type_b_content sample_input (tables d) = Passed
    /\ test_type_c_content sample_input (tables d) = Passed
    /\ test_type_d_content sample_input (tables d) = Errored (KeyError "TypeD").
Proof.
  destruct (category_tests_verdict no_repr no_title any_path sample_templates
              sample_input "out.docx" fresh (snd sample_run) tt sample_run_returns)
    as (d & Hd & [_ HB] & [_ HC] & [HD _] & _).
  exists d. split; [exact Hd|]. split; [|split].
  - destruct (HB (JList [component]) eq_refl) as (items & Hiter & ->).
    injection Hiter as <-. reflexivity.
  - destruct (HC (JList [transaction]) eq_refl) as (items & Hiter & ->).
    injection Hiter as <-. reflexivity.
  - exact (HD (KeyError "TypeD") eq_refl).
Defined.

Lemma devices_run_returns :
  generate_document no_repr no_title any_path devices_input sample_templates
    "test_output.docx" (State [] ∅)
  = (Ok tt,
     snd (generate_document no_repr no_title any_path devices_input sample_templates
            "test_output.docx" (State [] ∅))).
Proof. vm_compute. reflexivity. Defined.

Lemma type_a_test_verdict_witness :
  exists d,
    files (snd (generate_document no_repr no_title any_path devices_input
                  sample_templates "test_output.docx" (State [] ∅)))
      !! "test_output.docx" = Some d
    /\ test_type_a_content devices_input (tables d) = Passed.
Proof.
  exact (type_a_test_verdict no_repr no_title any_path sample_templates devices_input
           "test_output.docx" ∅ _ tt (JList [device "D1" "a"; device "D2" "b"])
           [device "D1" "a"; device "D2" "b"] devices_run_returns eq_refl eq_refl).
Defined.

Lemma tearDownClass_removes_output_witness :
  tearDownClass
    (files (snd (generate_document no_repr no_title any_path devices_input
                   sample_templates "test_output.docx" (State [] ∅))))
  = ∅.
Proof.
  exact (proj2 (proj2 (tearDownClass_removes_output no_repr no_title any_path
                         sample_templates devices_input (State [] ∅) _ tt
                         devices_run_returns))
           eq_refl).
Defined.

(** ** Inputs on which the identifiers are rendered

    Whether the identifying fields reach the output is decided by the
    input alone: the records must be complete and the header rows wide
    enough for the run to get to the save. *)

Section Ready.

Variable py_repr : json -> string.
Variable str_title : string -> string.
Variable writable : string -> bool.
Variable templates : gmap string template.

Lemma Forall_exists_Forall2 {A B} (R : A -> B -> Prop) xs :
  Forall (fun x => exists y, R x y) xs -> exists ys, Forall2 R xs ys.
Proof.
  induction 1 as [|x xs [y Hy] _ [ys IH]].
  - exists []. constructor.
  - exists (y :: ys). constructor; assumption.
Qed.

Lemma rows_fit_one h row : length row <= length h -> rows_fit h [row].
Proof. intros L. apply List.Forall_cons; [exact L | apply List.Forall_nil]. Qed.

Lemma rows_fit_pairs {A} h (f : A -> list json) xs :
  (forall x, length (f x) <= length h) -> rows_fit h (map f xs).
Proof.
  intros L. unfold rows_fit. induction xs as [|x xs IH]; simpl.
  - apply List.Forall_nil.
  - apply List.Forall_cons; [apply L | exact IH].
Qed.

Lemma rows_b_fit item r h1 h2 h3 :
  rows_b item = Ok r ->
  2 <= length h1 -> 2 <= length h2 -> 2 <= length h3 ->
  rows_fit h1 r.1.1 /\ rows_fit h2 r.1.2 /\ rows_fit h3 r.2.
Proof.
  unfold rows_b. intros H L1 L2 L3. inv_rbind H. injection H as <-. simpl.
  split; [|split].
  - apply rows_fit_one. simpl. lia.
  - apply rows_fit_pairs. intros [k v]. simpl. lia.
  - apply rows_fit_one. simpl. lia.
Qed.

Lemma rows_c_fit item r h1 h2 h3 :
  rows_c item = Ok r ->
  3 <= length h1 -> 2 <= length h2 -> 2 <= length h3 ->
  rows_fit h1 r.1.1 /\ rows_fit h2 r.1.2 /\ rows_fit h3 r.2.
Proof.
  unfold rows_c. intros H L1 L2 L3. inv_rbind H. injection H as <-. simpl.
  split; [|split].
  - apply rows_fit_one. simpl. lia.
  - unfold numbered. apply rows_fit_pairs. intros [i x]. simpl. lia.
  - apply rows_fit_one. simpl. lia.
Qed.

Lemma rows_d_fit item r h1 h2 h3 :
  rows_d str_title item = Ok r ->
  2 <= length h1 -> 2 <= length h2 -> 2 <= length h3 ->
  rows_fit h1 r.1.1 /\ rows_fit h2 r.1.2 /\ rows_fit h3 r.2.
Proof.
  unfold rows_d. intros H L1 L2 L3. inv_rbind H. injection H as <-. simpl.
  split; [|split].
  - apply rows_fit_one. simpl. lia.
  - apply rows_fit_pairs. intros [k v]. simpl. lia.
  - apply rows_fit_one. simpl. lia.
Qed.

Lemma rows_e_fit item r h1 h2 h3 :
  rows_e item = Ok r ->
  3 <= length h1 -> 2 <= length h2 -> 2 <= length h3 ->
  rows_fit h1 r.1.1 /\ rows_fit h2 r.1.2 /\ rows_fit h3 r.2.
Proof.
  unfold rows_e. intros H L1 L2 L3. inv_rbind H. injection H as <-. simpl.
  split; [|split].
  - apply rows_fit_one. simpl. lia.
  - unfold numbered. apply rows_fit_pairs. intros [i x]. simpl. lia.
  - apply rows_fit_one. simpl. lia.
Qed.

(** A category rendered record by record that is ready has a section. *)
Lemma ready_per_record kv name k w1 (rows_of : json -> result rows3) :
  (forall item r h1 h2 h3,
     rows_of item = Ok r ->
     w1 <= length h1 -> 2 <= length h2 -> 2 <= length h3 ->
     rows_fit h1 r.1.1 /\ rows_fit h2 r.1.2 /\ rows_fit h3 r.2) ->
  category_ready templates (JDict kv) name k w1 2 (complete rows_of) ->
  exists bs,
    section_of (JDict kv) name (per_record_section py_repr templates k rows_of) bs.
Proof.
  intros Hfit Hready. destruct (assoc name kv) as [data|] eqn:E.
  - destruct (Hready data) as (items & tpl & Hiter & Htpl & Hwide & Hall).
    { simpl. rewrite E. reflexivity. }
    destruct Hwide as (t & h1 & t1 & h2 & t2 & h3 & t3 & -> & L1 & L2 & L3).
    destruct (Forall_exists_Forall2
                (fun item b =>
                   exists r, rows_of item = Ok r
                             /\ three_tables py_repr
                                  (full_template t h1 t1 h2 t2 h3 t3) r b) items)
      as (bss & Hbss).
    { revert Hall. apply List.Forall_impl. intros item (r & Er).
      destruct (Hfit _ _ h1 h2 h3 Er L1 L2 L3) as (F1 & F2 & F3).
      eexists. exists r. split; [exact Er|].
      exists h1, t1, h2, t2, h3, t3. simpl.
      repeat (split; [first [reflexivity | assumption]|]). reflexivity. }
    exists (title_blocks t ++ concat bss). right. exists data.
    split; [simpl; rewrite E; reflexivity|].
    split; [simpl; rewrite E; reflexivity|].
    exists (full_template t h1 t1 h2 t2 h3 t3), t, items, bss.
    repeat (split; [first [reflexivity | assumption]|]). reflexivity.
  - exists []. left. split; [simpl; rewrite E; reflexivity | reflexivity].
Qed.

(** So has category A. *)
Lemma ready_type_a kv :
  category_ready templates (JDict kv) "TypeA" "type_a" 3 3 complete_a ->
  exists bs, section_of (JDict kv) "TypeA" (type_a_section py_repr templates) bs.
Proof.
  intros Hready. destruct (assoc "TypeA" kv) as [data|] eqn:E.
  - destruct (Hready data) as (items & tpl & Hiter & Htpl & Hwide & Hall).
    { simpl. rewrite E. reflexivity. }
    destruct Hwide as (t & h1 & t1 & h2 & t2 & h3 & t3 & -> & L1 & L2 & L3).
    assert (exists rows1, comprehension device_row items = Ok rows1 /\ rows_fit h1 rows1)
      as (rows1 & Ecomp & F1).
    { clear Hiter. induction Hall as [|item items [[row Erow] _] _ (rows1 & E1 & F1)].
      - exists []. split; [reflexivity | apply List.Forall_nil].
      - exists (row :: rows1). split.
        + simpl. rewrite Erow. simpl. rewrite E1. reflexivity.
        + apply List.Forall_cons; [|exact F1].
          unfold device_row in Erow. inv_rbind Erow. injection Erow as <-.
          simpl. lia. }
    destruct (Forall_exists_Forall2
                (parameters_table py_repr (full_template t h1 t1 h2 t2 h3 t3)) items)
      as (bss & Hbss).
    { revert Hall. apply List.Forall_impl. intros item [_ [row Erow]].
      eexists. exists row, h2, t2.
      split; [exact Erow|]. split; [reflexivity|]. split; [reflexivity|].
      split; [|reflexivity].
      apply rows_fit_one.
      unfold parameters_row in Erow. inv_rbind Erow. injection Erow as <-.
      simpl. lia. }
    pose proof (py_len_iter _ _ Hiter) as Hlen.
    eexists. right. exists data.
    split; [simpl; rewrite E; reflexivity|].
    split; [simpl; rewrite E; reflexivity|].
    exists (full_template t h1 t1 h2 t2 h3 t3), t, items, rows1, h1, t1, bss,
      (length items), h3, t3.
    repeat (split; [first [reflexivity | assumption]|]).
    split; [|reflexivity].
    apply rows_fit_one. simpl. lia.
  - exists []. left. split; [simpl; rewrite E; reflexivity | reflexivity].
Qed.

(** C8, amended. The identifying fields do not reach the output on every
    input: a record that lacks another field of its contract stops the
    run before anything is rendered. On an input that is ready (the
    objects are a dict, every present category can be iterated over, all
    the fields of its records can be read, its template entry has all
    its keys and header rows at least as wide as the rows written) and
    with an output path that can be written, the run returns, the
    document is saved, and for every category present in the objects the
    identifying field of each of its records (id for TypeA, component_id
    for TypeB, transaction_id for TypeC, test_id for TypeD, employee_id
    for TypeE) is there and its [str] is the text of a cell of a data
    row of a table of the saved document. *)
Theorem identifying_fields_shown json_data objects output_file (s : state) :
  py_get json_data "objects" (JDict []) = Ok objects ->
  input_ready str_title templates objects ->
  writable output_file = true ->
  exists s',
    generate_document py_repr str_title writable json_data templates output_file s
      = (Ok tt, s')
    /\ files s' !! output_file = Some (doc s')
    /\ forall name field data items item,
         In (name, field) identifying_fields ->
         py_getitem objects name = Ok data ->
         py_iter data = Ok items ->
         In item items ->
         exists v, py_getitem item field = Ok v /\ shows py_repr (doc s') v.
Proof.
  intros Hobj (Hdict & RA & RB & RC & RD & RE) Hw.
  destruct objects as [| | | | | |kv]; try discriminate Hdict.
  destruct (ready_type_a kv RA) as (sA & HA).
  destruct (ready_per_record kv "TypeB" "type_b" 2 rows_b rows_b_fit RB) as (sB & HB).
  destruct (ready_per_record kv "TypeC" "type_c" 3 rows_c rows_c_fit RC) as (sC & HC).
  destruct (ready_per_record kv "TypeD" "type_d" 2 (rows_d str_title) rows_d_fit RD)
    as (sD & HD).
  destruct (ready_per_record kv "TypeE" "type_e" 3 rows_e rows_e_fit RE) as (sE & HE).
  pose proof (generate_document_run _ _ _ _ _ _ _ _ _ _ _ _ s Hobj HA HB HC HD HE Hw)
    as Hrun.
  eexists. split; [exact Hrun|]. split; [simpl; apply lookup_insert_eq|].
  intros name field data items item Hfield Hdata Hiter Hin.
  exact (identifying_field_shows _ _ _ _ _ _ _ _ _ _ _ _ _ _ _
           Hrun Hobj Hfield Hdata Hiter Hin).
Qed.

End Ready.

(** ** The identifiers on sample inputs *)

Lemma all_input_ready : input_ready no_title all_templates (JDict all_objects).
Proof.
  split; [reflexivity|]. split; [|split; [|split; [|split]]];
    intros data Hdata; injection Hdata as <-;
    eexists; eexists;
    (split; [reflexivity|]); (split; [reflexivity|]);
    (split; [do 7 eexists; split; [reflexivity|]; simpl; lia|]).
  - apply List.Forall_cons; [split; eexists; vm_compute; reflexivity|].
    apply List.Forall_cons; [split; eexists; vm_compute; reflexivity|].
    apply List.Forall_nil.
  - apply List.Forall_cons; [eexists; vm_compute; reflexivity | apply List.Forall_nil].
  - apply List.Forall_cons; [eexists; vm_compute; reflexivity | apply List.Forall_nil].
  - apply List.Forall_cons; [eexists; vm_compute; reflexivity | apply List.Forall_nil].
  - apply List.Forall_cons; [eexists; vm_compute; reflexivity | apply List.Forall_nil].
Defined.

Lemma identifying_fields_shown_witness :
  exists s',
    generate_document no_repr no_title any_path all_input all_templates
      "out.docx" fresh = (Ok tt, s')
    /\ files s' !! "out.docx" = Some (doc s')
    /\ forall name field data items item,
         In (name, field) identifying_fields ->
         py_getitem (JDict all_objects) name = Ok data ->
         py_iter data = Ok items ->
         In item items ->
         exists v, py_getitem item field = Ok v /\ shows no_repr (doc s') v.
Proof.
  exact (identifying_fields_shown no_repr no_title any_path all_templates
           all_input (JDict all_objects) "out.docx" fresh
           eq_refl all_input_ready eq_refl).
Defined.

(** C8 as the specification words it fails. A component that has its id
    and lacks its installation date: the run raises on reading the
    missing field, before the first table of the record; the document
    holds no table and no file is written, so the id shows nowhere. *)
Lemma ids_not_shown_when_a_field_is_missing :
  fst (generate_document no_repr no_title any_path incomplete_input sample_templates
         "out.docx" fresh) = Raise (KeyError "installation_date")
  /\ tables (doc (snd (generate_document no_repr no_title any_path incomplete_input
                         sample_templates "out.docx" fresh))) = []
  /\ files (snd (generate_document no_repr no_title any_path incomplete_input
                   sample_templates "out.docx" fresh)) !! "out.docx" = None
  /\ ~ ids_shown_for_every_input no_repr no_title any_path sample_templates
         incomplete_input "out.docx" fresh.
Proof.
  split; [vm_compute; reflexivity|].
  split; [vm_compute; reflexivity|].
  split; [vm_compute; reflexivity|].
  intros H.
  destruct (H (JDict [("TypeB", JList [JDict [("component_id", JStr "C1")]])])
              "TypeB" "component_id"
              (JList [JDict [("component_id", JStr "C1")]])
              [JDict [("component_id", JStr "C1")]]
              (JDict [("component_id", JStr "C1")])
              eq_refl (or_intror (or_introl eq_refl)) eq_refl eq_refl
              (or_introl eq_refl))
    as (v & _ & t & row & c & Ht & _).
  vm_compute in Ht. exact Ht.
Qed.
